(** * OpenGLProxy: the OpenGL render backend of Olive

    A shallow embedding of [app/render/backend/opengl/openglproxy.cpp].

    The proxy owns a context, one framebuffer, a shader cache, a texture
    cache and a cache of colour processors.  Its member functions are
    embedded as functions from the proxy's fields to the new fields together
    with the list of calls they issue, in program order, to the collaborators
    the file does not define (the GL function table, the framebuffer, the
    shader program objects, the texture cache, the colour manager).  The
    effect of those calls on the GL texture units and on the current program
    is given by an interpreter over the call list. *)

From Stdlib Require Import Floats.PrimFloat Floats.SpecFloat Floats.FloatOps.
From Stdlib Require Import Numbers.Cyclic.Int63.Uint63.
From Stdlib Require Import ZArith QArith Lia.
From stdpp Require Import gmap strings list fin_maps.

Local Open Scope Z_scope.

(** ** Data *)

(** Modelled from the spec: [render/pixelformat.h] is not among the sources;
    the formats and the alpha-channel predicate follow the frame/format
    boundary of the spec (alpha-channel presence per pixel format).  The two
    float formats are the ones [FrameToValue] names. *)
Inductive PixelFormat : Set :=
| PIX_FMT_RGB8 | PIX_FMT_RGBA8
| PIX_FMT_RGB16U | PIX_FMT_RGBA16U
| PIX_FMT_RGB16F | PIX_FMT_RGBA16F
| PIX_FMT_RGB32F | PIX_FMT_RGBA32F
| PIX_FMT_INVALID.

Definition FormatHasAlphaChannel (f : PixelFormat) : bool :=
  match f with
  | PIX_FMT_RGBA8 | PIX_FMT_RGBA16U | PIX_FMT_RGBA16F | PIX_FMT_RGBA32F => true
  | _ => false
  end.

(** [VideoParams(width, height, format, divider)]. *)
Record VideoParams : Type := MkVideoParams {
  width : Z;
  height : Z;
  format : PixelFormat;
  divider : Z
}.

(** Modelled from the spec: the divider is the integer factor by which the
    working resolution is reduced from the nominal one. *)
Definition effective_width (p : VideoParams) : Z := Z.quot (width p) (divider p).
Definition effective_height (p : VideoParams) : Z := Z.quot (height p) (divider p).

(** A GPU texture: its GL name ([texture()], never 0 for a created texture)
    and the parameters it was created with. *)
Record OpenGLTexture : Type := MkTexture {
  texture : N;
  tex_params : VideoParams
}.

(** [OpenGLTextureCache::ReferencePtr]: a shared pointer, [None] when null. *)
Definition ReferencePtr : Type := option OpenGLTexture.

(** Modelled from the spec: the pixel size of a texture and of a frame is the
    one its parameters determine. *)
Definition tex_width (t : OpenGLTexture) : Z := effective_width (tex_params t).
Definition tex_height (t : OpenGLTexture) : Z := effective_height (tex_params t).
Definition tex_divider (t : OpenGLTexture) : Z := divider (tex_params t).

(** A CPU frame.  [sample_aspect_ratio] is a rational number. *)
Record Frame : Type := MkFrame {
  video_params : VideoParams;
  sample_aspect_ratio : Q;
  linesize_pixels : Z;
  data : list Z
}.

Definition frame_width (f : Frame) : Z := effective_width (video_params f).
Definition frame_height (f : Frame) : Z := effective_height (video_params f).
Definition frame_format (f : Frame) : PixelFormat := format (video_params f).

(** [NodeParam::DataType], the kinds the binding switch of
    [RunNodeAccelerated] lists. *)
Inductive DataType : Set :=
| kInt | kFloat | kVec2 | kVec3 | kVec4 | kMatrix | kCombo | kColor | kBoolean
| kFootage | kTexture | kBuffer
| kSamples | kText | kRational | kFont | kFile | kDecimal | kNumber | kString
| kVector | kNone | kAny.

#[global] Instance DataType_eq_dec : EqDecision DataType.
Proof. solve_decision. Defined.

(** [NodeParam::Type]. *)
Inductive ParamType : Set := kInput | kOutput.

(** A [QVariant], as far as the proxy looks into it: only a texture
    reference is ever taken apart; every other payload is passed on to the
    shader as it is. *)
Inductive QVariant : Type :=
| QInvalid
| QInt (z : Z)
| QReal (q : Q)
| QBool (b : bool)
| QOther (tag : string)
| QTextureRef (t : ReferencePtr).

(** [value.value<OpenGLTextureCache::ReferencePtr>()]: null unless the
    variant holds a reference. *)
Definition toReferencePtr (v : QVariant) : ReferencePtr :=
  match v with QTextureRef t => t | _ => None end.

Record NodeValue : Type := MkNodeValue {
  nv_type : DataType;
  nv_data : QVariant
}.

(** [NodeValueTable]: values in the order they were pushed. *)
Definition NodeValueTable : Type := list NodeValue.

Definition Push (t : DataType) (v : QVariant) (tbl : NodeValueTable) : NodeValueTable :=
  tbl ++ [MkNodeValue t v].

(** Modelled from the spec: [NodeValueTable::Get] is not among the sources;
    it yields the most recently pushed value of the asked kind, an invalid
    variant when there is none. *)
Definition Get (t : DataType) (tbl : NodeValueTable) : QVariant :=
  match filter (fun v => nv_type v = t) (reverse tbl) with
  | v :: _ => nv_data v
  | [] => QInvalid
  end.

(** Objects are told apart by their address. *)
Definition Ptr : Type := positive.

(** [NodeValueDatabase]: the value table of every input, keyed by the input. *)
Definition db_at (db : gmap Ptr NodeValueTable) (input : Ptr) : NodeValueTable :=
  default [] (db !! input).

(** A [NodeParam] / [NodeInput] / [NodeInputArray]. *)
Record NodeParam : Type := MkNodeParam {
  param_ptr : Ptr;
  param_type : ParamType;
  param_id : string;
  data_type : DataType;
  IsArray : bool;
  array_At : list Ptr
}.

(** A block of transition type with its three progress functions of time. *)
Record TransitionBlock : Type := MkTransition {
  GetTotalProgress : Q -> Q;
  GetOutProgress : Q -> Q;
  GetInProgress : Q -> Q
}.

Record TimeRange : Type := MkTimeRange { range_in : Q; range_out : Q }.

(** What the proxy uses of a [Node].  [as_transition] is [Some] exactly when
    [IsBlock()] holds and the block's type is [kTransition];
    [ShaderIterativeInput] is [None] for a null pointer. *)
Record Node : Type := MkNode {
  Node_id : string;
  ShaderID : gmap Ptr NodeValueTable -> string;
  ShaderVertexCode : gmap Ptr NodeValueTable -> string;
  ShaderFragmentCode : gmap Ptr NodeValueTable -> string;
  ShaderIterations : Z;
  ShaderIterativeInput : option Ptr;
  parameters : list NodeParam;
  InputValueFromTable : NodeParam -> gmap Ptr NodeValueTable -> NodeValue;
  as_transition : option TransitionBlock
}.

(** ** Shader programs *)

Inductive ShaderStage : Set := Fragment | Vertex.

(** An [OpenGLShader] object: which object it is, the two sources added to
    it and whether [link()] succeeded. *)
Record OpenGLShader : Type := MkShader {
  shader_obj : nat;
  frag_code : string;
  vert_code : string;
  isLinked : bool
}.

(** ** Colour management *)

Inductive OCIOMethod : Set := kOCIOFast | kOCIOAccurate | kOCIODisabled.

(** An [OpenGLColorProcessor]: the colour spaces it converts between and
    whether its GPU side has been enabled. *)
Record ColorProcessor : Type := MkColorProcessor {
  cp_input : string;
  cp_reference : string;
  IsEnabled : bool
}.

(** What [FrameToValue] reads of an [ImageStream]. *)
Record ImageStream : Type := MkImageStream {
  get_colorspace_match_string : string;
  colorspace : string;
  premultiplied_alpha : bool;
  GetReferenceColorSpace : string
}.

(** [RenderMode::Mode]; the comment in [FrameToValue] names the two modes. *)
Inductive RenderMode : Set := kOffline | kOnline.

(** ** Collaborators

    The functions the file calls and does not define: the GLSL compiler and
    linker of the driver with the uniform locations of a linked program, the
    default shader sources, the preference that maps a render mode to a
    colour path, the CPU pixel operations, and the bytes [glReadPixels]
    stores for a texture into a frame's buffer. *)
Record Externals : Type := MkExternals {
  glsl_compiles : ShaderStage -> string -> bool;
  glsl_links : string -> string -> bool;
  glGetUniformLocation : string -> string -> string -> Z;
  CodeDefaultFragment : string;
  CodeDefaultVertex : string;
  GetOCIOMethodForMode : RenderMode -> OCIOMethod;
  ConvertPixelFormat : Frame -> PixelFormat -> Frame;
  DisassociateAlpha : Frame -> Frame;
  ReassociateAlpha : Frame -> Frame;
  AssociateAlpha : Frame -> Frame;
  ConvertFrame : ColorProcessor -> Frame -> Frame;
  read_pixels : OpenGLTexture -> Frame -> list Z
}.

(** ** Calls

    Every call the proxy makes on a collaborator, as one event. *)

(** Where a uniform is set: a location the program reported, or a name. *)
Inductive UniformLocation : Type :=
| AtLocation (loc : Z)
| AtName (name : string).

(** What is passed to [setUniformValue]: the variant with the conversion the
    switch applies to it, or a value the proxy computed itself. *)
Inductive UniformValue : Type :=
| FromVariant (as_type : DataType) (v : QVariant)
| IntValue (i : Z)
| UnitValue (unit : nat)
| BoolValue (b : bool)
| FloatValue (x : Q)
| Float2Value (x y : Z)
| ColorComponents (v : QVariant).

Inductive Call : Type :=
(* QOpenGLFunctions *)
| glActiveTexture (unit : nat)
| glBindTexture (name : N)
| glViewport (w h : Z)
| glPixelStorei_PACK_ROW_LENGTH (n : Z)
| glReadPixels (w h : Z) (fmt : PixelFormat)
(* OpenGLFramebuffer *)
| Framebuffer_Attach (t : OpenGLTexture) (clear : bool)
| Framebuffer_Bind
| Framebuffer_Release
| Framebuffer_Detach
| Framebuffer_Destroy
(* OpenGLShader *)
| Shader_create (obj : nat)
| Shader_addShaderFromSourceCode (obj : nat) (stage : ShaderStage) (code : string)
| Shader_link (obj : nat)
| Shader_bind (obj : nat)
| Shader_release (obj : nat)
| Shader_setUniformValue (obj : nat) (at_ : UniformLocation) (v : UniformValue)
| Shader_setUniformValueArray (obj : nat) (loc : Z) (a : list QVariant)
(* OpenGLRenderFunctions *)
| PrepareToDraw
| Blit (obj : nat)
| Blit_with (pipeline : option OpenGLShader) (flipped : bool) (matrix : list Q)
(* OpenGLTexture *)
| Texture_Bind (t : OpenGLTexture)
| Texture_Release (t : OpenGLTexture)
(* OpenGLTextureCache *)
| TextureCache_Get (t : OpenGLTexture) (upload : option Frame)
(* colour management *)
| ColorProcessor_Create (input reference : string)
| ColorProcessor_Enable (key : string) (premultiplied : bool)
| ColorProcessor_ProcessOpenGL (key : string)
| Cpu_ConvertPixelFormat (fmt : PixelFormat)
| Cpu_DisassociateAlpha
| Cpu_ConvertFrame (key : string)
| Cpu_ReassociateAlpha
| Cpu_AssociateAlpha
(* QOpenGLContext *)
| Context_delete (ctx : nat).

(** ** The proxy *)

(** Modelled from the spec: [OpenGLFramebuffer] is not among the sources.
    It remembers the context it was created in; [Destroy] releases the GL
    object when there is one and does nothing otherwise. *)
Record OpenGLFramebuffer : Type := MkFramebuffer {
  fb_context : option nat
}.

Definition Framebuffer_Destroy_ (b : OpenGLFramebuffer) : OpenGLFramebuffer * list Call :=
  match fb_context b with
  | Some _ => (MkFramebuffer None, [Framebuffer_Destroy])
  | None => (b, [])
  end.

(** The fields of [OpenGLProxy].  Null pointers are [None].  [texture_cache_]
    lists the textures the cache has handed out; [allocated_] is not a field
    of the class: it counts the objects created so far and gives every new
    shader object and texture its identity. *)
Record OpenGLProxy : Type := MkProxy {
  ctx_ : option nat;
  functions_ : option nat;
  buffer_ : OpenGLFramebuffer;
  copy_pipeline_ : option OpenGLShader;
  shader_cache_ : gmap string OpenGLShader;
  texture_cache_ : list OpenGLTexture;
  color_cache_ : gmap string ColorProcessor;
  allocated_ : nat
}.

(** Modelled from the spec: [OpenGLTextureCache::Get] is not among the
    sources.  By the spec two requests never share a texture while both
    references are held, and a request is served by a texture of the asked
    shape.  Here every request is served by a new texture; the frame, when
    there is one, is uploaded into it.  That a texture returns to the pool
    when its last reference is dropped and is leased again later is not
    modelled: [texture_cache_] records the textures handed out, not the
    pool. *)
Definition texture_cache_Get (p : OpenGLProxy) (params : VideoParams) (upload : option Frame)
  : OpenGLTexture * OpenGLProxy * list Call :=
  let t := MkTexture (N.of_nat (S (allocated_ p))) params in
  (t,
   MkProxy (ctx_ p) (functions_ p) (buffer_ p) (copy_pipeline_ p) (shader_cache_ p)
           (texture_cache_ p ++ [t]) (color_cache_ p) (S (allocated_ p)),
   [TextureCache_Get t upload]).

(** [void OpenGLProxy::Close()] *)
Definition Close (p : OpenGLProxy) : OpenGLProxy * list Call :=
  (* shader_cache_.clear(); buffer_.Destroy(); *)
  let '(buffer, destroy) := Framebuffer_Destroy_ (buffer_ p) in
  (* copy_pipeline_ = nullptr; functions_ = nullptr; delete ctx_; ctx_ = nullptr; *)
  (MkProxy None None buffer None ∅ (texture_cache_ p) (color_cache_ p) (allocated_ p),
   destroy ++ match ctx_ p with Some c => [Context_delete c] | None => [] end).

(** ** RunNodeAccelerated: the program of a node *)

(** [QOpenGLShaderProgram::uniformLocation]: the driver is asked only for a
    linked program; -1 otherwise. *)
Definition uniformLocation (X : Externals) (sh : OpenGLShader) (name : string) : Z :=
  if isLinked sh then glGetUniformLocation X (frag_code sh) (vert_code sh) name else -1.

(** The object a miss creates: lines 199-214. *)
Definition compile_shader (X : Externals) (node : Node) (input_params : gmap Ptr NodeValueTable)
    (obj : nat) : OpenGLShader :=
  let vert := ShaderVertexCode node input_params in
  let frag := ShaderFragmentCode node input_params in
  let frag := if decide (frag = EmptyString) then CodeDefaultFragment X else frag in
  let vert := if decide (vert = EmptyString) then CodeDefaultVertex X else vert in
  MkShader obj frag vert
           (glsl_compiles X Fragment frag && glsl_compiles X Vertex vert && glsl_links X frag vert).

Definition compile_calls (sh : OpenGLShader) : list Call :=
  [Shader_create (shader_obj sh);
   Shader_addShaderFromSourceCode (shader_obj sh) Fragment (frag_code sh);
   Shader_addShaderFromSourceCode (shader_obj sh) Vertex (vert_code sh);
   Shader_link (shader_obj sh)].

(** Lines 194-217: the cache is asked under [node->ShaderID(input_params)];
    a new program is stored under [node->id()]. *)
Definition fetch_shader (X : Externals) (node : Node) (input_params : gmap Ptr NodeValueTable)
    (p : OpenGLProxy) : OpenGLShader * OpenGLProxy * list Call :=
  match shader_cache_ p !! ShaderID node input_params with
  | Some shader => (shader, p, [])
  | None =>
      let shader := compile_shader X node input_params (allocated_ p) in
      (shader,
       MkProxy (ctx_ p) (functions_ p) (buffer_ p) (copy_pipeline_ p)
               (<[Node_id node := shader]> (shader_cache_ p))
               (texture_cache_ p) (color_cache_ p) (S (allocated_ p)),
       compile_calls shader)
  end.

(** [input == node->ShaderIterativeInput()], a comparison of pointers. *)
Definition is_iterative_input (node : Node) (input : NodeParam) : bool :=
  bool_decide (ShaderIterativeInput node = Some (param_ptr input)).

(** Calls made under a condition. *)
Definition when (b : bool) (calls : list Call) : list Call := if b then calls else [].

(** The body of the [foreach] of lines 234-364 for one parameter.  The loop
    keeps two counters: [input_texture_count], the next free texture unit,
    and [iterative_input], the unit of the iterative input.  Both are
    unsigned 32-bit in the source; a [QList] holds fewer than 2^31
    parameters, so neither can wrap, and they are natural numbers here. *)
Definition bind_parameter (X : Externals) (node : Node) (input_params : gmap Ptr NodeValueTable)
    (shader : OpenGLShader) (param : NodeParam) (input_texture_count iterative_input : nat)
  : list Call * nat * nat :=
  let unchanged calls := (calls, input_texture_count, iterative_input) in
  let set l v := Shader_setUniformValue (shader_obj shader) (AtLocation l) v in
  match param_type param with
  | kOutput => unchanged []
  | kInput =>
    let variable_location := uniformLocation X shader (param_id param) in
    if bool_decide (variable_location > -1) then
      let meta_value := InputValueFromTable node param input_params in
      let value := nv_data meta_value in
      let type :=
        if bool_decide (nv_type meta_value ≠ kNone) then nv_type meta_value
        else data_type param in
      match type with
      | kInt => unchanged [set variable_location (FromVariant kInt value)]
      | kFloat => unchanged [set variable_location (FromVariant kFloat value)]
      | kVec2 =>
          if IsArray param then
            let a := map (fun e => Get kVec2 (db_at input_params e)) (array_At param) in
            let count_location :=
              uniformLocation X shader (param_id param +:+ "_count") in
            unchanged
              ([Shader_setUniformValueArray (shader_obj shader) variable_location a]
               ++ when (bool_decide (count_location > -1))
                       [set count_location (IntValue (Z.of_nat (length (array_At param))))])
          else unchanged [set variable_location (FromVariant kVec2 value)]
      | kVec3 => unchanged [set variable_location (FromVariant kVec3 value)]
      | kVec4 => unchanged [set variable_location (FromVariant kVec4 value)]
      | kMatrix => unchanged [set variable_location (FromVariant kMatrix value)]
      | kCombo => unchanged [set variable_location (FromVariant kCombo value)]
      | kColor => unchanged [set variable_location (ColorComponents value)]
      | kBoolean => unchanged [set variable_location (FromVariant kBoolean value)]
      | kFootage | kTexture | kBuffer =>
          let tex := toReferencePtr value in
          let tex_id := match tex with Some t => texture t | None => 0%N end in
          let enable_param_location :=
            uniformLocation X shader (param_id param +:+ "_enabled") in
          let res_param_location :=
            uniformLocation X shader (param_id param +:+ "_resolution") in
          ([glActiveTexture input_texture_count;
            glBindTexture tex_id;
            set variable_location (UnitValue input_texture_count)]
           ++ when (bool_decide (enable_param_location > -1))
                   [set enable_param_location (BoolValue (0 <? tex_id)%N)]
           ++ match tex with
              | Some t =>
                  when ((0 <? tex_id)%N && bool_decide (res_param_location > -1))
                       [set res_param_location
                            (Float2Value (tex_width t * tex_divider t)
                                         (tex_height t * tex_divider t))]
              | None => []
              end
           ++ [PrepareToDraw],
           S input_texture_count,
           if is_iterative_input node param then input_texture_count else iterative_input)
      | kSamples | kText | kRational | kFont | kFile | kDecimal | kNumber | kString
      | kVector | kNone | kAny => unchanged []
      end
    else unchanged []
  end.

Fixpoint bind_parameters (X : Externals) (node : Node) (input_params : gmap Ptr NodeValueTable)
    (shader : OpenGLShader) (params : list NodeParam) (input_texture_count iterative_input : nat)
  : list Call * nat * nat :=
  match params with
  | [] => ([], input_texture_count, iterative_input)
  | param :: rest =>
      let '(calls, count, iter) :=
        bind_parameter X node input_params shader param input_texture_count iterative_input in
      let '(calls', count', iter') :=
        bind_parameters X node input_params shader rest count iter in
      (calls ++ calls', count', iter')
  end.

(** [dst_refs.at(i)]: the list always holds its first element, so an index
    taken modulo its size is in range and the default is never used. *)
Definition dst_at (dst_refs : list OpenGLTexture) (first : OpenGLTexture) (i : Z) : OpenGLTexture :=
  nth (Z.to_nat i) dst_refs first.

(** The body of the loop of lines 390-416 for one iteration: the calls it
    makes and the texture it wrote to. *)
Definition draw_iteration (shader : OpenGLShader) (dst_refs : list OpenGLTexture)
    (first : OpenGLTexture) (iterative_input : nat) (iteration : Z)
  : list Call * OpenGLTexture :=
  let size := Z.of_nat (length dst_refs) in
  let source_tex := dst_at dst_refs first (Z.rem (iteration + 1) size) in
  let destination_tex := dst_at dst_refs first (Z.rem iteration size) in
  ([Shader_bind (shader_obj shader);
    Shader_setUniformValue (shader_obj shader) (AtName "ove_iteration") (IntValue iteration);
    Shader_release (shader_obj shader)]
   ++ when (bool_decide (iteration > 0))
           [glActiveTexture iterative_input; glBindTexture (texture source_tex)]
   ++ [Framebuffer_Attach destination_tex true;
       Framebuffer_Bind;
       Blit (shader_obj shader);
       Framebuffer_Release;
       Framebuffer_Detach],
   destination_tex).

(** [for (int iteration = from; iteration < from + todo; iteration++)] *)
Fixpoint draw_iterations (todo : nat) (shader : OpenGLShader) (dst_refs : list OpenGLTexture)
    (first : OpenGLTexture) (iterative_input : nat) (iteration : Z) (output_tex : ReferencePtr)
  : list Call * ReferencePtr :=
  match todo with
  | O => ([], output_tex)
  | S todo' =>
      let '(calls, destination_tex) :=
        draw_iteration shader dst_refs first iterative_input iteration in
      let '(calls', out) :=
        draw_iterations todo' shader dst_refs first iterative_input (iteration + 1)
                        (Some destination_tex) in
      (calls ++ calls', out)
  end.

(** The loop of lines 419-425. *)
Fixpoint release_textures (input_texture_count : nat) : list Call :=
  match input_texture_count with
  | O => []
  | S n => [glActiveTexture n; glBindTexture 0%N] ++ release_textures n
  end.

(** The standard arguments of lines 367-385. *)
Definition standard_args (node : Node) (range : TimeRange) (shader : OpenGLShader)
    (params : VideoParams) : list Call :=
  let set name v := Shader_setUniformValue (shader_obj shader) (AtName name) v in
  [glViewport (effective_width params) (effective_height params);
   set "ove_resolution" (Float2Value (width params) (height params))]
  ++ match as_transition node with
     | Some transition_node =>
         [set "ove_tprog_all" (FloatValue (GetTotalProgress transition_node (range_in range)));
          set "ove_tprog_out" (FloatValue (GetOutProgress transition_node (range_in range)));
          set "ove_tprog_in" (FloatValue (GetInProgress transition_node (range_in range)))]
     | None => []
     end.

(** The destination textures of lines 219-227. *)
Definition create_dst_refs (node : Node) (params : VideoParams) (p : OpenGLProxy)
  : OpenGLTexture * list OpenGLTexture * OpenGLProxy * list Call :=
  let '(first, p1, calls1) := texture_cache_Get p params None in
  if bool_decide (ShaderIterations node > 1) && bool_decide (is_Some (ShaderIterativeInput node))
  then
    let '(second, p2, calls2) := texture_cache_Get p1 params None in
    (first, [first; second], p2, calls1 ++ calls2)
  else (first, [first], p1, calls1).

(** The phases of a run, kept apart. *)
Record Run : Type := MkRun {
  run_proxy : OpenGLProxy;
  run_shader : OpenGLShader;
  run_dst_refs : list OpenGLTexture;
  run_input_texture_count : nat;
  run_iterative_input : nat;
  run_output_tex : ReferencePtr;
  calls_fetch : list Call;
  calls_dst : list Call;
  calls_inputs : list Call;
  calls_args : list Call;
  calls_draw : list Call;
  calls_release : list Call
}.

Definition run_node (X : Externals) (node : Node) (range : TimeRange)
    (input_params : gmap Ptr NodeValueTable) (params : VideoParams) (p : OpenGLProxy) : Run :=
  let '(shader, p1, fetch) := fetch_shader X node input_params p in
  let '(first, dst_refs, p2, dst) := create_dst_refs node params p1 in
  let '(inputs, input_texture_count, iterative_input) :=
    bind_parameters X node input_params shader (parameters node) 0%nat 0%nat in
  let '(draw, output_tex) :=
    draw_iterations (Z.to_nat (ShaderIterations node)) shader dst_refs first iterative_input 0 None in
  MkRun p2 shader dst_refs input_texture_count iterative_input output_tex
        fetch dst
        ([Shader_bind (shader_obj shader)] ++ inputs)
        (standard_args node range shader params)
        draw
        (release_textures input_texture_count ++ [Shader_release (shader_obj shader)]).

Definition run_calls (r : Run) : list Call :=
  calls_fetch r ++ calls_dst r ++ calls_inputs r ++ calls_args r ++ calls_draw r
  ++ calls_release r.

(** [void OpenGLProxy::RunNodeAccelerated(node, range, input_params,
    output_params, params)]: the proxy and the output table afterwards, and
    the calls made. *)
Definition RunNodeAccelerated (X : Externals) (node : Node) (range : TimeRange)
    (input_params : gmap Ptr NodeValueTable) (output_params : NodeValueTable)
    (params : VideoParams) (p : OpenGLProxy)
  : OpenGLProxy * NodeValueTable * list Call :=
  let r := run_node X node range input_params params p in
  (run_proxy r,
   Push kTexture (QTextureRef (run_output_tex r)) output_params,
   run_calls r).

(** ** FrameToValue: upload and colour boundary *)

(** A C++ [double] is an IEEE 754 binary64 number, a primitive float here,
    and an [int] has 32 bits. *)
Definition INT_MIN : Z := - 2 ^ 31.
Definition INT_MAX : Z := 2 ^ 31 - 1.

(** The value of an [int] sum that leaves the range: the 32 bits the
    machine keeps. *)
Definition wrap_int (z : Z) : Z := (z - INT_MIN) mod 2 ^ 32 + INT_MIN.

(** [static_cast<double>(i)] for an [int]: every [int] is a double. *)
Definition double_of_int (i : Z) : float :=
  if i <? 0 then PrimFloat.opp (PrimFloat.of_uint63 (Uint63.of_Z (- i)))
  else PrimFloat.of_uint63 (Uint63.of_Z i).

(** [int(d)] for a double: truncation towards zero.  Where the truncated
    value is no [int], and for an infinity or a NaN, C++ leaves the result
    undefined; the conversion instruction of x86 then gives [INT_MIN], and
    so does this. *)
Definition trunc (d : float) : Z :=
  match Prim2SF d with
  | S754_zero _ => 0
  | S754_finite negative m e =>
      let magnitude := if 0 <=? e then Z.shiftl (Zpos m) e else Z.shiftr (Zpos m) (- e) in
      let value := if negative then - magnitude else magnitude in
      if (INT_MIN <=? value) && (value <=? INT_MAX) then value else INT_MIN
  | S754_infinity _ | S754_nan => INT_MIN
  end.

(** Qt's [qRound(double d)]:
    [d >= 0.0 ? int(d + 0.5) : int(d - double(int(d - 1)) + 0.5) + int(d - 1)]. *)
Definition qRound (d : float) : Z :=
  let half := PrimFloat.div (double_of_int 1) (double_of_int 2) in
  let one := double_of_int 1 in
  if PrimFloat.leb (double_of_int 0) d then trunc (PrimFloat.add d half)
  else
    let below := trunc (PrimFloat.sub d one) in
    wrap_int (trunc (PrimFloat.add (PrimFloat.sub d (double_of_int below)) half) + below).

(** Modelled from the spec: [rational::toDouble] is not among the sources;
    the ratio as a double is its numerator divided by its denominator, both
    converted to double, so the quotient is rounded to the nearest double. *)
Definition toDouble (r : Q) : float :=
  PrimFloat.div (double_of_int (Qnum r)) (double_of_int (Zpos (Qden r))).

(** Lines 123-143: the frame's parameters, corrected for its sample aspect
    ratio.  The ratio is compared as a rational; the new side is computed in
    doubles and rounded to an [int]. *)
Definition aspect_corrected_params (frame : Frame) : VideoParams :=
  let frame_params := video_params frame in
  let r := sample_aspect_ratio frame in
  if negb (Qeq_bool r 1) && negb (Qeq_bool r 0) then
    let new_width := width frame_params in
    let new_height := height frame_params in
    if negb (Qle_bool r 1) then
      MkVideoParams (qRound (PrimFloat.mul (double_of_int new_width) (toDouble r))) new_height
                    (format frame_params) (divider frame_params)
    else
      MkVideoParams new_width (qRound (PrimFloat.div (double_of_int new_height) (toDouble r)))
                    (format frame_params) (divider frame_params)
  else frame_params.

(** Lines 89-114: the CPU colour transform of the accurate path. *)
Definition accurate_transform (X : Externals) (key : string) (color_processor : ColorProcessor)
    (stream : ImageStream) (frame : Frame) : Frame * list Call :=
  let has_alpha := FormatHasAlphaChannel (frame_format frame) in
  let float_format := if has_alpha then PIX_FMT_RGBA32F else PIX_FMT_RGB32F in
  let frame1 := ConvertPixelFormat X frame float_format in
  let '(frame2, calls2) :=
    if has_alpha && premultiplied_alpha stream
    then (DisassociateAlpha X frame1, [Cpu_DisassociateAlpha])
    else (frame1, []) in
  let frame3 := ConvertFrame X color_processor frame2 in
  let '(frame4, calls4) :=
    if has_alpha then
      if premultiplied_alpha stream
      then (ReassociateAlpha X frame3, [Cpu_ReassociateAlpha])
      else (AssociateAlpha X frame3, [Cpu_AssociateAlpha])
    else (frame3, []) in
  (frame4, [Cpu_ConvertPixelFormat float_format] ++ calls2 ++ [Cpu_ConvertFrame key] ++ calls4).

Definition with_color_cache (p : OpenGLProxy) (c : gmap string ColorProcessor) : OpenGLProxy :=
  MkProxy (ctx_ p) (functions_ p) (buffer_ p) (copy_pipeline_ p) (shader_cache_ p)
          (texture_cache_ p) c (allocated_ p).

(** Lines 77-84: the colour processor of the stream, created on first use. *)
Definition resolve_processor (stream : ImageStream) (p : OpenGLProxy)
  : ColorProcessor * OpenGLProxy * list Call :=
  let colorspace_match := get_colorspace_match_string stream in
  match color_cache_ p !! colorspace_match with
  | Some color_processor => (color_processor, p, [])
  | None =>
      let color_processor :=
        MkColorProcessor (colorspace stream) (GetReferenceColorSpace stream) false in
      (color_processor,
       with_color_cache p (<[colorspace_match := color_processor]> (color_cache_ p)),
       [ColorProcessor_Create (colorspace stream) (GetReferenceColorSpace stream)])
  end.

(** Lines 118-168: the GPU colour transform of the fast path.  The processor
    is a shared object: enabling it is seen through the cache. *)
Definition fast_transform (stream : ImageStream) (color_processor : ColorProcessor)
    (frame : Frame) (params : VideoParams) (footage_tex_ref : OpenGLTexture) (p : OpenGLProxy)
  : OpenGLTexture * OpenGLProxy * list Call :=
  let key := get_colorspace_match_string stream in
  let '(p1, enable) :=
    if IsEnabled color_processor then (p, [])
    else (with_color_cache p
            (<[key := MkColorProcessor (cp_input color_processor)
                                       (cp_reference color_processor) true]> (color_cache_ p)),
          [ColorProcessor_Enable key (premultiplied_alpha stream)]) in
  let frame_params := aspect_corrected_params frame in
  let dest_params :=
    MkVideoParams (width frame_params) (height frame_params) (format params)
                  (divider frame_params) in
  let '(associated_tex_ref, p2, get) := texture_cache_Get p1 dest_params None in
  (associated_tex_ref, p2,
   enable ++ get
   ++ [Framebuffer_Attach associated_tex_ref true;
       Framebuffer_Bind;
       Texture_Bind footage_tex_ref;
       glViewport (tex_width associated_tex_ref) (tex_height associated_tex_ref);
       ColorProcessor_ProcessOpenGL key;
       Texture_Release footage_tex_ref;
       Framebuffer_Release;
       Framebuffer_Detach]).

(** [NodeValue OpenGLProxy::FrameToValue(frame, stream, params, mode)] *)
Definition FrameToValue (X : Externals) (frame : Frame) (stream : ImageStream)
    (params : VideoParams) (mode : RenderMode) (p : OpenGLProxy)
  : NodeValue * OpenGLProxy * list Call :=
  let '(color_processor, p1, create) := resolve_processor stream p in
  let ocio_method := GetOCIOMethodForMode X mode in
  let '(frame1, cpu) :=
    match ocio_method with
    | kOCIOAccurate =>
        accurate_transform X (get_colorspace_match_string stream) color_processor stream frame
    | _ => (frame, [])
    end in
  let '(footage_tex_ref, p2, upload) :=
    texture_cache_Get p1 (video_params frame1) (Some frame1) in
  let '(result, p3, gpu) :=
    match ocio_method with
    | kOCIOFast => fast_transform stream color_processor frame1 params footage_tex_ref p2
    | _ => (footage_tex_ref, p2, [])
    end in
  (MkNodeValue kTexture (QTextureRef (Some result)), p3, create ++ cpu ++ upload ++ gpu).

(** ** TextureToBuffer: download *)

Definition with_data (frame : Frame) (bytes : list Z) : Frame :=
  MkFrame (video_params frame) (sample_aspect_ratio frame) (linesize_pixels frame) bytes.

(** [void OpenGLProxy::TextureToBuffer(tex_in, frame, matrix)]: the frame
    afterwards, the proxy afterwards and the calls made. *)
Definition TextureToBuffer (X : Externals) (tex_in : QVariant) (frame : Frame)
    (matrix : list Q) (p : OpenGLProxy) : Frame * OpenGLProxy * list Call :=
  match toReferencePtr tex_in with
  | None => (frame, p, [])
  | Some tex =>
      let '(download_tex, p1, resize) :=
        if bool_decide (frame_width frame ≠ tex_width tex)
           || bool_decide (frame_height frame ≠ tex_height tex)
        then
          let '(resized, p1, get) := texture_cache_Get p (video_params frame) None in
          (resized, p1,
           get ++ [Framebuffer_Attach resized true;
                   Framebuffer_Bind;
                   Texture_Bind tex;
                   Blit_with (copy_pipeline_ p) false matrix;
                   Texture_Release tex;
                   Framebuffer_Release;
                   Framebuffer_Detach])
        else (tex, p, []) in
      (with_data frame (read_pixels X download_tex frame), p1,
       [glViewport (frame_width frame) (frame_height frame)]
       ++ resize
       ++ [Framebuffer_Attach download_tex false;
           Framebuffer_Bind;
           glPixelStorei_PACK_ROW_LENGTH (linesize_pixels frame);
           glReadPixels (frame_width frame) (frame_height frame) (frame_format frame);
           glPixelStorei_PACK_ROW_LENGTH 0;
           Framebuffer_Release;
           Framebuffer_Detach])
  end.

(** ** The GL state the calls act on *)

(** The active texture unit, the 2D texture bound to each unit (0 when
    absent) and the program in use.  [glActiveTexture], [glBindTexture] and
    the program's [bind] and [release] act on them.  The framebuffer, the
    draw helpers and the texture cache are not among the sources: [gl_run]
    follows the calls the proxy makes on the function table itself and takes
    those collaborators to leave the units as they find them. *)
Record GLState : Type := MkGL {
  active_texture : nat;
  texture_binding_2d : gmap nat N;
  current_program : option nat
}.

Definition gl_call (g : GLState) (c : Call) : GLState :=
  match c with
  | glActiveTexture unit => MkGL unit (texture_binding_2d g) (current_program g)
  | glBindTexture name =>
      MkGL (active_texture g) (<[active_texture g := name]> (texture_binding_2d g))
           (current_program g)
  | Shader_bind obj => MkGL (active_texture g) (texture_binding_2d g) (Some obj)
  | Shader_release _ => MkGL (active_texture g) (texture_binding_2d g) None
  | _ => g
  end.

Definition gl_run (g : GLState) (calls : list Call) : GLState := foldl gl_call g calls.

Definition bound_texture (g : GLState) (unit : nat) : N :=
  default 0%N (texture_binding_2d g !! unit).

(** A context in which nothing is bound. *)
Definition gl_initial : GLState := MkGL 0 ∅ None.

(** ** Reading a call list *)

(** The programs linked, the textures asked from the cache, the textures
    attached to the framebuffer and the units made active, each in call
    order; and the number of draws through a node's program. *)
Definition linked_programs (calls : list Call) : list nat :=
  omap (fun c => match c with Shader_link obj => Some obj | _ => None end) calls.

Definition requested_textures (calls : list Call) : list OpenGLTexture :=
  omap (fun c => match c with TextureCache_Get t _ => Some t | _ => None end) calls.

Definition attached_textures (calls : list Call) : list OpenGLTexture :=
  omap (fun c => match c with Framebuffer_Attach t _ => Some t | _ => None end) calls.

Definition activated_units (calls : list Call) : list nat :=
  omap (fun c => match c with glActiveTexture unit => Some unit | _ => None end) calls.

Definition draws (calls : list Call) : list nat :=
  omap (fun c => match c with Blit obj => Some obj | _ => None end) calls.

(** A call list that asks for no texture, attaches none, draws nothing and
    links nothing. *)
Definition quiet (calls : list Call) : Prop :=
  requested_textures calls = [] /\ attached_textures calls = []
  /\ draws calls = [] /\ linked_programs calls = [].

(** ** What the claims speak of *)

(** An input reaches the texture case of the binding switch: it is an input,
    the program has a uniform of its name, and its value (or, for a value of
    no kind, the input itself) is footage, a texture or a buffer. *)
Definition binds_texture (X : Externals) (node : Node) (input_params : gmap Ptr NodeValueTable)
    (shader : OpenGLShader) (param : NodeParam) : bool :=
  match param_type param with
  | kOutput => false
  | kInput =>
      bool_decide (uniformLocation X shader (param_id param) > -1)
      && match (let v := InputValueFromTable node param input_params in
                if bool_decide (nv_type v ≠ kNone) then nv_type v else data_type param) with
         | kFootage | kTexture | kBuffer => true
         | _ => false
         end
  end.

(** The inputs that are given a texture unit, in declaration order. *)
Definition texture_inputs (X : Externals) (node : Node) (input_params : gmap Ptr NodeValueTable)
    (shader : OpenGLShader) : list NodeParam :=
  filter (fun param => binds_texture X node input_params shader param = true) (parameters node).

(** The position of the last input at address [fb] in a list of inputs,
    counted from [unit]. *)
Fixpoint unit_of (fb : Ptr) (inputs : list NodeParam) (unit : nat) : option nat :=
  match inputs with
  | [] => None
  | input :: rest =>
      match unit_of fb rest (S unit) with
      | Some u => Some u
      | None => if bool_decide (param_ptr input = fb) then Some unit else None
      end
  end.

(** The texture unit of the node's iterative input, when that input is given
    one. *)
Definition feedback_unit (X : Externals) (node : Node) (input_params : gmap Ptr NodeValueTable)
    (shader : OpenGLShader) : option nat :=
  match ShaderIterativeInput node with
  | Some fb => unit_of fb (texture_inputs X node input_params shader) 0%nat
  | None => None
  end.

(** [dst[i % 2]] for the two destinations. *)
Definition ping_pong (d0 d1 : OpenGLTexture) (i : Z) : OpenGLTexture :=
  nth (Z.to_nat (i mod 2)) [d0; d1] d0.

(** The calls of iteration [i] that draws into [destination], with
    [previous] bound to [unit] first when [i > 0]. *)
Definition iteration_calls (obj unit : nat) (previous destination : OpenGLTexture) (i : Z)
  : list Call :=
  [Shader_bind obj;
   Shader_setUniformValue obj (AtName "ove_iteration") (IntValue i);
   Shader_release obj]
  ++ (if bool_decide (0 < i)
      then [glActiveTexture unit; glBindTexture (texture previous)] else [])
  ++ [Framebuffer_Attach destination true;
      Framebuffer_Bind;
      Blit obj;
      Framebuffer_Release;
      Framebuffer_Detach].

(** The read-back of [download_tex] into [frame]: lines 473-489. *)
Definition read_back_calls (download_tex : OpenGLTexture) (frame : Frame) : list Call :=
  [Framebuffer_Attach download_tex false;
   Framebuffer_Bind;
   glPixelStorei_PACK_ROW_LENGTH (linesize_pixels frame);
   glReadPixels (frame_width frame) (frame_height frame) (frame_format frame);
   glPixelStorei_PACK_ROW_LENGTH 0;
   Framebuffer_Release;
   Framebuffer_Detach].

(** The release of [n] units, highest first. *)
Definition release_descending (n : nat) : list Call :=
  flat_map (fun unit => [glActiveTexture unit; glBindTexture 0%N]) (reverse (seq 0 n)).

(** ** Concrete inputs *)

Module Demo.

(** A driver on which every program compiles and links, and one on which
    none does.  A program has the uniforms [a] and [fb].  The CPU pixel
    operations keep the size of the frame and change its bytes. *)
Definition location (frag vert name : string) : Z :=
  if bool_decide (name = "a") then 0
  else if bool_decide (name = "fb") then 1 else -1.

Definition retag (f : Frame) (fmt : PixelFormat) : Frame :=
  MkFrame (MkVideoParams (width (video_params f)) (height (video_params f)) fmt
                         (divider (video_params f)))
          (sample_aspect_ratio f) (linesize_pixels f) (data f).

Definition mode_method (m : RenderMode) : OCIOMethod :=
  match m with kOnline => kOCIOAccurate | kOffline => kOCIOFast end.

Definition driver (sound : bool) (method : RenderMode -> OCIOMethod) : Externals :=
  MkExternals (fun _ _ => sound) (fun _ _ => sound) location "default.frag" "default.vert"
              method retag
              (fun f => with_data f (map (fun b => b - 1) (data f)))
              (fun f => with_data f (map (fun b => b + 1) (data f)))
              (fun f => with_data f (map (fun b => b + 2) (data f)))
              (fun _ f => with_data f (map (fun b => 2 * b) (data f)))
              (fun t _ => [Z.of_N (texture t)]).

Definition X_ok : Externals := driver true mode_method.
Definition X_fail : Externals := driver false mode_method.

(** The same driver under a preference that turns colour management off. *)
Definition X_off : Externals := driver true (fun _ => kOCIODisabled).

Definition proxy0 : OpenGLProxy :=
  MkProxy (Some 0%nat) (Some 0%nat) (MkFramebuffer (Some 0%nat)) None ∅ [] ∅ 0.

Definition params4 : VideoParams := MkVideoParams 4 4 PIX_FMT_RGBA8 1.
Definition range0 : TimeRange := MkTimeRange 0 1.

Definition input (ptr : Ptr) (name : string) (kind : DataType) : NodeParam :=
  MkNodeParam ptr kInput name kind false [].

Definition no_value (_ : NodeParam) (_ : gmap Ptr NodeValueTable) : NodeValue :=
  MkNodeValue kNone QInvalid.

(** A node whose [ShaderID] is not its [id], as for a node that generates
    its shader from its inputs. *)
Definition math_node : Node :=
  MkNode "math" (fun _ => "math.add") (fun _ => EmptyString) (fun _ => "add.frag")
         1 None [input 1%positive "a" kTexture] no_value None.

(** The same node with the default [ShaderID]. *)
Definition plain_node : Node :=
  MkNode "math" (fun _ => "math") (fun _ => EmptyString) (fun _ => "add.frag")
         1 None [input 1%positive "a" kTexture] no_value None.

(** A blur in three iterations that feeds its output back into [fb]. *)
Definition blur_node : Node :=
  MkNode "blur" (fun _ => "blur") (fun _ => EmptyString) (fun _ => "blur.frag")
         3 (Some 2%positive)
         [input 1%positive "a" kTexture; input 2%positive "fb" kTexture; input 3%positive "radius" kFloat]
         no_value None.

(** Two iterations and an iterative input the program has no uniform for. *)
Definition unbound_feedback_node : Node :=
  MkNode "glow" (fun _ => "glow") (fun _ => EmptyString) (fun _ => "glow.frag")
         2 (Some 7%positive)
         [input 1%positive "a" kTexture; input 7%positive "previous" kTexture]
         no_value None.

(** Two iterations, no iterative input and no texture input. *)
Definition generator_node : Node :=
  MkNode "noise" (fun _ => "noise") (fun _ => EmptyString) (fun _ => "noise.frag")
         2 None [input 3%positive "radius" kFloat] no_value None.

Definition texture9 : OpenGLTexture := MkTexture 9 params4.

(** A proxy that holds a texture, a program and a context. *)
Definition used_proxy : OpenGLProxy :=
  MkProxy (Some 0%nat) (Some 0%nat) (MkFramebuffer (Some 0%nat)) None
          {["blur" := MkShader 0 "blur.frag" "default.vert" true]} [texture9] ∅ 9.

Definition stream0 : ImageStream := MkImageStream "srgb:linear" "srgb" true "linear".

Definition frame_with (w h : Z) (fmt : PixelFormat) (r : Q) : Frame :=
  MkFrame (MkVideoParams w h fmt 1) r w [10; 20; 30; 40].

End Demo.

(** ** The rest of the proxy: construction, the two phases of
    initialisation, and upload without colour management *)

(** The calls of the constructor, of [Init], of [FinishInit] and of the
    destructor on the surface, on the context and on the collaborators they
    set up; [Teardown] wraps a call [Close] makes. *)
Inductive SetupCall : Type :=
| Surface_create
| Surface_destroy
| Context_new (ctx : nat)
| Context_create (ctx : nat) (ok : bool)
| Context_moveToThread (ctx : nat)
| invokeMethod_FinishInit
| Context_makeCurrent (ctx : nat) (ok : bool)
| glBlendFunc_ONE_ZERO
| Framebuffer_Create (ctx : nat)
| Shader_CreateDefault (obj : nat)
| Teardown (c : Call).

(** [OpenGLProxy::OpenGLProxy(parent)]: both pointers null, the surface
    created. *)
Definition OpenGLProxy_ctor : OpenGLProxy * list SetupCall :=
  (MkProxy None None (MkFramebuffer None) None ∅ [] ∅ 0, [Surface_create]).

(** [bool OpenGLProxy::Init()].  [create_ok] is what [ctx_->create()]
    answers.  The new context object replaces whatever [ctx_] held. *)
Definition Init (create_ok : bool) (p : OpenGLProxy) : bool * OpenGLProxy * list SetupCall :=
  let ctx := allocated_ p in
  let p1 :=
    MkProxy (Some ctx) (functions_ p) (buffer_ p) (copy_pipeline_ p) (shader_cache_ p)
            (texture_cache_ p) (color_cache_ p) (S (allocated_ p)) in
  if create_ok
  then (true, p1,
        [Context_new ctx; Context_create ctx true; Context_moveToThread ctx;
         invokeMethod_FinishInit])
  else (false, p1, [Context_new ctx; Context_create ctx false]).

(** Modelled from the spec: [OpenGLShader::CreateDefault] is not among the
    sources; the default copy program is the pair of default sources,
    compiled and linked. *)
Definition CreateDefault (X : Externals) (obj : nat) : OpenGLShader :=
  MkShader obj (CodeDefaultFragment X) (CodeDefaultVertex X)
           (glsl_compiles X Fragment (CodeDefaultFragment X)
            && glsl_compiles X Vertex (CodeDefaultVertex X)
            && glsl_links X (CodeDefaultFragment X) (CodeDefaultVertex X)).

(** [void OpenGLProxy::FinishInit()].  [current_ok] is what
    [ctx_->makeCurrent(&surface_)] answers.  With a null [ctx_] the call
    dereferences a null pointer: no result.  [buffer_.Create(ctx_)] makes
    the framebuffer remember the context. *)
Definition FinishInit (X : Externals) (current_ok : bool) (p : OpenGLProxy)
  : option (OpenGLProxy * list SetupCall) :=
  match ctx_ p with
  | None => None
  | Some ctx =>
      if current_ok then
        Some (MkProxy (Some ctx) (Some ctx) (MkFramebuffer (Some ctx))
                      (Some (CreateDefault X (allocated_ p)))
                      (shader_cache_ p) (texture_cache_ p) (color_cache_ p)
                      (S (allocated_ p)),
              [Context_makeCurrent ctx true; glBlendFunc_ONE_ZERO; Framebuffer_Create ctx;
               Shader_CreateDefault (allocated_ p)])
      else Some (p, [Context_makeCurrent ctx false])
  end.

(** [OpenGLProxy::~OpenGLProxy()]: [Close()], then the surface is destroyed. *)
Definition OpenGLProxy_dtor (p : OpenGLProxy) : OpenGLProxy * list SetupCall :=
  ((Close p).1, map Teardown (Close p).2 ++ [Surface_destroy]).

(** The render functions call through [functions_] and [ctx_]. *)
Definition ready (p : OpenGLProxy) : Prop :=
  is_Some (ctx_ p) /\ is_Some (functions_ p) /\ is_Some (fb_context (buffer_ p))
  /\ is_Some (copy_pipeline_ p).

(** The contexts deleted by a list of setup calls. *)
Definition deleted_contexts (calls : list SetupCall) : list nat :=
  omap (fun c => match c with Teardown (Context_delete ctx) => Some ctx | _ => None end) calls.

Definition created_contexts (calls : list SetupCall) : list nat :=
  omap (fun c => match c with Context_new ctx => Some ctx | _ => None end) calls.

(** [NodeValue OpenGLProxy::PreCachedFrameToValue(frame)] *)
Definition PreCachedFrameToValue (frame : Frame) (p : OpenGLProxy)
  : NodeValue * OpenGLProxy * list Call :=
  let '(t, p1, upload) := texture_cache_Get p (video_params frame) (Some frame) in
  (MkNodeValue kTexture (QTextureRef (Some t)), p1, upload).

(** ** More readings of a call list *)

(** The colour processors created and enabled, by key. *)
Definition created_processors (calls : list Call) : list (string * string) :=
  omap (fun c => match c with ColorProcessor_Create i r => Some (i, r) | _ => None end) calls.

Definition enabled_processors (calls : list Call) : list string :=
  omap (fun c => match c with ColorProcessor_Enable key _ => Some key | _ => None end) calls.

(** The sampler uniforms set: the location and the texture unit given. *)
Definition sampler_units (calls : list Call) : list (Z * nat) :=
  omap (fun c => match c with
                 | Shader_setUniformValue _ (AtLocation loc) (UnitValue unit) => Some (loc, unit)
                 | _ => None
                 end) calls.

(** The flags and the sizes set by location: the [_enabled] and the
    [_resolution] uniforms of texture inputs. *)
Definition enabled_flags (calls : list Call) : list bool :=
  omap (fun c => match c with
                 | Shader_setUniformValue _ (AtLocation _) (BoolValue b) => Some b
                 | _ => None
                 end) calls.

Definition resolutions (calls : list Call) : list (Z * Z) :=
  omap (fun c => match c with
                 | Shader_setUniformValue _ (AtLocation _) (Float2Value x y) => Some (x, y)
                 | _ => None
                 end) calls.

(** The values given to the uniform [ove_iteration]. *)
Definition iteration_numbers (calls : list Call) : list Z :=
  omap (fun c => match c with
                 | Shader_setUniformValue _ (AtName name) (IntValue i) =>
                     if bool_decide (name = "ove_iteration") then Some i else None
                 | _ => None
                 end) calls.

(** The calls the binding switch can make. *)
Definition is_binding_call (c : Call) : bool :=
  match c with
  | glActiveTexture _ | glBindTexture _ | PrepareToDraw
  | Shader_setUniformValue _ (AtLocation _) _ | Shader_setUniformValueArray _ _ _ => true
  | _ => false
  end.

(** The calls made before the inputs are bound and for the standard
    arguments: compiling, asking for textures, the viewport, and the
    uniforms set by name to one or two floats. *)
Definition is_prelude_call (c : Call) : bool :=
  match c with
  | Shader_create _ | Shader_addShaderFromSourceCode _ _ _ | Shader_link _
  | TextureCache_Get _ _ | glViewport _ _
  | Shader_setUniformValue _ (AtName _) (Float2Value _ _)
  | Shader_setUniformValue _ (AtName _) (FloatValue _) => true
  | _ => false
  end.

(** The calls of the release at the end of a render call. *)
Definition is_release_call (c : Call) : bool :=
  match c with
  | glActiveTexture _ | glBindTexture _ | Shader_release _ => true
  | _ => false
  end.

(** The GL name of the texture an input's value refers to, 0 for none. *)
Definition input_texture_name (node : Node) (input_params : gmap Ptr NodeValueTable)
    (param : NodeParam) : N :=
  match toReferencePtr (nv_data (InputValueFromTable node param input_params)) with
  | Some t => texture t
  | None => 0%N
  end.

(** The calls of a render call up to the end of the binding of inputs. *)
Definition calls_until_bound (r : Run) : list Call :=
  calls_fetch r ++ calls_dst r ++ calls_inputs r.

(** ** The framebuffer protocol

    The one framebuffer is attached, bound, released and detached, in this
    order; a draw or a read of pixels happens while it is bound.  [fb_run]
    follows a call list from a state and has no result when a call comes out
    of turn. *)
Inductive FbState : Set := FbDetached | FbAttached | FbBound | FbReleased.

Definition fb_call (s : FbState) (c : Call) : option FbState :=
  match c with
  | Framebuffer_Attach _ _ => match s with FbDetached => Some FbAttached | _ => None end
  | Framebuffer_Bind => match s with FbAttached => Some FbBound | _ => None end
  | Framebuffer_Release => match s with FbBound => Some FbReleased | _ => None end
  | Framebuffer_Detach => match s with FbReleased => Some FbDetached | _ => None end
  | Blit _ | Blit_with _ _ _ | ColorProcessor_ProcessOpenGL _ | glReadPixels _ _ _ =>
      match s with FbBound => Some FbBound | _ => None end
  | _ => Some s
  end.

Fixpoint fb_run (s : FbState) (calls : list Call) : option FbState :=
  match calls with
  | [] => Some s
  | c :: rest =>
      match fb_call s c with
      | Some s' => fb_run s' rest
      | None => None
      end
  end.

(** ** Which units a call list binds

    [keeps unit active calls] follows the active texture unit through the
    calls and answers whether no [glBindTexture] is made while [unit] is
    active; [active] says whether [unit] may be the active one at the start.
    The answer carries the same flag for the end of the list. *)
Fixpoint keeps (unit : nat) (active : bool) (calls : list Call) : option bool :=
  match calls with
  | [] => Some active
  | glActiveTexture u :: rest => keeps unit (bool_decide (u = unit)) rest
  | glBindTexture _ :: rest => if active then None else keeps unit false rest
  | _ :: rest => keeps unit active rest
  end.

(** ** The textures a call list binds

    [texture_binds active calls] lists, for every [glBindTexture] of the
    call list, the unit it lands on and the texture it binds.  The unit is
    the one of the last [glActiveTexture] before it in the list, and
    [active] before the first; [None] stands for a unit the list has not
    chosen itself.  [active_after] is the unit chosen last. *)
Fixpoint texture_binds (active : option nat) (calls : list Call) : list (option nat * N) :=
  match calls with
  | [] => []
  | glActiveTexture unit :: rest => texture_binds (Some unit) rest
  | glBindTexture name :: rest => (active, name) :: texture_binds active rest
  | _ :: rest => texture_binds active rest
  end.

Definition active_after (active : option nat) (calls : list Call) : option nat :=
  foldl (fun a c => match c with glActiveTexture unit => Some unit | _ => a end) active calls.

(** ** The calls that go to the framebuffer *)

(** The calls on the framebuffer object and the draws and reads that need
    it bound. *)
Definition is_framebuffer_call (c : Call) : bool :=
  match c with
  | Framebuffer_Attach _ _ | Framebuffer_Bind | Framebuffer_Release | Framebuffer_Detach
  | Framebuffer_Destroy
  | Blit _ | Blit_with _ _ _ | ColorProcessor_ProcessOpenGL _ | glReadPixels _ _ _ => true
  | _ => false
  end.

Definition framebuffer_calls (calls : list Call) : list Call :=
  filter (fun c => is_framebuffer_call c = true) calls.

(** One pass of a program over the framebuffer: the destination is attached
    and cleared, the framebuffer bound, the program drawn, the framebuffer
    released and the destination detached. *)
Definition draw_pass (obj : nat) (destination : OpenGLTexture) : list Call :=
  [Framebuffer_Attach destination true;
   Framebuffer_Bind;
   Blit obj;
   Framebuffer_Release;
   Framebuffer_Detach].

(** ** More concrete inputs *)

Module More.

(** A node with one iteration that declares an iterative input. *)
Definition single_pass_node : Node :=
  MkNode "blur" (fun _ => "blur") (fun _ => EmptyString) (fun _ => "blur.frag")
         1 (Some 2%positive)
         [Demo.input 1%positive "a" kTexture; Demo.input 2%positive "fb" kTexture]
         Demo.no_value None.

(** A node that asks for no iteration at all. *)
Definition idle_node : Node :=
  MkNode "idle" (fun _ => "idle") (fun _ => EmptyString) (fun _ => "idle.frag")
         0 None [Demo.input 1%positive "a" kTexture] Demo.no_value None.

(** A driver whose programs also declare the flags and the size of [a] and
    the flag of [fb]. *)
Definition location_with_flags (frag vert name : string) : Z :=
  if bool_decide (name = "a") then 0
  else if bool_decide (name = "fb") then 1
  else if bool_decide (name = "a_enabled") then 2
  else if bool_decide (name = "a_resolution") then 3
  else if bool_decide (name = "fb_enabled") then 4 else -1.

Definition X_flags : Externals :=
  MkExternals (fun _ _ => true) (fun _ _ => true) location_with_flags
              "default.frag" "default.vert" Demo.mode_method Demo.retag
              (fun f => f) (fun f => f) (fun f => f) (fun _ f => f) (fun _ _ => []).

(** The blur of [Demo], with texture 9 connected to its input [a] and
    nothing to [fb]. *)
Definition value_of_a (param : NodeParam) (_ : gmap Ptr NodeValueTable) : NodeValue :=
  if bool_decide (param_id param = "a")
  then MkNodeValue kTexture (QTextureRef (Some Demo.texture9))
  else MkNodeValue kNone QInvalid.

Definition connected_blur_node : Node :=
  MkNode "blur" (fun _ => "blur") (fun _ => EmptyString) (fun _ => "blur.frag")
         3 (Some 2%positive)
         [Demo.input 1%positive "a" kTexture; Demo.input 2%positive "fb" kTexture;
          Demo.input 3%positive "radius" kFloat]
         value_of_a None.

(** The glow of [Demo], with texture 9 connected to its input [a]: two
    iterations, and an iterative input [previous] the program has no
    uniform for. *)
Definition connected_glow_node : Node :=
  MkNode "glow" (fun _ => "glow") (fun _ => EmptyString) (fun _ => "glow.frag")
         2 (Some 7%positive)
         [Demo.input 1%positive "a" kTexture; Demo.input 7%positive "previous" kTexture]
         value_of_a None.

(** A proxy that already has the colour processor of [Demo.stream0]. *)
Definition coloured_proxy : OpenGLProxy :=
  MkProxy (Some 0%nat) (Some 0%nat) (MkFramebuffer (Some 0%nat)) None ∅ []
          {["srgb:linear" := MkColorProcessor "srgb" "linear" false]} 1.

(** A GL state in which unit 5 holds texture 7. *)
Definition gl_with_unit_5 : GLState := MkGL 0 {[5%nat := 7%N]} None.

(** A proxy that holds context 3 and has made 4 objects. *)
Definition proxy_with_context : OpenGLProxy :=
  MkProxy (Some 3%nat) None (MkFramebuffer None) None ∅ [] ∅ 4.

End More.
(** * Properties *)

(** ** The shader cache *)

Section ShaderCache.

Variable X : Externals.
Variables (node : Node) (input_params : gmap Ptr NodeValueTable).

Lemma fetch_shader_hit (p : OpenGLProxy) (shader : OpenGLShader) :
  shader_cache_ p !! ShaderID node input_params = Some shader ->
  fetch_shader X node input_params p = (shader, p, []).
Proof. intros Hhit. unfold fetch_shader. now rewrite Hhit. Qed.

Lemma fetch_shader_miss (p : OpenGLProxy) :
  shader_cache_ p !! ShaderID node input_params = None ->
  let shader := compile_shader X node input_params (allocated_ p) in
  (fetch_shader X node input_params p).1.1 = shader
  /\ shader_cache_ (fetch_shader X node input_params p).1.2
     = <[Node_id node := shader]> (shader_cache_ p)
  /\ (fetch_shader X node input_params p).2 = compile_calls shader.
Proof. intros Hmiss. unfold fetch_shader. rewrite Hmiss. cbn. auto. Qed.

(** Where the two keys agree, the second fetch is a hit: the same object,
    no compilation, the proxy as it was. *)
Lemma fetch_shader_twice_same_key (p : OpenGLProxy) :
  ShaderID node input_params = Node_id node ->
  let first := fetch_shader X node input_params p in
  fetch_shader X node input_params first.1.2 = (first.1.1, first.1.2, []).
Proof.
  intros Hkey first. subst first.
  destruct (shader_cache_ p !! ShaderID node input_params) as [shader|] eqn:Hp.
  - rewrite (fetch_shader_hit p shader Hp). cbn. now apply fetch_shader_hit.
  - apply fetch_shader_hit.
    destruct (fetch_shader_miss p Hp) as (Hs & Hc & _).
    rewrite Hc, Hs, Hkey. apply lookup_insert_eq.
Qed.

(** Where they differ, a miss stays a miss: the program stored under the
    node's id is not found under its shader id. *)
Lemma fetch_shader_misses_again (p : OpenGLProxy) :
  ShaderID node input_params <> Node_id node ->
  shader_cache_ p !! ShaderID node input_params = None ->
  shader_cache_ (fetch_shader X node input_params p).1.2 !! ShaderID node input_params = None.
Proof.
  intros Hkey Hmiss.
  destruct (fetch_shader_miss p Hmiss) as (_ & Hc & _).
  rewrite Hc, lookup_insert_ne; auto.
Qed.

End ShaderCache.

(** ** Reading the phases of a run *)

Lemma quiet_nil : quiet [].
Proof. repeat split. Qed.

Lemma quiet_app (a b : list Call) : quiet a -> quiet b -> quiet (a ++ b).
Proof.
  unfold quiet, requested_textures, attached_textures, draws, linked_programs.
  intros (Ha1 & Ha2 & Ha3 & Ha4) (Hb1 & Hb2 & Hb3 & Hb4).
  rewrite !omap_app, Ha1, Ha2, Ha3, Ha4, Hb1, Hb2, Hb3, Hb4. auto.
Qed.

Lemma quiet_when (b : bool) (calls : list Call) : quiet calls -> quiet (when b calls).
Proof. destruct b; [auto | intros _; apply quiet_nil]. Qed.

Create HintDb quiet.
#[local] Hint Resolve quiet_nil quiet_app quiet_when : quiet.

Ltac quiet_list := repeat split; reflexivity.

Section Binding.

Variable X : Externals.
Variables (node : Node) (input_params : gmap Ptr NodeValueTable) (shader : OpenGLShader).

Local Abbreviation binds := (binds_texture X node input_params shader).
Local Abbreviation bind1 := (bind_parameter X node input_params shader).
Local Abbreviation bindN := (bind_parameters X node input_params shader).

(** One parameter: a texture input takes the next unit and makes it active;
    any other parameter leaves both counters alone and activates nothing. *)
Lemma bind_parameter_texture (param : NodeParam) (count iter : nat) :
  binds param = true ->
  (bind1 param count iter).1.2 = S count
  /\ (bind1 param count iter).2 = (if is_iterative_input node param then count else iter)
  /\ activated_units (bind1 param count iter).1.1 = [count]
  /\ quiet (bind1 param count iter).1.1.
Proof.
  unfold binds_texture, bind_parameter.
  destruct (param_type param); [|discriminate].
  destruct (bool_decide (uniformLocation X shader (param_id param) > -1)); [|discriminate].
  cbn [andb].
  destruct (if bool_decide (nv_type (InputValueFromTable node param input_params) ≠ kNone)
            then nv_type (InputValueFromTable node param input_params)
            else data_type param); try discriminate; intros _; cbn [fst snd];
    (split; [reflexivity|split; [reflexivity|split]]).
  all: try (unfold activated_units, when; rewrite !omap_app;
            repeat case_match; reflexivity).
  all: apply (quiet_app [_; _; _]); [quiet_list|];
       apply quiet_app; [apply quiet_when; quiet_list|];
       apply quiet_app; [|quiet_list];
       destruct (toReferencePtr _); [apply quiet_when; quiet_list | apply quiet_nil].
Qed.

Lemma bind_parameter_other (param : NodeParam) (count iter : nat) :
  binds param = false ->
  (bind1 param count iter).1.2 = count
  /\ (bind1 param count iter).2 = iter
  /\ activated_units (bind1 param count iter).1.1 = []
  /\ quiet (bind1 param count iter).1.1.
Proof.
  unfold binds_texture, bind_parameter.
  destruct (param_type param); [|intros _; repeat split; reflexivity].
  destruct (bool_decide (uniformLocation X shader (param_id param) > -1));
    [|intros _; repeat split; reflexivity].
  cbn [andb].
  destruct (if bool_decide (nv_type (InputValueFromTable node param input_params) ≠ kNone)
            then nv_type (InputValueFromTable node param input_params)
            else data_type param); try discriminate; intros _; cbn [fst snd];
    try (repeat split; reflexivity).
  destruct (IsArray param); cbn [fst snd]; [|repeat split; reflexivity].
  repeat split; try reflexivity;
    destruct (bool_decide _); reflexivity.
Qed.

Lemma bind_parameters_cons (param : NodeParam) (rest : list NodeParam) (count iter : nat) :
  let one := bind1 param count iter in
  let more := bindN rest one.1.2 one.2 in
  bindN (param :: rest) count iter = (one.1.1 ++ more.1.1, more.1.2, more.2).
Proof.
  cbn [bind_parameters].
  destruct (bind1 param count iter) as [[c1 n1] i1]. cbn [fst snd].
  destruct (bindN rest n1 i1) as [[c2 n2] i2]. reflexivity.
Qed.

(** The whole loop: units are handed out in declaration order from the
    starting count; the iterative input's unit is the one of the last
    texture input at its address, and is left alone when there is none. *)
Lemma bind_parameters_spec (params : list NodeParam) (count iter : nat) :
  let inputs := filter (fun param => binds param = true) params in
  (bindN params count iter).1.2 = (count + length inputs)%nat
  /\ (bindN params count iter).2
     = default iter (ShaderIterativeInput node ≫= fun fb => unit_of fb inputs count)
  /\ activated_units (bindN params count iter).1.1 = seq count (length inputs)
  /\ quiet (bindN params count iter).1.1.
Proof.
  revert count iter. induction params as [|param rest IH]; intros count iter.
  - cbn. split; [lia|split; [|split]]; auto with quiet.
    destruct (ShaderIterativeInput node); reflexivity.
  - rewrite bind_parameters_cons. cbn zeta. cbn [fst snd].
    rewrite filter_cons.
    destruct (decide (binds param = true)) as [Hb|Hb].
    + destruct (bind_parameter_texture param count iter Hb) as (Hn & Hi & Ha & Hq).
      rewrite Hn, Hi.
      destruct (IH (S count) (if is_iterative_input node param then count else iter))
        as (IHn & IHi & IHa & IHq).
      rewrite IHn, IHi. split; [|split; [|split]].
      * cbn. lia.
      * unfold is_iterative_input.
        destruct (ShaderIterativeInput node) as [fb|]; cbn [mbind option_bind default unit_of];
          [|reflexivity].
        destruct (unit_of fb _ (S count)); cbn [default]; [reflexivity|].
        destruct (decide (fb = param_ptr param)) as [->|Hne].
        -- rewrite !bool_decide_eq_true_2 by congruence. reflexivity.
        -- rewrite !bool_decide_eq_false_2 by congruence. reflexivity.
      * unfold activated_units in *. rewrite omap_app, Ha, IHa. reflexivity.
      * auto with quiet.
    + apply not_true_is_false in Hb.
      destruct (bind_parameter_other param count iter Hb) as (Hn & Hi & Ha & Hq).
      rewrite Hn, Hi.
      destruct (IH count iter) as (IHn & IHi & IHa & IHq).
      rewrite IHn, IHi. split; [|split; [|split]]; auto with quiet.
      unfold activated_units in *. rewrite omap_app, Ha, IHa. reflexivity.
Qed.

End Binding.

(** ** The iteration loop *)

Lemma flat_map_seq_S {A : Type} (f : nat -> list A) (a n : nat) :
  flat_map f (seq (S a) n) = flat_map (fun i => f (S i)) (seq a n).
Proof.
  revert a. induction n as [|n IH]; intros a; cbn; [reflexivity|].
  now rewrite IH.
Qed.

Section Drawing.

Variables (shader : OpenGLShader) (dst_refs : list OpenGLTexture) (first : OpenGLTexture).
Variable iterative_input : nat.

Local Abbreviation step := (draw_iteration shader dst_refs first iterative_input).
Local Abbreviation loop := (fun todo => draw_iterations todo shader dst_refs first iterative_input).

Lemma draw_iterations_S (todo : nat) (iteration : Z) (output_tex : ReferencePtr) :
  loop (S todo) iteration output_tex
  = ((step iteration).1 ++ (loop todo (iteration + 1) (Some (step iteration).2)).1,
     (loop todo (iteration + 1) (Some (step iteration).2)).2).
Proof.
  cbn [draw_iterations].
  destruct (step iteration) as [calls destination_tex]. cbn [fst snd].
  destruct (draw_iterations todo _ _ _ _ _ _). reflexivity.
Qed.

(** The loop makes the calls of its iterations one after the other. *)
Lemma draw_iterations_calls (todo : nat) (iteration : Z) (output_tex : ReferencePtr) :
  (loop todo iteration output_tex).1
  = flat_map (fun i : nat => (step (iteration + Z.of_nat i)).1) (seq 0 todo).
Proof.
  revert iteration output_tex. induction todo as [|todo IH]; intros iteration output_tex.
  - reflexivity.
  - rewrite draw_iterations_S. cbn [fst seq flat_map].
    rewrite IH, flat_map_seq_S, Z.add_0_r. f_equal.
    apply flat_map_ext. intros i. do 2 f_equal. lia.
Qed.

(** Its output is the destination of the last iteration, and the reference
    it started with when there is no iteration. *)
Lemma draw_iterations_output (todo : nat) (iteration : Z) (output_tex : ReferencePtr) :
  (loop todo iteration output_tex).2
  = match todo with
    | O => output_tex
    | S n => Some (step (iteration + Z.of_nat n)).2
    end.
Proof.
  revert iteration output_tex. induction todo as [|todo IH]; intros iteration output_tex.
  - reflexivity.
  - rewrite draw_iterations_S. cbn [snd]. rewrite IH.
    destruct todo as [|n]; [now rewrite Z.add_0_r|].
    do 3 f_equal. lia.
Qed.

Lemma draw_iterations_request_nothing (todo : nat) (iteration : Z) (output_tex : ReferencePtr) :
  requested_textures (loop todo iteration output_tex).1 = [].
Proof.
  revert iteration output_tex. induction todo as [|todo IH]; intros iteration output_tex.
  - reflexivity.
  - rewrite draw_iterations_S. cbn [fst]. unfold requested_textures in *.
    rewrite omap_app, IH. unfold draw_iteration, when. cbn [fst]. rewrite !omap_app.
    destruct (bool_decide _); reflexivity.
Qed.

Lemma draw_iterations_draws (todo : nat) (iteration : Z) (output_tex : ReferencePtr) :
  draws (loop todo iteration output_tex).1 = replicate todo (shader_obj shader).
Proof.
  revert iteration output_tex. induction todo as [|todo IH]; intros iteration output_tex.
  - reflexivity.
  - rewrite draw_iterations_S. cbn [fst]. unfold draws in *.
    rewrite omap_app, IH. unfold draw_iteration, when. cbn [fst]. rewrite !omap_app.
    destruct (bool_decide _); reflexivity.
Qed.

(** The texture an iteration writes to depends on the destinations and on
    the iteration alone. *)
Lemma draw_iteration_destination (iteration : Z) :
  (step iteration).2 = dst_at dst_refs first (Z.rem iteration (Z.of_nat (length dst_refs))).
Proof. reflexivity. Qed.

End Drawing.

Lemma map_const_seq {A : Type} (x : A) (a n : nat) :
  map (fun _ : nat => x) (seq a n) = replicate n x.
Proof. revert a. induction n as [|n IH]; intros a; cbn; [reflexivity|now rewrite IH]. Qed.

(** With two destinations, iteration [i] draws into [dst[i % 2]] after
    binding [dst[(i + 1) % 2]] to the iterative unit when [i > 0]. *)
Lemma draw_iteration_two (shader : OpenGLShader) (d0 d1 : OpenGLTexture) (unit : nat) (i : Z) :
  0 <= i ->
  draw_iteration shader [d0; d1] d0 unit i
  = (iteration_calls (shader_obj shader) unit (ping_pong d0 d1 (i + 1)) (ping_pong d0 d1 i) i,
     ping_pong d0 d1 i).
Proof.
  intros Hi. unfold draw_iteration, iteration_calls, ping_pong, dst_at, when.
  cbn [length]. change (Z.of_nat 2) with 2.
  rewrite !Z.rem_mod_nonneg by lia.
  destruct (decide (i > 0)) as [Hp|Hp].
  - rewrite !bool_decide_eq_true_2 by lia. reflexivity.
  - rewrite !bool_decide_eq_false_2 by lia. reflexivity.
Qed.

(** With one destination, every iteration draws into it, and binds it to
    the iterative unit first when [i > 0]. *)
Lemma draw_iteration_one (shader : OpenGLShader) (d0 : OpenGLTexture) (unit : nat) (i : Z) :
  0 <= i ->
  draw_iteration shader [d0] d0 unit i
  = (iteration_calls (shader_obj shader) unit d0 d0 i, d0).
Proof.
  intros Hi. unfold draw_iteration, iteration_calls, dst_at, when.
  cbn [length]. change (Z.of_nat 1) with 1. rewrite !Z.rem_1_r. cbn [Z.to_nat nth].
  destruct (decide (i > 0)) as [Hp|Hp].
  - rewrite !bool_decide_eq_true_2 by lia. reflexivity.
  - rewrite !bool_decide_eq_false_2 by lia. reflexivity.
Qed.

(** The destination of iteration [i - 1] is [dst[(i + 1) % 2]]. *)
Lemma ping_pong_previous (d0 d1 : OpenGLTexture) (i : Z) :
  ping_pong d0 d1 (i + 1) = ping_pong d0 d1 (i - 1).
Proof.
  unfold ping_pong. replace (i + 1) with (i - 1 + 1 * 2) by lia.
  now rewrite Z.mod_add by lia.
Qed.

Lemma ping_pong_alternates (d0 d1 : OpenGLTexture) (i : Z) :
  ping_pong d0 d1 i = if Z.even i then d0 else d1.
Proof.
  unfold ping_pong. rewrite Zmod_even. destruct (Z.even i); reflexivity.
Qed.

(** What an iteration attaches and draws. *)
Lemma iteration_calls_read (obj unit : nat) (previous destination : OpenGLTexture) (i : Z) :
  attached_textures (iteration_calls obj unit previous destination i) = [destination]
  /\ draws (iteration_calls obj unit previous destination i) = [obj]
  /\ requested_textures (iteration_calls obj unit previous destination i) = []
  /\ linked_programs (iteration_calls obj unit previous destination i) = [].
Proof.
  unfold iteration_calls, attached_textures, draws, requested_textures, linked_programs.
  rewrite !omap_app. destruct (bool_decide (0 < i)); repeat split.
Qed.

Lemma flat_map_iterations_read (obj unit : nat) (previous destination : Z -> OpenGLTexture)
    (n : nat) :
  let calls :=
    flat_map (fun i : nat =>
                iteration_calls obj unit (previous (Z.of_nat i)) (destination (Z.of_nat i))
                                (Z.of_nat i)) (seq 0 n) in
  attached_textures calls = map (fun i : nat => destination (Z.of_nat i)) (seq 0 n)
  /\ draws calls = replicate n obj
  /\ requested_textures calls = []
  /\ linked_programs calls = [].
Proof.
  cbn zeta. generalize 0%nat. induction n as [|n IH]; intros a; [repeat split|].
  cbn [seq flat_map map replicate].
  destruct (IH (S a)) as (H1 & H2 & H3 & H4).
  destruct (iteration_calls_read obj unit (previous (Z.of_nat a)) (destination (Z.of_nat a))
                                 (Z.of_nat a)) as (R1 & R2 & R3 & R4).
  unfold attached_textures, draws, requested_textures, linked_programs in *.
  rewrite !omap_app, H1, H2, H3, H4, R1, R2, R3, R4. repeat split.
Qed.

(** ** Releasing the units *)

Lemma release_textures_descending (n : nat) : release_textures n = release_descending n.
Proof.
  unfold release_descending. induction n as [|n IH]; [reflexivity|].
  rewrite seq_S, reverse_app. cbn [release_textures reverse plus].
  now rewrite IH.
Qed.

Lemma release_textures_read (n : nat) :
  activated_units (release_textures n) = reverse (seq 0 n) /\ quiet (release_textures n).
Proof.
  induction n as [|n [IHa IHq]]; [split; [reflexivity|apply quiet_nil]|].
  split.
  - rewrite seq_S, reverse_app. cbn. unfold activated_units in *. now rewrite IHa.
  - cbn [release_textures]. apply quiet_app; [quiet_list|assumption].
Qed.

Lemma gl_run_app (g : GLState) (a b : list Call) : gl_run g (a ++ b) = gl_run (gl_run g a) b.
Proof. apply foldl_app. Qed.

(** Releasing [n] units empties the units below [n], whatever was bound,
    and touches neither the others nor the program. *)
Lemma gl_run_release_textures (n : nat) (g : GLState) (unit : nat) :
  bound_texture (gl_run g (release_textures n)) unit
  = (if decide (unit < n)%nat then 0%N else bound_texture g unit)
  /\ current_program (gl_run g (release_textures n)) = current_program g.
Proof.
  revert g. induction n as [|n IH]; intros g.
  - split; [|reflexivity]. destruct (decide _); [lia|reflexivity].
  - cbn [release_textures]. rewrite gl_run_app.
    destruct (IH (gl_run g [glActiveTexture n; glBindTexture 0%N])) as [IHb IHp].
    rewrite IHb, IHp. split; [|reflexivity].
    unfold bound_texture. cbn.
    destruct (decide (unit < n)%nat), (decide (unit < S n)%nat); try lia; try reflexivity.
    + assert (unit = n) as -> by lia. now rewrite lookup_insert_eq.
    + rewrite lookup_insert_ne by lia. reflexivity.
Qed.

(** ** A run, phase by phase *)

Section Running.

Variable X : Externals.
Variables (node : Node) (range : TimeRange) (input_params : gmap Ptr NodeValueTable).
Variables (params : VideoParams) (p : OpenGLProxy).

Local Abbreviation fetched := (fetch_shader X node input_params p).
Local Abbreviation created := (create_dst_refs node params fetched.1.2).
Local Abbreviation bound :=
  (bind_parameters X node input_params fetched.1.1 (parameters node) 0 0).
Local Abbreviation drawn :=
  (draw_iterations (Z.to_nat (ShaderIterations node)) fetched.1.1 created.1.1.2
                   created.1.1.1 bound.2 0 None).

Lemma run_node_phases :
  run_node X node range input_params params p
  = MkRun created.1.2 fetched.1.1 created.1.1.2 bound.1.2 bound.2 drawn.2
          fetched.2 created.2
          ([Shader_bind (shader_obj fetched.1.1)] ++ bound.1.1)
          (standard_args node range fetched.1.1 params)
          drawn.1
          (release_textures bound.1.2 ++ [Shader_release (shader_obj fetched.1.1)]).
Proof.
  unfold run_node.
  destruct fetched as [[shader p1] fetch]. cbn [fst snd].
  destruct (create_dst_refs node params p1) as [[[first dst_refs] p2] dst]. cbn [fst snd].
  destruct (bind_parameters _ _ _ _ _ _ _) as [[inputs count] iter]. cbn [fst snd].
  destruct (draw_iterations _ _ _ _ _ _ _). reflexivity.
Qed.

Lemma fetch_shader_read :
  requested_textures fetched.2 = [] /\ attached_textures fetched.2 = []
  /\ draws fetched.2 = [] /\ activated_units fetched.2 = []
  /\ texture_cache_ fetched.1.2 = texture_cache_ p.
Proof.
  unfold fetch_shader.
  destruct (shader_cache_ p !! ShaderID node input_params); repeat split.
Qed.

Lemma standard_args_read (shader : OpenGLShader) :
  quiet (standard_args node range shader params)
  /\ activated_units (standard_args node range shader params) = [].
Proof.
  unfold standard_args. destruct (as_transition node); repeat split.
Qed.

End Running.

Lemma create_dst_refs_two (node : Node) (params : VideoParams) (p : OpenGLProxy) :
  ShaderIterations node > 1 ->
  is_Some (ShaderIterativeInput node) ->
  let d0 := MkTexture (N.of_nat (S (allocated_ p))) params in
  let d1 := MkTexture (N.of_nat (S (S (allocated_ p)))) params in
  (create_dst_refs node params p).1.1 = (d0, [d0; d1])
  /\ texture_cache_ (create_dst_refs node params p).1.2 = texture_cache_ p ++ [d0; d1]
  /\ (create_dst_refs node params p).2 = [TextureCache_Get d0 None; TextureCache_Get d1 None].
Proof.
  intros HK Hfb. unfold create_dst_refs. cbn.
  rewrite !bool_decide_eq_true_2 by assumption. cbn.
  rewrite <- app_assoc. auto.
Qed.

Lemma create_dst_refs_one (node : Node) (params : VideoParams) (p : OpenGLProxy) :
  ShaderIterations node <= 1 \/ ShaderIterativeInput node = None ->
  let d0 := MkTexture (N.of_nat (S (allocated_ p))) params in
  (create_dst_refs node params p).1.1 = (d0, [d0])
  /\ texture_cache_ (create_dst_refs node params p).1.2 = texture_cache_ p ++ [d0]
  /\ (create_dst_refs node params p).2 = [TextureCache_Get d0 None].
Proof.
  intros H. unfold create_dst_refs. cbn.
  destruct H as [H|H].
  - rewrite (bool_decide_eq_false_2 (ShaderIterations node > 1)) by lia. cbn. auto.
  - rewrite H, (bool_decide_eq_false_2 (is_Some None)) by (intros [? ?]; discriminate).
    rewrite andb_false_r. cbn. auto.
Qed.

(** The unit [unit_of] finds is the position of an input at that address. *)
Lemma unit_of_lookup (fb : Ptr) (inputs : list NodeParam) (start u : nat) :
  unit_of fb inputs start = Some u ->
  exists k input, u = (start + k)%nat /\ inputs !! k = Some input /\ param_ptr input = fb.
Proof.
  revert start. induction inputs as [|input rest IH]; intros start; [discriminate|].
  cbn [unit_of]. destruct (unit_of fb rest (S start)) as [u'|] eqn:Hrest.
  - intros [= <-]. destruct (IH _ Hrest) as (k & i & -> & Hk & Hp).
    exists (S k), i. repeat split; [lia|assumption..].
  - destruct (bool_decide (param_ptr input = fb)) eqn:Hb; [|discriminate].
    intros [= <-]. apply bool_decide_eq_true_1 in Hb.
    exists 0%nat, input. repeat split; [lia|assumption].
Qed.

(** Drawing [K] iterations from iteration 0 into two destinations. *)
Lemma draw_two (shader : OpenGLShader) (d0 d1 : OpenGLTexture) (unit K : nat) :
  let w := draw_iterations K shader [d0; d1] d0 unit 0 None in
  w.1 = flat_map (fun i : nat =>
                    iteration_calls (shader_obj shader) unit
                                    (ping_pong d0 d1 (Z.of_nat i - 1))
                                    (ping_pong d0 d1 (Z.of_nat i)) (Z.of_nat i)) (seq 0 K)
  /\ w.2 = match K with
           | O => None
           | S n => Some (ping_pong d0 d1 (Z.of_nat n))
           end.
Proof.
  cbn zeta. rewrite draw_iterations_calls, draw_iterations_output. split.
  - apply flat_map_ext. intros i. cbn [Z.add].
    rewrite draw_iteration_two by lia. cbn [fst].
    now rewrite ping_pong_previous.
  - destruct K as [|n]; [reflexivity|]. cbn [Z.add].
    now rewrite draw_iteration_two by lia.
Qed.

Lemma draw_one (shader : OpenGLShader) (d0 : OpenGLTexture) (unit K : nat) :
  let w := draw_iterations K shader [d0] d0 unit 0 None in
  w.1 = flat_map (fun i : nat =>
                    iteration_calls (shader_obj shader) unit d0 d0 (Z.of_nat i)) (seq 0 K)
  /\ w.2 = match K with O => None | S _ => Some d0 end.
Proof.
  cbn zeta. rewrite draw_iterations_calls, draw_iterations_output. split.
  - apply flat_map_ext. intros i. cbn [Z.add].
    now rewrite draw_iteration_one by lia.
  - destruct K as [|n]; [reflexivity|]. cbn [Z.add].
    now rewrite draw_iteration_one by lia.
Qed.

(** ** The render call *)

Section RenderCall.

Variable X : Externals.
Variables (node : Node) (range : TimeRange) (input_params : gmap Ptr NodeValueTable).
Variables (output_params : NodeValueTable) (params : VideoParams) (p : OpenGLProxy).

Local Abbreviation r := (run_node X node range input_params params p).
Local Abbreviation K := (Z.to_nat (ShaderIterations node)).

(** What the phases before the loop ask for, attach and draw. *)
Lemma run_calls_read :
  requested_textures (run_calls r) = requested_textures (calls_dst r)
  /\ attached_textures (run_calls r) = attached_textures (calls_draw r)
  /\ draws (run_calls r) = draws (calls_draw r)
  /\ texture_cache_ (run_proxy r) = texture_cache_ p ++ requested_textures (calls_dst r)
  /\ requested_textures (calls_draw r) = [].
Proof.
  unfold run_calls. rewrite run_node_phases. cbn [calls_fetch calls_dst calls_inputs
    calls_args calls_draw calls_release run_proxy].
  destruct (fetch_shader_read X node input_params p) as (F1 & F2 & F3 & _ & F5).
  destruct (bind_parameters_spec X node input_params (fetch_shader X node input_params p).1.1
              (parameters node) 0 0) as (_ & _ & _ & B1 & B2 & B3 & _).
  destruct (standard_args_read node range params (fetch_shader X node input_params p).1.1)
    as ((S1 & S2 & S3 & _) & _).
  destruct (release_textures_read
              (bind_parameters X node input_params (fetch_shader X node input_params p).1.1
                               (parameters node) 0 0).1.2) as (_ & R1 & R2 & R3 & _).
  set (q := (fetch_shader X node input_params p).1.2) in *.
  assert (requested_textures (create_dst_refs node params q).2
            = (create_dst_refs node params q).1.1.2
          /\ attached_textures (create_dst_refs node params q).2 = []
          /\ draws (create_dst_refs node params q).2 = []
          /\ texture_cache_ (create_dst_refs node params q).1.2
             = texture_cache_ q ++ (create_dst_refs node params q).1.1.2) as (D1 & D2 & D3 & D4).
  { unfold create_dst_refs. cbn. destruct (_ && _); cbn; rewrite <- ?app_assoc; auto. }
  assert (requested_textures
            (draw_iterations K (fetch_shader X node input_params p).1.1
               (create_dst_refs node params q).1.1.2 (create_dst_refs node params q).1.1.1
               (bind_parameters X node input_params (fetch_shader X node input_params p).1.1
                                (parameters node) 0 0).2 0 None).1 = []) as W.
  { apply draw_iterations_request_nothing. }
  unfold requested_textures, attached_textures, draws in *.
  rewrite !omap_app, F1, F2, F3, B1, B2, B3, S1, S2, S3, R1, R2, R3, D1, D2, D3, D4, F5, W.
  cbn. rewrite !app_nil_r. auto.
Qed.

Lemma run_feedback_unit :
  run_input_texture_count r = length (texture_inputs X node input_params (run_shader r))
  /\ run_iterative_input r = default 0%nat (feedback_unit X node input_params (run_shader r))
  /\ activated_units (calls_inputs r) = seq 0 (run_input_texture_count r).
Proof.
  rewrite run_node_phases. cbn [run_input_texture_count run_iterative_input run_shader
    calls_inputs].
  destruct (bind_parameters_spec X node input_params (fetch_shader X node input_params p).1.1
              (parameters node) 0 0) as (Hn & Hi & Ha & _).
  rewrite Hn, Hi. unfold feedback_unit, texture_inputs.
  split; [reflexivity|split].
  - destruct (ShaderIterativeInput node); reflexivity.
  - unfold activated_units in *. rewrite omap_app, Ha. reflexivity.
Qed.

(** X24.  A node declares more than one iteration and an iterative input.
    Then the call asks the texture cache for exactly two destinations [d0]
    and [d1], which are different textures; it draws exactly once per
    iteration; iteration [i] attaches and draws into [dst[i % 2]]; every
    iteration [i > 0] first makes unit [u] active and binds to it
    [dst[(i + 1) % 2]], which is the destination of iteration [i - 1]; and
    the destination of the last iteration is the texture pushed to the
    output table.  The unit [u] is the one the iterative input was given
    while the inputs were bound, and unit 0 when it was given none. *)
Theorem iterations_ping_pong (fb : Ptr) :
  ShaderIterations node > 1 ->
  ShaderIterativeInput node = Some fb ->
  let u := default 0%nat (unit_of fb (texture_inputs X node input_params (run_shader r)) 0) in
  exists d0 d1 : OpenGLTexture,
    texture d0 <> texture d1
    /\ run_dst_refs r = [d0; d1]
    /\ requested_textures (run_calls r) = [d0; d1]
    /\ draws (run_calls r) = replicate K (shader_obj (run_shader r))
    /\ attached_textures (run_calls r)
       = map (fun i : nat => ping_pong d0 d1 (Z.of_nat i)) (seq 0 K)
    /\ run_iterative_input r = u
    /\ calls_draw r
       = flat_map (fun i : nat =>
                     iteration_calls (shader_obj (run_shader r)) u
                                     (ping_pong d0 d1 (Z.of_nat i - 1))
                                     (ping_pong d0 d1 (Z.of_nat i)) (Z.of_nat i))
                  (seq 0 K)
    /\ (forall i : Z, ping_pong d0 d1 (i - 1) = ping_pong d0 d1 (i + 1))
    /\ RunNodeAccelerated X node range input_params output_params params p
       = (run_proxy r,
          Push kTexture (QTextureRef (Some (ping_pong d0 d1 (ShaderIterations node - 1))))
               output_params,
          run_calls r).
Proof.
  intros HK Hfb. cbn zeta.
  destruct run_calls_read as (Q1 & Q2 & Q3 & _).
  destruct run_feedback_unit as (_ & Hi & _).
  unfold feedback_unit in Hi. rewrite Hfb in Hi.
  unfold RunNodeAccelerated. rewrite Q1, Q2, Q3, Hi. clear Q1 Q2 Q3.
  revert Hi. rewrite run_node_phases.
  cbn [run_dst_refs run_proxy run_shader calls_dst calls_draw run_output_tex
       run_iterative_input].
  intros ->.
  set (sh := (fetch_shader X node input_params p).1.1).
  set (q := (fetch_shader X node input_params p).1.2).
  set (u := default 0%nat (unit_of fb (texture_inputs X node input_params sh) 0)).
  destruct (create_dst_refs_two node params q HK) as (D1 & D2 & D3).
  { rewrite Hfb. eauto. }
  set (d0 := MkTexture (N.of_nat (S (allocated_ q))) params) in *.
  set (d1 := MkTexture (N.of_nat (S (S (allocated_ q)))) params) in *.
  rewrite D1, D3. cbn [fst snd].
  destruct (draw_two sh d0 d1 u K) as (W1 & W2). rewrite W1, W2.
  destruct (flat_map_iterations_read (shader_obj sh) u
              (fun i => ping_pong d0 d1 (i - 1)) (ping_pong d0 d1) K) as (A1 & A2 & _).
  exists d0, d1. rewrite A1, A2.
  repeat split; try reflexivity.
  - subst d0 d1. cbn [texture]. lia.
  - intros i. symmetry. apply ping_pong_previous.
  - destruct K as [|n] eqn:HKn; [lia|].
    replace (ShaderIterations node - 1) with (Z.of_nat n) by lia. reflexivity.
Qed.

(** X25.  The units made active while the inputs are bound are
    0, 1, ..., n-1 for the [n] texture inputs.  The last calls before the
    render call returns rebind them to texture 0 from unit n-1 down to unit
    0 and then release the program; whatever the GL state was before the
    call, each of these units has no texture bound after it and no program
    is in use. *)
Theorem bound_units_released :
  let calls := (RunNodeAccelerated X node range input_params output_params params p).2 in
  let n := run_input_texture_count r in
  activated_units (calls_inputs r) = seq 0 n
  /\ calls
     = (calls_fetch r ++ calls_dst r ++ calls_inputs r ++ calls_args r ++ calls_draw r)
       ++ release_descending n ++ [Shader_release (shader_obj (run_shader r))]
  /\ activated_units (release_descending n) = reverse (seq 0 n)
  /\ forall g : GLState,
       Forall (fun unit => bound_texture (gl_run g calls) unit = 0%N)
              (activated_units (calls_inputs r))
       /\ current_program (gl_run g calls) = None.
Proof.
  cbn zeta. destruct run_feedback_unit as (_ & _ & Ha).
  assert (calls_release r
          = release_textures (run_input_texture_count r)
            ++ [Shader_release (shader_obj (run_shader r))]) as Hrel
    by (rewrite run_node_phases; reflexivity).
  assert ((RunNodeAccelerated X node range input_params output_params params p).2
          = (calls_fetch r ++ calls_dst r ++ calls_inputs r ++ calls_args r ++ calls_draw r)
            ++ release_textures (run_input_texture_count r)
            ++ [Shader_release (shader_obj (run_shader r))]) as Hcalls.
  { unfold RunNodeAccelerated, run_calls. cbn [snd]. rewrite Hrel, <- !app_assoc. reflexivity. }
  split; [exact Ha|]. split; [|split].
  - rewrite Hcalls, release_textures_descending. reflexivity.
  - rewrite <- release_textures_descending. apply release_textures_read.
  - intros g. rewrite Hcalls, !gl_run_app. split.
    + rewrite Ha. apply Forall_forall. intros unit Hin.
      apply elem_of_seq in Hin.
      unfold bound_texture. cbn [gl_run foldl gl_call texture_binding_2d].
      match goal with
      | |- context [gl_run ?g0 (release_textures ?n)] =>
          destruct (gl_run_release_textures n g0 unit) as [Hb _]
      end.
      unfold bound_texture in Hb. rewrite Hb.
      destruct (decide _); [reflexivity|lia].
    + reflexivity.
Qed.

(** C10.  A node declares more than one iteration and no iterative input.
    Then the call asks the texture cache for exactly one destination, and
    every one of its iterations attaches that texture and draws into it; it
    is also the texture pushed to the output table. *)
Theorem iterations_without_feedback_share_one_destination :
  ShaderIterations node > 1 ->
  ShaderIterativeInput node = None ->
  exists d0 : OpenGLTexture,
    run_dst_refs r = [d0]
    /\ requested_textures (run_calls r) = [d0]
    /\ texture_cache_ (run_proxy r) = texture_cache_ p ++ [d0]
    /\ attached_textures (run_calls r) = replicate K d0
    /\ draws (run_calls r) = replicate K (shader_obj (run_shader r))
    /\ calls_draw r
       = flat_map (fun i : nat =>
                     iteration_calls (shader_obj (run_shader r)) 0 d0 d0 (Z.of_nat i))
                  (seq 0 K)
    /\ RunNodeAccelerated X node range input_params output_params params p
       = (run_proxy r, Push kTexture (QTextureRef (Some d0)) output_params, run_calls r).
Proof.
  intros HK Hfb.
  destruct run_calls_read as (Q1 & Q2 & Q3 & Q4 & _).
  destruct run_feedback_unit as (_ & Hi & _).
  unfold feedback_unit in Hi. rewrite Hfb in Hi. simpl in Hi.
  unfold RunNodeAccelerated. rewrite Q1, Q2, Q3, Q4. clear Q1 Q2 Q3 Q4.
  revert Hi. rewrite run_node_phases.
  cbn [run_dst_refs run_proxy run_shader calls_dst calls_draw run_output_tex
       run_iterative_input].
  intros ->.
  set (sh := (fetch_shader X node input_params p).1.1).
  set (q := (fetch_shader X node input_params p).1.2).
  destruct (create_dst_refs_one node params q (or_intror Hfb)) as (D1 & D2 & D3).
  set (d0 := MkTexture (N.of_nat (S (allocated_ q))) params) in *.
  rewrite D1, D3. cbn [fst snd].
  destruct (draw_one sh d0 0 K) as (W1 & W2). rewrite W1, W2.
  destruct (flat_map_iterations_read (shader_obj sh) 0 (fun _ => d0) (fun _ => d0) K)
    as (A1 & A2 & _).
  exists d0. rewrite A1, A2.
  repeat split; try reflexivity.
  - apply map_const_seq.
  - destruct K as [|n] eqn:HKn; [lia|]. reflexivity.
Qed.

End RenderCall.

(** ** Compilation failures *)

Section CompileFailure.

Variable X : Externals.
Variables (node : Node) (range : TimeRange) (input_params : gmap Ptr NodeValueTable).
Variables (output_params : NodeValueTable) (params : VideoParams) (p : OpenGLProxy).

Local Abbreviation K := (Z.to_nat (ShaderIterations node)).

(** Which textures a run draws into, and which it hands out, does not depend
    on the driver. *)
Lemma run_output_independent_of_driver (X' : Externals) :
  run_output_tex (run_node X' node range input_params params p)
  = run_output_tex (run_node X node range input_params params p).
Proof.
  rewrite !run_node_phases. cbn [run_output_tex].
  rewrite !draw_iterations_output.
  destruct K as [|n]; [reflexivity|].
  rewrite !draw_iteration_destination.
  assert (allocated_ (fetch_shader X' node input_params p).1.2
          = allocated_ (fetch_shader X node input_params p).1.2) as Ha.
  { unfold fetch_shader. destruct (shader_cache_ p !! _); reflexivity. }
  assert ((create_dst_refs node params (fetch_shader X' node input_params p).1.2).1.1
          = (create_dst_refs node params (fetch_shader X node input_params p).1.2).1.1) as Hd.
  { unfold create_dst_refs. cbn. rewrite Ha. destruct (_ && _); reflexivity. }
  now rewrite Hd.
Qed.

(** C2, as amended.  When the node's program is not in the cache and its
    compilation or linking fails, the render call stores the program that
    failed in the shader cache under the node's id, draws its iterations
    with it all the same, and pushes to the output table the very value it
    pushes on a driver where the program compiles: the failure is not
    reported. *)
Theorem link_failure_is_cached_and_not_reported :
  shader_cache_ p !! ShaderID node input_params = None ->
  isLinked (compile_shader X node input_params (allocated_ p)) = false ->
  let result := RunNodeAccelerated X node range input_params output_params params p in
  let failed := compile_shader X node input_params (allocated_ p) in
  shader_cache_ result.1.1 !! Node_id node = Some failed
  /\ isLinked failed = false
  /\ linked_programs result.2 = [shader_obj failed]
  /\ draws result.2 = replicate K (shader_obj failed)
  /\ forall X' : Externals,
       (RunNodeAccelerated X' node range input_params output_params params p).1.2 = result.1.2.
Proof.
  intros Hmiss Hfail. cbn zeta.
  destruct (fetch_shader_miss X node input_params p Hmiss) as (Hs & Hc & Hcalls).
  split; [|split; [exact Hfail|split; [|split]]].
  - unfold RunNodeAccelerated. cbn [fst]. rewrite run_node_phases. cbn [run_proxy].
    assert (forall q, shader_cache_ (create_dst_refs node params q).1.2 = shader_cache_ q) as Hq.
    { intros q. unfold create_dst_refs. cbn. destruct (_ && _); reflexivity. }
    rewrite Hq, Hc. apply lookup_insert_eq.
  - unfold RunNodeAccelerated, run_calls. cbn [snd]. rewrite run_node_phases.
    cbn [calls_fetch calls_dst calls_inputs calls_args calls_draw calls_release].
    destruct (bind_parameters_spec X node input_params (fetch_shader X node input_params p).1.1
                (parameters node) 0 0) as (_ & _ & _ & _ & _ & _ & B4).
    destruct (standard_args_read node range params (fetch_shader X node input_params p).1.1)
      as ((_ & _ & _ & S4) & _).
    destruct (release_textures_read
                (bind_parameters X node input_params (fetch_shader X node input_params p).1.1
                                 (parameters node) 0 0).1.2) as (_ & _ & _ & _ & R4).
    assert (forall q, linked_programs (create_dst_refs node params q).2 = []) as D4.
    { intros q. unfold create_dst_refs. cbn. destruct (_ && _); reflexivity. }
    assert (forall n sh dst first it i out,
              linked_programs (draw_iterations n sh dst first it i out).1 = []) as W4.
    { induction n as [|n IH]; intros; [reflexivity|].
      rewrite draw_iterations_S. cbn [fst]. unfold linked_programs in *.
      rewrite omap_app, IH. unfold draw_iteration, when. cbn [fst]. rewrite !omap_app.
      destruct (bool_decide _); reflexivity. }
    unfold linked_programs in *.
    rewrite !omap_app, B4, S4, R4, D4, W4, Hcalls. reflexivity.
  - unfold RunNodeAccelerated. cbn [snd].
    destruct (run_calls_read X node range input_params params p) as (_ & _ & Q3 & _).
    rewrite Q3, run_node_phases. cbn [calls_draw].
    now rewrite draw_iterations_draws, Hs.
  - intros X'. unfold RunNodeAccelerated. cbn [fst snd].
    now rewrite run_output_independent_of_driver.
Qed.

End CompileFailure.

(** ** Close *)

(** C3, as amended.  [Close] clears the shader cache, releases the
    framebuffer, drops the copy program and the function table and deletes
    the context; the texture cache and the cache of colour processors are
    left as they are.  On a proxy that is already closed it changes nothing
    and makes no call. *)
Theorem Close_releases_and_is_idempotent (p : OpenGLProxy) :
  let closed := (Close p).1 in
  shader_cache_ closed = ∅
  /\ fb_context (buffer_ closed) = None
  /\ copy_pipeline_ closed = None
  /\ functions_ closed = None
  /\ ctx_ closed = None
  /\ texture_cache_ closed = texture_cache_ p
  /\ color_cache_ closed = color_cache_ p
  /\ (Close p).2
     = match fb_context (buffer_ p) with Some _ => [Framebuffer_Destroy] | None => [] end
       ++ match ctx_ p with Some c => [Context_delete c] | None => [] end
  /\ Close closed = (closed, []).
Proof.
  unfold Close, Framebuffer_Destroy_.
  destruct p as [ctx fns [fb] copy shaders textures colors n]. cbn.
  destruct fb; cbn; repeat split.
Qed.

(** ** Upload *)

Section AspectRatio.

Variable frame : Frame.

Local Abbreviation w := (width (video_params frame)).
Local Abbreviation h := (height (video_params frame)).
Local Abbreviation r := (sample_aspect_ratio frame).
Local Abbreviation c := (aspect_corrected_params frame).

(** Which side the correction computes: the width for a ratio above 1, the
    height for any other ratio that is neither 1 nor 0, none for 1 and 0. *)
Lemma aspect_wider :
  (1 < r)%Q ->
  c = MkVideoParams (qRound (PrimFloat.mul (double_of_int w) (toDouble r))) h
                    (format (video_params frame)) (divider (video_params frame)).
Proof.
  intros Hr. unfold aspect_corrected_params.
  assert (Qeq_bool r 1 = false) as ->.
  { destruct (Qeq_bool r 1) eqn:E; [|reflexivity].
    apply Qeq_bool_iff in E. rewrite E in Hr. now apply Qlt_irrefl in Hr. }
  assert (Qeq_bool r 0 = false) as ->.
  { destruct (Qeq_bool r 0) eqn:E; [|reflexivity].
    apply Qeq_bool_iff in E. rewrite E in Hr. discriminate Hr. }
  assert (Qle_bool r 1 = false) as ->.
  { destruct (Qle_bool r 1) eqn:E; [|reflexivity].
    apply Qle_bool_iff in E. now apply Qlt_not_le in Hr. }
  reflexivity.
Qed.

Lemma aspect_taller :
  (r < 1)%Q -> ~ (r == 0)%Q ->
  c = MkVideoParams w (qRound (PrimFloat.div (double_of_int h) (toDouble r)))
                    (format (video_params frame)) (divider (video_params frame)).
Proof.
  intros H1 H0. unfold aspect_corrected_params.
  assert (Qeq_bool r 1 = false) as ->.
  { destruct (Qeq_bool r 1) eqn:E; [|reflexivity].
    apply Qeq_bool_iff in E. rewrite E in H1. now apply Qlt_irrefl in H1. }
  assert (Qeq_bool r 0 = false) as ->.
  { destruct (Qeq_bool r 0) eqn:E; [|reflexivity].
    apply Qeq_bool_iff in E. contradiction. }
  assert (Qle_bool r 1 = true) as ->.
  { apply Qle_bool_iff. now apply Qlt_le_weak. }
  reflexivity.
Qed.

Lemma aspect_unchanged : (r == 1)%Q \/ (r == 0)%Q -> c = video_params frame.
Proof.
  intros [H|H]; apply Qeq_bool_iff in H; unfold aspect_corrected_params; rewrite H;
    cbn; [|rewrite andb_false_r]; reflexivity.
Qed.

End AspectRatio.

Section Upload.

Variable X : Externals.
Variables (frame : Frame) (stream : ImageStream) (params : VideoParams).
Variables (mode : RenderMode) (p : OpenGLProxy).

(** With colour management off the texture returned is the one the frame
    was uploaded into, as it is, whatever its sample aspect ratio: the
    upload is the last call, and no correction is made. *)
Lemma disabled_path_keeps_the_frame_size :
  GetOCIOMethodForMode X mode = kOCIODisabled ->
  exists t : OpenGLTexture,
    (FrameToValue X frame stream params mode p).1.1
    = MkNodeValue kTexture (QTextureRef (Some t))
    /\ tex_params t = video_params frame
    /\ (FrameToValue X frame stream params mode p).2
       = (resolve_processor stream p).2 ++ [TextureCache_Get t (Some frame)].
Proof.
  intros Hoff. unfold FrameToValue. rewrite Hoff.
  destruct (resolve_processor stream p) as [[color_processor p1] create].
  cbn [fst snd texture_cache_Get]. eexists. rewrite app_nil_r. repeat split.
Qed.

(** C9.  When the render mode maps to the accurate colour path,
    [FrameToValue] makes these calls, in this order, after resolving the
    colour processor: the frame is converted to a float format (with alpha
    when the frame has alpha); alpha is disassociated when the frame has
    alpha and the stream is premultiplied; the processor converts the frame;
    when the frame has alpha, alpha is reassociated for a premultiplied
    stream and associated otherwise; and last, the texture cache is asked
    for a texture into which the frame that went through all of this is
    uploaded.  Nothing is called after the upload, and the texture is the
    value returned. *)
Theorem accurate_path_transforms_before_upload :
  GetOCIOMethodForMode X mode = kOCIOAccurate ->
  let has_alpha := FormatHasAlphaChannel (frame_format frame) in
  let premultiplied := premultiplied_alpha stream in
  let key := get_colorspace_match_string stream in
  let processor := (resolve_processor stream p).1.1 in
  let float_format := if has_alpha then PIX_FMT_RGBA32F else PIX_FMT_RGB32F in
  let converted := ConvertPixelFormat X frame float_format in
  let straight :=
    if has_alpha && premultiplied then DisassociateAlpha X converted else converted in
  let transformed := ConvertFrame X processor straight in
  let uploaded :=
    if has_alpha
    then if premultiplied then ReassociateAlpha X transformed
         else AssociateAlpha X transformed
    else transformed in
  exists t : OpenGLTexture,
    (FrameToValue X frame stream params mode p).1.1
    = MkNodeValue kTexture (QTextureRef (Some t))
    /\ tex_params t = video_params uploaded
    /\ (FrameToValue X frame stream params mode p).2
       = (resolve_processor stream p).2
         ++ [Cpu_ConvertPixelFormat float_format]
         ++ when (has_alpha && premultiplied) [Cpu_DisassociateAlpha]
         ++ [Cpu_ConvertFrame key]
         ++ when has_alpha [if premultiplied then Cpu_ReassociateAlpha else Cpu_AssociateAlpha]
         ++ [TextureCache_Get t (Some uploaded)].
Proof.
  intros Hacc. cbn zeta. unfold FrameToValue. rewrite Hacc.
  destruct (resolve_processor stream p) as [[color_processor p1] create].
  unfold accurate_transform. cbn [fst snd].
  destruct (FormatHasAlphaChannel (frame_format frame)), (premultiplied_alpha stream);
    cbn; eexists; (split; [reflexivity|split; reflexivity]).
Qed.

End Upload.

(** ** Download *)

Section Download.

Variable X : Externals.
Variables (frame : Frame) (matrix : list Q) (p : OpenGLProxy).

(** C7.  With a variant that holds no texture reference, or a null one,
    [TextureToBuffer] returns at once: it makes no call, and the frame and
    the proxy are as they were. *)
Theorem download_of_null_texture_is_noop (tex_in : QVariant) :
  toReferencePtr tex_in = None ->
  TextureToBuffer X tex_in frame matrix p = (frame, p, []).
Proof. intros Hnull. unfold TextureToBuffer. now rewrite Hnull. Qed.

(** C8.  With a texture whose size differs from the frame's,
    [TextureToBuffer] asks the texture cache for one new texture of the
    frame's parameters, hence of the frame's size, blits the source into it
    with the copy program and the transform matrix, and reads the new
    texture back into the frame.  With a texture of the frame's size it asks
    for no texture and reads the source back.  Either way a frame and a
    proxy result. *)
Theorem download_resizes_on_mismatch (tex_in : QVariant) (tex : OpenGLTexture) :
  toReferencePtr tex_in = Some tex ->
  let result := TextureToBuffer X tex_in frame matrix p in
  (frame_width frame <> tex_width tex \/ frame_height frame <> tex_height tex ->
   exists resized : OpenGLTexture,
     tex_params resized = video_params frame
     /\ tex_width resized = frame_width frame
     /\ tex_height resized = frame_height frame
     /\ texture_cache_ result.1.2 = texture_cache_ p ++ [resized]
     /\ result.1.1 = with_data frame (read_pixels X resized frame)
     /\ result.2
        = [glViewport (frame_width frame) (frame_height frame);
           TextureCache_Get resized None;
           Framebuffer_Attach resized true;
           Framebuffer_Bind;
           Texture_Bind tex;
           Blit_with (copy_pipeline_ p) false matrix;
           Texture_Release tex;
           Framebuffer_Release;
           Framebuffer_Detach]
          ++ read_back_calls resized frame)
  /\ (frame_width frame = tex_width tex /\ frame_height frame = tex_height tex ->
      result = (with_data frame (read_pixels X tex frame), p,
                [glViewport (frame_width frame) (frame_height frame)]
                ++ read_back_calls tex frame)).
Proof.
  intros Htex. cbn zeta. unfold TextureToBuffer. rewrite Htex. split.
  - intros Hne.
    assert (bool_decide (frame_width frame ≠ tex_width tex)
            || bool_decide (frame_height frame ≠ tex_height tex) = true) as ->.
    { destruct Hne as [Hne|Hne];
        rewrite (bool_decide_eq_true_2 _ Hne); [reflexivity|apply orb_true_r]. }
    exists (MkTexture (N.of_nat (S (allocated_ p))) (video_params frame)).
    repeat split.
  - intros [Hw Hh].
    rewrite !bool_decide_eq_false_2 by (intros Hne; now apply Hne). reflexivity.
Qed.

End Download.

(** * The theorems at concrete inputs *)

Section Concrete.

Import Demo.

(** C1.  The cache is asked under [ShaderID] and filled under [id].  For a
    node whose two keys differ, the second of two render calls with the same
    node and inputs misses again: each call links a program of its own and
    draws with it, and the shader id is still not a key of the cache
    afterwards. *)
Theorem program_compiled_on_every_call_when_keys_differ :
  let first := RunNodeAccelerated X_ok math_node range0 ∅ [] params4 proxy0 in
  let second := RunNodeAccelerated X_ok math_node range0 ∅ [] params4 first.1.1 in
  ShaderID math_node ∅ <> Node_id math_node
  /\ linked_programs first.2 = [0%nat]
  /\ linked_programs second.2 = [2%nat]
  /\ draws first.2 = [0%nat]
  /\ draws second.2 = [2%nat]
  /\ shader_cache_ second.1.1 !! ShaderID math_node ∅ = None.
Proof. cbn zeta. split; [discriminate|]. vm_compute. repeat split. Qed.

(** With the same node under equal keys, the second call compiles nothing
    and draws with the program of the first. *)
Example program_reused_when_keys_agree :
  let first := RunNodeAccelerated X_ok plain_node range0 ∅ [] params4 proxy0 in
  let second := RunNodeAccelerated X_ok plain_node range0 ∅ [] params4 first.1.1 in
  linked_programs first.2 = [0%nat] /\ linked_programs second.2 = []
  /\ draws first.2 = [0%nat] /\ draws second.2 = [0%nat].
Proof. vm_compute. repeat split. Qed.

(** C2 fails: on a driver that compiles nothing, the render call leaves the
    program that failed in the cache and pushes the same texture value as on
    a driver that compiles everything. *)
Lemma failed_program_is_cached_and_output_pushed :
  let result := RunNodeAccelerated X_fail plain_node range0 ∅ [] params4 proxy0 in
  shader_cache_ proxy0 !! ShaderID plain_node ∅ = None
  /\ isLinked (compile_shader X_fail plain_node ∅ (allocated_ proxy0)) = false
  /\ shader_cache_ result.1.1 !! Node_id plain_node
     = Some (compile_shader X_fail plain_node ∅ (allocated_ proxy0))
  /\ shader_cache_ result.1.1 !! Node_id plain_node <> None
  /\ result.1.2 = [MkNodeValue kTexture (QTextureRef (Some (MkTexture 2 params4)))]
  /\ result.1.2 = (RunNodeAccelerated X_ok plain_node range0 ∅ [] params4 proxy0).1.2.
Proof. vm_compute. repeat split. discriminate. Qed.

Lemma link_failure_witness :
  let result := RunNodeAccelerated X_fail plain_node range0 ∅ [] params4 proxy0 in
  shader_cache_ result.1.1 !! Node_id plain_node
  = Some (compile_shader X_fail plain_node ∅ (allocated_ proxy0))
  /\ draws result.2 = [shader_obj (compile_shader X_fail plain_node ∅ (allocated_ proxy0))].
Proof.
  destruct (link_failure_is_cached_and_not_reported
              X_fail plain_node range0 ∅ [] params4 proxy0)
    as (Hcached & _ & _ & Hdraws & _); [reflexivity | reflexivity |].
  split; [exact Hcached | exact Hdraws].
Defined.

(** C3 fails: [Close] leaves the texture cache as it finds it. *)
Lemma Close_keeps_the_texture_cache :
  texture_cache_ used_proxy = [texture9]
  /\ texture_cache_ (Close used_proxy).1 = [texture9]
  /\ texture_cache_ (Close used_proxy).1 <> []
  /\ shader_cache_ (Close used_proxy).1 = ∅.
Proof. vm_compute. repeat split. discriminate. Qed.

(** C4, at a frame of 4 by 4 pixels with sample aspect ratio 2:1, for which
    the claim asks for upload dimensions of 8 by 4.  In the fast path the
    texture returned is 8 by 4.  With colour management off the frame is
    uploaded as it is, no call follows the upload, and the texture returned
    is 4 by 4; in the accurate path the frame is uploaded at 4 by 4 after
    the CPU transform, and the texture returned is 4 by 4 as well.  The
    correction of lines 126-143 is made in the fast branch only. *)
Theorem aspect_ratio_corrected_in_the_fast_path_only :
  let frame := frame_with 4 4 PIX_FMT_RGBA8 2 in
  let corrected := MkTexture 2 (MkVideoParams 8 4 PIX_FMT_RGBA8 1) in
  let plain := MkTexture 1 (MkVideoParams 4 4 PIX_FMT_RGBA8 1) in
  let accurate := MkTexture 1 (MkVideoParams 4 4 PIX_FMT_RGBA32F 1) in
  let fast := FrameToValue X_ok frame stream0 params4 kOffline proxy0 in
  let off := FrameToValue X_off frame stream0 params4 kOnline proxy0 in
  let online := FrameToValue X_ok frame stream0 params4 kOnline proxy0 in
  (1 < sample_aspect_ratio frame)%Q
  /\ (width (aspect_corrected_params frame), height (aspect_corrected_params frame)) = (8, 4)
  /\ GetOCIOMethodForMode X_ok kOffline = kOCIOFast
  /\ fast.1.1 = MkNodeValue kTexture (QTextureRef (Some corrected))
  /\ (tex_width corrected, tex_height corrected) = (8, 4)
  /\ GetOCIOMethodForMode X_off kOnline = kOCIODisabled
  /\ off.1.1 = MkNodeValue kTexture (QTextureRef (Some plain))
  /\ off.2 = [ColorProcessor_Create "srgb" "linear"; TextureCache_Get plain (Some frame)]
  /\ (tex_width plain, tex_height plain) = (4, 4)
  /\ GetOCIOMethodForMode X_ok kOnline = kOCIOAccurate
  /\ online.1.1 = MkNodeValue kTexture (QTextureRef (Some accurate))
  /\ requested_textures online.2 = [accurate]
  /\ (tex_width accurate, tex_height accurate) = (4, 4).
Proof. cbn zeta. vm_compute. repeat split. Qed.

(** C5, at a node of two iterations whose iterative input [previous] has no
    uniform in the node's program, with texture 9 connected to its other
    input [a].  The claim has the second iteration rebind the texture unit
    of the iterative input.  That input is given no unit and no sampler;
    the one unit handed out, unit 0, is the unit of [a].  The call binds
    texture 9 to unit 0 for [a]; the second iteration binds the first
    destination, texture 2, to that same unit; the release binds texture 0
    there.  So the second iteration draws with the previous destination in
    the place of [a].  The two destinations, the two draws and the output
    are as the claim has them. *)
Theorem loop_rebinds_the_unit_of_another_input :
  let node := More.connected_glow_node in
  let r := run_node X_ok node range0 ∅ params4 proxy0 in
  let d0 := MkTexture 2 params4 in
  let d1 := MkTexture 3 params4 in
  ShaderIterations node > 1
  /\ ShaderIterativeInput node = Some 7%positive
  /\ texture_inputs X_ok node ∅ (run_shader r) = [input 1%positive "a" kTexture]
  /\ feedback_unit X_ok node ∅ (run_shader r) = None
  /\ sampler_units (run_calls r) = [(uniformLocation X_ok (run_shader r) "a", 0%nat)]
  /\ requested_textures (run_calls r) = [d0; d1]
  /\ attached_textures (run_calls r) = [d0; d1]
  /\ draws (run_calls r) = [shader_obj (run_shader r); shader_obj (run_shader r)]
  /\ texture_binds None (run_calls r)
     = [(Some 0%nat, texture texture9); (Some 0%nat, texture d0); (Some 0%nat, 0%N)]
  /\ run_output_tex r = Some d1.
Proof. vm_compute. repeat split. Qed.

Lemma iterations_ping_pong_witness :
  let r := run_node X_ok blur_node range0 ∅ params4 proxy0 in
  exists d0 d1 : OpenGLTexture,
    texture d0 <> texture d1
    /\ attached_textures (run_calls r) = [d0; d1; d0]
    /\ activated_units (calls_draw r) = [1%nat; 1%nat].
Proof.
  destruct (iterations_ping_pong X_ok blur_node range0 ∅ [] params4 proxy0 2%positive)
    as (d0 & d1 & Hne & _ & _ & _ & Hatt & _ & Hdraw & _);
    [reflexivity | reflexivity |].
  exists d0, d1. split; [exact Hne|]. split; [exact Hatt|].
  rewrite Hdraw. reflexivity.
Defined.

(** C6, at a node of two iterations with no texture input.  No unit is
    bound while the inputs are resolved, so the release rebinds nothing and
    only releases the program.  The second iteration binds the destination,
    texture 2, to unit 0, and this is the only bind of the call: no call
    binds texture 0 there afterwards, and from a context in which nothing
    is bound unit 0 holds texture 2 when the call returns.  The blur, on a
    driver on which its program does not link, leaves texture 3 on unit 0
    in the same way. *)
Theorem unit_bound_by_the_loop_stays_bound :
  let r := run_node X_ok generator_node range0 ∅ params4 proxy0 in
  let calls := (RunNodeAccelerated X_ok generator_node range0 ∅ [] params4 proxy0).2 in
  let r' := run_node X_fail blur_node range0 ∅ params4 proxy0 in
  let calls' := (RunNodeAccelerated X_fail blur_node range0 ∅ [] params4 proxy0).2 in
  ShaderIterations generator_node > 1
  /\ run_input_texture_count r = 0%nat
  /\ texture_binds None calls = [(Some 0%nat, 2%N)]
  /\ calls_release r = [Shader_release (shader_obj (run_shader r))]
  /\ bound_texture gl_initial 0 = 0%N
  /\ bound_texture (gl_run gl_initial calls) 0 = 2%N
  /\ run_input_texture_count r' = 0%nat
  /\ texture_binds None calls' = [(Some 0%nat, 2%N); (Some 0%nat, 3%N)]
  /\ calls_release r' = [Shader_release (shader_obj (run_shader r'))]
  /\ bound_texture (gl_run gl_initial calls') 0 = 3%N.
Proof. vm_compute. repeat split. Qed.

Lemma download_of_null_texture_witness :
  TextureToBuffer X_ok QInvalid (frame_with 4 4 PIX_FMT_RGBA8 1) [] proxy0
  = (frame_with 4 4 PIX_FMT_RGBA8 1, proxy0, []).
Proof.
  apply (download_of_null_texture_is_noop X_ok (frame_with 4 4 PIX_FMT_RGBA8 1) [] proxy0
                                          QInvalid).
  reflexivity.
Defined.

Lemma download_resizes_witness :
  (exists resized : OpenGLTexture,
     tex_width resized = 8
     /\ requested_textures
          (TextureToBuffer X_ok (QTextureRef (Some texture9))
                           (frame_with 8 8 PIX_FMT_RGBA8 1) [] used_proxy).2 = [resized])
  /\ requested_textures
       (TextureToBuffer X_ok (QTextureRef (Some texture9))
                        (frame_with 4 4 PIX_FMT_RGBA8 1) [] used_proxy).2 = [].
Proof.
  split.
  - destruct (download_resizes_on_mismatch
                X_ok (frame_with 8 8 PIX_FMT_RGBA8 1) [] used_proxy
                (QTextureRef (Some texture9)) texture9 eq_refl) as [Hresize _].
    destruct Hresize as (resized & _ & Hw & _ & _ & _ & Hcalls);
      [left; discriminate|].
    exists resized. split; [exact Hw|]. rewrite Hcalls. reflexivity.
  - destruct (download_resizes_on_mismatch
                X_ok (frame_with 4 4 PIX_FMT_RGBA8 1) [] used_proxy
                (QTextureRef (Some texture9)) texture9 eq_refl) as [_ Hsame].
    rewrite Hsame; [reflexivity|split; reflexivity].
Defined.

Lemma accurate_path_witness :
  exists t : OpenGLTexture,
    (FrameToValue X_ok (frame_with 4 4 PIX_FMT_RGBA8 1) stream0 params4 kOnline proxy0).2
    = [ColorProcessor_Create "srgb" "linear";
       Cpu_ConvertPixelFormat PIX_FMT_RGBA32F;
       Cpu_DisassociateAlpha;
       Cpu_ConvertFrame "srgb:linear";
       Cpu_ReassociateAlpha;
       TextureCache_Get t (Some (MkFrame (MkVideoParams 4 4 PIX_FMT_RGBA32F 1) 1 4
                                         [19; 39; 59; 79]))].
Proof.
  destruct (accurate_path_transforms_before_upload
              X_ok (frame_with 4 4 PIX_FMT_RGBA8 1) stream0 params4 kOnline proxy0)
    as (t & _ & _ & Hcalls); [reflexivity|].
  exists t. rewrite Hcalls. reflexivity.
Defined.

Lemma iterations_without_feedback_witness :
  let r := run_node X_ok generator_node range0 ∅ params4 proxy0 in
  exists d0 : OpenGLTexture,
    requested_textures (run_calls r) = [d0]
    /\ attached_textures (run_calls r) = [d0; d0].
Proof.
  destruct (iterations_without_feedback_share_one_destination
              X_ok generator_node range0 ∅ [] params4 proxy0)
    as (d0 & _ & Hreq & _ & Hatt & _); [reflexivity | reflexivity |].
  exists d0. split; [exact Hreq | exact Hatt].
Defined.

End Concrete.

(** * Further properties *)

(** ** Construction, initialisation and teardown *)

(** X1.  When both phases of the initialisation succeed the proxy is ready, its
    three caches are as they were, and [Close] afterwards destroys the
    framebuffer and deletes the very context [Init] created, leaving the
    proxy not ready. *)
Theorem initialisation_then_Close (X : Externals) (p : OpenGLProxy) :
  let ctx := allocated_ p in
  (Init true p).1.1 = true
  /\ exists (p2 : OpenGLProxy) (calls : list SetupCall),
       FinishInit X true (Init true p).1.2 = Some (p2, calls)
       /\ ready p2
       /\ ctx_ p2 = Some ctx
       /\ shader_cache_ p2 = shader_cache_ p
       /\ texture_cache_ p2 = texture_cache_ p
       /\ color_cache_ p2 = color_cache_ p
       /\ created_contexts ((Init true p).2 ++ calls) = [ctx]
       /\ (Close p2).2 = [Framebuffer_Destroy; Context_delete ctx]
       /\ ~ ready (Close p2).1.
Proof.
  cbn zeta. split; [reflexivity|].
  eexists _, _. split; [reflexivity|].
  unfold ready. cbn. repeat split; eauto.
  intros ([? ?] & _). discriminate.
Qed.

(** X2.  A proxy that was never initialised stays unusable when either phase
    fails: a failing [Init] answers false and does not schedule
    [FinishInit]; a failing [FinishInit] changes nothing; in both cases the
    function table stays null, and [Close] still deletes the context object
    [Init] made. *)
Theorem failed_initialisation (X : Externals) (p : OpenGLProxy) :
  functions_ p = None ->
  let ctx := allocated_ p in
  ((Init false p).1.1 = false
   /\ (invokeMethod_FinishInit ∉ ((Init false p).2))
   /\ ~ ready (Init false p).1.2
   /\ Context_delete ctx ∈ (Close (Init false p).1.2).2)
  /\ ((FinishInit X false (Init true p).1.2
       = Some ((Init true p).1.2, [Context_makeCurrent ctx false]))
      /\ ~ ready (Init true p).1.2
      /\ Context_delete ctx ∈ (Close (Init true p).1.2).2).
Proof.
  intros Hf. cbn zeta. unfold ready, Close, Framebuffer_Destroy_. cbn. rewrite Hf.
  repeat split.
  - intros Hin. repeat (apply elem_of_cons in Hin as [Hin|Hin]; [discriminate|]).
    now apply elem_of_nil in Hin.
  - intros (_ & [? ?] & _). discriminate.
  - destruct (fb_context (buffer_ p)); cbn; repeat constructor.
  - intros (_ & [? ?] & _). discriminate.
  - destruct (fb_context (buffer_ p)); cbn; repeat constructor.
Qed.

(** X3.  [Init] puts a new context in place of the one the proxy holds and
    deletes nothing: the context held before is deleted neither by [Init]
    nor by the destructor that follows. *)
Theorem Init_drops_the_context_it_replaces (create_ok : bool) (p : OpenGLProxy) (old : nat) :
  ctx_ p = Some old ->
  old <> allocated_ p ->
  ctx_ (Init create_ok p).1.2 = Some (allocated_ p)
  /\ deleted_contexts ((Init create_ok p).2 ++ (OpenGLProxy_dtor (Init create_ok p).1.2).2)
     = [allocated_ p]
  /\ old ∉ deleted_contexts
             ((Init create_ok p).2 ++ (OpenGLProxy_dtor (Init create_ok p).1.2).2).
Proof.
  intros Hold Hne.
  assert (deleted_contexts
            ((Init create_ok p).2 ++ (OpenGLProxy_dtor (Init create_ok p).1.2).2)
          = [allocated_ p]) as Hdel.
  { unfold deleted_contexts, OpenGLProxy_dtor, Init, Close, Framebuffer_Destroy_.
    destruct create_ok; cbn; destruct (fb_context (buffer_ p)); reflexivity. }
  split; [destruct create_ok; reflexivity|]. split; [exact Hdel|].
  rewrite Hdel. intros Hin. apply list_elem_of_singleton in Hin. contradiction.
Qed.

(** ** Upload: the colour processor and the textures asked for *)

Section UploadMore.

Variable X : Externals.

(** [FrameToValue], phase by phase. *)
Lemma FrameToValue_phases (frame : Frame) (stream : ImageStream) (params : VideoParams)
    (mode : RenderMode) (p : OpenGLProxy) :
  let resolved := resolve_processor stream p in
  let method := GetOCIOMethodForMode X mode in
  let cpu :=
    match method with
    | kOCIOAccurate =>
        accurate_transform X (get_colorspace_match_string stream) resolved.1.1 stream frame
    | _ => (frame, [])
    end in
  let uploaded := texture_cache_Get resolved.1.2 (video_params cpu.1) (Some cpu.1) in
  let gpu :=
    match method with
    | kOCIOFast => fast_transform stream resolved.1.1 cpu.1 params uploaded.1.1 uploaded.1.2
    | _ => (uploaded.1.1, uploaded.1.2, [])
    end in
  FrameToValue X frame stream params mode p
  = (MkNodeValue kTexture (QTextureRef (Some gpu.1.1)), gpu.1.2,
     resolved.2 ++ cpu.2 ++ uploaded.2 ++ gpu.2).
Proof.
  cbn zeta. unfold FrameToValue.
  destruct (resolve_processor stream p) as [[color_processor p1] create]. cbn [fst snd].
  destruct (GetOCIOMethodForMode X mode); cbn [fst snd texture_cache_Get].
  - destruct (fast_transform _ _ _ _ _ _) as [[result p3] gpu]. reflexivity.
  - destruct (accurate_transform _ _ _ _ _) as [frame1 cpu]. reflexivity.
  - reflexivity.
Qed.

Lemma resolve_processor_cache (stream : ImageStream) (p : OpenGLProxy) :
  let key := get_colorspace_match_string stream in
  let resolved := resolve_processor stream p in
  color_cache_ resolved.1.2 !! key = Some resolved.1.1
  /\ (forall k, k <> key -> color_cache_ resolved.1.2 !! k = color_cache_ p !! k)
  /\ created_processors resolved.2
     = match color_cache_ p !! key with
       | Some _ => []
       | None => [(colorspace stream, GetReferenceColorSpace stream)]
       end
  /\ (is_Some (color_cache_ p !! key) -> resolved.1.2 = p)
  /\ shader_cache_ resolved.1.2 = shader_cache_ p
  /\ texture_cache_ resolved.1.2 = texture_cache_ p
  /\ allocated_ resolved.1.2 = allocated_ p.
Proof.
  cbn zeta. unfold resolve_processor.
  destruct (color_cache_ p !! get_colorspace_match_string stream) as [cp|] eqn:Hc; cbn.
  - repeat split; auto.
  - repeat split; auto.
    + apply lookup_insert_eq.
    + intros k Hk. now apply lookup_insert_ne.
    + intros [? ?]. discriminate.
Qed.

Lemma accurate_transform_quiet (key : string) (cp : ColorProcessor) (stream : ImageStream)
    (frame : Frame) :
  let calls := (accurate_transform X key cp stream frame).2 in
  created_processors calls = [] /\ enabled_processors calls = []
  /\ requested_textures calls = [] /\ fb_run FbDetached calls = Some FbDetached.
Proof.
  cbn zeta. unfold accurate_transform.
  destruct (FormatHasAlphaChannel (frame_format frame)), (premultiplied_alpha stream);
    cbn; repeat split.
Qed.

Lemma fast_transform_spec (stream : ImageStream) (cp : ColorProcessor) (frame : Frame)
    (params : VideoParams) (footage : OpenGLTexture) (p : OpenGLProxy) :
  let key := get_colorspace_match_string stream in
  let fast := fast_transform stream cp frame params footage p in
  created_processors fast.2 = []
  /\ enabled_processors fast.2 = (if IsEnabled cp then [] else [key])
  /\ requested_textures fast.2 = [fast.1.1]
  /\ texture fast.1.1 = N.of_nat (S (allocated_ p))
  /\ texture_cache_ fast.1.2 = texture_cache_ p ++ [fast.1.1]
  /\ shader_cache_ fast.1.2 = shader_cache_ p
  /\ (forall k, k <> key -> color_cache_ fast.1.2 !! k = color_cache_ p !! k)
  /\ (color_cache_ p !! key = Some cp ->
      exists cp', color_cache_ fast.1.2 !! key = Some cp' /\ IsEnabled cp' = true)
  /\ fb_run FbDetached fast.2 = Some FbDetached.
Proof.
  cbn zeta. unfold fast_transform.
  destruct (IsEnabled cp) eqn:He; cbn; repeat split; auto.
  - intros Hc. eauto.
  - intros k Hk. now apply lookup_insert_ne.
  - intros _. eexists. split; [apply lookup_insert_eq|reflexivity].
Qed.

Variables (frame : Frame) (stream : ImageStream) (params : VideoParams).
Variables (mode : RenderMode) (p : OpenGLProxy).

Local Abbreviation key := (get_colorspace_match_string stream).
Local Abbreviation first := (FrameToValue X frame stream params mode p).

Lemma FrameToValue_created :
  created_processors first.2
  = match color_cache_ p !! key with
    | Some _ => []
    | None => [(colorspace stream, GetReferenceColorSpace stream)]
    end.
Proof.
  rewrite FrameToValue_phases. cbn zeta. cbn [snd].
  destruct (resolve_processor_cache stream p) as (_ & _ & Hc & _).
  unfold created_processors in *. rewrite !omap_app, Hc.
  destruct (GetOCIOMethodForMode X mode); cbn [fst snd texture_cache_Get omap].
  - destruct (fast_transform_spec stream (resolve_processor stream p).1.1 frame params
                (MkTexture (N.of_nat (S (allocated_ (resolve_processor stream p).1.2)))
                           (video_params frame))
                (texture_cache_Get (resolve_processor stream p).1.2 (video_params frame)
                                   (Some frame)).1.2) as (Hf & _).
    unfold created_processors in Hf. cbn in Hf. cbn. rewrite Hf. now rewrite app_nil_r.
  - destruct (accurate_transform_quiet key (resolve_processor stream p).1.1 stream frame)
      as (Ha & _).
    unfold created_processors in Ha. rewrite Ha. now rewrite app_nil_r.
  - now rewrite app_nil_r.
Qed.

Lemma FrameToValue_color_cache :
  is_Some (color_cache_ first.1.2 !! key)
  /\ (forall k, k <> key -> color_cache_ first.1.2 !! k = color_cache_ p !! k)
  /\ (GetOCIOMethodForMode X mode = kOCIOFast ->
      exists cp, color_cache_ first.1.2 !! key = Some cp /\ IsEnabled cp = true).
Proof.
  rewrite FrameToValue_phases. cbn zeta. cbn [fst snd].
  destruct (resolve_processor_cache stream p) as (Hk & Ho & _).
  destruct (GetOCIOMethodForMode X mode) eqn:Hm; cbn [fst snd texture_cache_Get].
  - set (q := MkProxy _ _ _ _ _ _ _ _).
    destruct (fast_transform_spec stream (resolve_processor stream p).1.1 frame params
                (MkTexture (N.of_nat (S (allocated_ (resolve_processor stream p).1.2)))
                           (video_params frame)) q)
      as (_ & _ & _ & _ & _ & _ & Fo & Fk & _).
    destruct (Fk Hk) as (cp' & Hcp' & He).
    split; [rewrite Hcp'; eauto|]. split; [|eauto].
    intros k Hne. rewrite Fo by assumption. cbn. now apply Ho.
  - cbn [color_cache_]. split; [rewrite Hk; eauto|]. split; [exact Ho|discriminate].
  - cbn [color_cache_]. split; [rewrite Hk; eauto|]. split; [exact Ho|discriminate].
Qed.

Lemma FrameToValue_enabled :
  enabled_processors first.2
  = match GetOCIOMethodForMode X mode with
    | kOCIOFast => if IsEnabled (resolve_processor stream p).1.1 then [] else [key]
    | _ => []
    end.
Proof.
  rewrite FrameToValue_phases. cbn zeta. cbn [snd].
  assert (enabled_processors (resolve_processor stream p).2 = []) as Hr.
  { unfold resolve_processor. destruct (color_cache_ p !! _); reflexivity. }
  unfold enabled_processors in *. rewrite !omap_app, Hr.
  destruct (GetOCIOMethodForMode X mode); cbn [fst snd texture_cache_Get omap app].
  - set (q := MkProxy _ _ _ _ _ _ _ _).
    destruct (fast_transform_spec stream (resolve_processor stream p).1.1 frame params
                (MkTexture (N.of_nat (S (allocated_ (resolve_processor stream p).1.2)))
                           (video_params frame)) q) as (_ & Hf & _).
    unfold enabled_processors in Hf. exact Hf.
  - destruct (accurate_transform_quiet key (resolve_processor stream p).1.1 stream frame)
      as (_ & Ha & _).
    unfold enabled_processors in Ha. rewrite Ha. reflexivity.
  - reflexivity.
Qed.

End UploadMore.

Section UploadTheorems.

Variable X : Externals.
Variables (frame : Frame) (stream : ImageStream) (params : VideoParams).
Variables (mode : RenderMode) (p : OpenGLProxy).

Local Abbreviation key := (get_colorspace_match_string stream).
Local Abbreviation first := (FrameToValue X frame stream params mode p).

(** X4.  The colour processor of a stream is created at most once.
    [FrameToValue] creates one exactly when the cache has none under the
    stream's match string; afterwards the cache has one under that string
    and is unchanged under every other; and no later call for a stream of
    the same match string creates one, whatever its frame and mode. *)
Theorem colour_processor_is_created_once :
  created_processors first.2
  = match color_cache_ p !! key with
    | Some _ => []
    | None => [(colorspace stream, GetReferenceColorSpace stream)]
    end
  /\ is_Some (color_cache_ first.1.2 !! key)
  /\ (forall k : string, k <> key -> color_cache_ first.1.2 !! k = color_cache_ p !! k)
  /\ (forall (frame' : Frame) (stream' : ImageStream) (params' : VideoParams)
             (mode' : RenderMode),
        get_colorspace_match_string stream' = key ->
        created_processors (FrameToValue X frame' stream' params' mode' first.1.2).2 = []).
Proof.
  destruct (FrameToValue_color_cache X frame stream params mode p) as (Hsome & Hother & _).
  split; [apply FrameToValue_created|]. split; [exact Hsome|]. split; [exact Hother|].
  intros frame' stream' params' mode' Hkey.
  rewrite FrameToValue_created, Hkey.
  destruct Hsome as [cp ->]. reflexivity.
Qed.


(** Outside the fast path no processor is enabled for the GPU. *)
Lemma only_the_fast_path_enables_the_processor :
  GetOCIOMethodForMode X mode <> kOCIOFast -> enabled_processors first.2 = [].
Proof.
  intros Hm. rewrite FrameToValue_enabled.
  destruct (GetOCIOMethodForMode X mode); [contradiction|reflexivity..].
Qed.


(** X7.  With colour management off and the processor of the stream at hand,
    [FrameToValue] is [PreCachedFrameToValue]: the same value, the same
    proxy afterwards, the same single call. *)
Theorem disabled_upload_is_the_precached_upload :
  GetOCIOMethodForMode X mode = kOCIODisabled ->
  is_Some (color_cache_ p !! key) ->
  first = PreCachedFrameToValue frame p.
Proof.
  intros Hm Hc. rewrite FrameToValue_phases. cbn zeta. rewrite Hm.
  destruct (resolve_processor_cache stream p) as (_ & _ & _ & Hp & _).
  unfold PreCachedFrameToValue.
  assert ((resolve_processor stream p).2 = []) as ->.
  { unfold resolve_processor. destruct Hc as [cp ->]. reflexivity. }
  rewrite (Hp Hc). reflexivity.
Qed.

(** X8.  An upload keeps to the framebuffer protocol and leaves the framebuffer
    detached. *)
Theorem upload_leaves_the_framebuffer_detached :
  fb_run FbDetached first.2 = Some FbDetached
  /\ fb_run FbDetached (PreCachedFrameToValue frame p).2 = Some FbDetached.
Proof.
  split; [|reflexivity].
  unfold FrameToValue, resolve_processor, fast_transform, accurate_transform.
  destruct (color_cache_ p !! key) as [cp|]; cbn;
    destruct (GetOCIOMethodForMode X mode); cbn; try reflexivity.
  - destruct (IsEnabled cp); reflexivity.
  - destruct (FormatHasAlphaChannel (frame_format frame)), (premultiplied_alpha stream);
      reflexivity.
  - destruct (FormatHasAlphaChannel (frame_format frame)), (premultiplied_alpha stream);
      reflexivity.
Qed.

End UploadTheorems.

(** ** Download *)

Section DownloadMore.

Variable X : Externals.
Variables (frame : Frame) (matrix : list Q) (p : OpenGLProxy).

(** X11.  A download keeps to the framebuffer protocol, touches neither the
    shader cache nor the colour processors nor the context, the function
    table, the framebuffer object and the copy program, and changes nothing
    of the frame but its bytes. *)
Theorem download_frame_conditions (tex_in : QVariant) :
  let result := TextureToBuffer X tex_in frame matrix p in
  fb_run FbDetached result.2 = Some FbDetached
  /\ shader_cache_ result.1.2 = shader_cache_ p
  /\ color_cache_ result.1.2 = color_cache_ p
  /\ ctx_ result.1.2 = ctx_ p
  /\ functions_ result.1.2 = functions_ p
  /\ buffer_ result.1.2 = buffer_ p
  /\ copy_pipeline_ result.1.2 = copy_pipeline_ p
  /\ video_params result.1.1 = video_params frame
  /\ linesize_pixels result.1.1 = linesize_pixels frame
  /\ sample_aspect_ratio result.1.1 = sample_aspect_ratio frame.
Proof.
  cbn zeta. unfold TextureToBuffer.
  destruct (toReferencePtr tex_in) as [tex|]; [|cbn; repeat split].
  destruct (bool_decide _ || bool_decide _); cbn; repeat split.
Qed.

(** X12.  Upload and download compose without a resize: a frame uploaded without
    colour management and downloaded into the same frame is read back from
    the very texture it was uploaded into; no second texture is asked for
    and nothing is blitted. *)
Theorem upload_then_download_reads_the_uploaded_texture :
  let up := PreCachedFrameToValue frame p in
  exists t : OpenGLTexture,
    up.1.1 = MkNodeValue kTexture (QTextureRef (Some t))
    /\ requested_textures up.2 = [t]
    /\ TextureToBuffer X (nv_data up.1.1) frame matrix up.1.2
       = (with_data frame (read_pixels X t frame), up.1.2,
          [glViewport (frame_width frame) (frame_height frame)] ++ read_back_calls t frame).
Proof.
  cbn zeta. unfold PreCachedFrameToValue. cbn.
  eexists. split; [reflexivity|]. split; [reflexivity|].
  unfold TextureToBuffer. cbn [toReferencePtr].
  rewrite !bool_decide_eq_false_2 by (intros Hne; now apply Hne). reflexivity.
Qed.

End DownloadMore.

(** ** The aspect-ratio correction *)

(** X9.  The correction changes at most one side, whatever the ratio, and keeps
    the format and the divider. *)
Theorem aspect_correction_changes_one_side (frame : Frame) :
  let c := aspect_corrected_params frame in
  (width c = width (video_params frame) \/ height c = height (video_params frame))
  /\ format c = format (video_params frame)
  /\ divider c = divider (video_params frame).
Proof.
  cbn zeta. unfold aspect_corrected_params.
  destruct (negb _ && negb _); [|auto].
  destruct (negb _); cbn; auto.
Qed.

(** X10.  The new side is rounded from a product or a quotient of doubles.
    A frame of 720 by 576 becomes 768 wide at the ratio 16:15 and 1152 high
    at the ratio 1:2.  A frame 27 wide at the ratio 13:6 becomes 58 wide
    although 27 x 13/6 is 58.5: the double nearest to 13/6 lies below it,
    and so does the product.  A frame 21 high at the ratio 6:17 becomes 59
    high although 21 / (6/17) is 59.5. *)
Theorem aspect_correction_rounds_in_doubles :
  let corrected w h r :=
    let c := aspect_corrected_params (Demo.frame_with w h PIX_FMT_RGB8 r) in
    (width c, height c) in
  corrected 720 576 (16 # 15) = (768, 576)
  /\ corrected 720 576 (1 # 2) = (720, 1152)
  /\ (inject_Z 27 * (13 # 6) == 117 # 2)%Q
  /\ corrected 27 4 (13 # 6) = (58, 4)
  /\ (inject_Z 21 / (6 # 17) == 119 # 2)%Q
  /\ corrected 4 21 (6 # 17) = (4, 59).
Proof. cbn zeta. repeat split; vm_compute; reflexivity. Qed.

(** ** More on the render call *)

Lemma omap_None_Forall {A : Type} (f : Call -> option A) (P : Call -> Prop)
    (calls : list Call) :
  Forall P calls -> (forall c, P c -> f c = None) -> omap f calls = [].
Proof.
  intros HF Hf. induction HF as [|c rest Hc _ IH]; [reflexivity|].
  cbn. now rewrite (Hf c Hc), IH.
Qed.

Lemma fb_run_app (s : FbState) (a b : list Call) :
  fb_run s (a ++ b) = fb_run s a ≫= fun s' => fb_run s' b.
Proof.
  revert s. induction a as [|c a IH]; intros s; [reflexivity|].
  cbn [app fb_run]. destruct (fb_call s c); [apply IH|reflexivity].
Qed.

Lemma fb_run_neutral (P : Call -> Prop) (s : FbState) (calls : list Call) :
  Forall P calls -> (forall c s', P c -> fb_call s' c = Some s') -> fb_run s calls = Some s.
Proof.
  intros HF Hf. induction HF as [|c rest Hc _ IH]; [reflexivity|].
  cbn [fb_run]. now rewrite (Hf c s Hc).
Qed.

Lemma keeps_app (unit : nat) (active : bool) (a b : list Call) :
  keeps unit active (a ++ b) = keeps unit active a ≫= fun active' => keeps unit active' b.
Proof.
  revert active. induction a as [|c a IH]; intros active; [reflexivity|].
  destruct c; cbn [app keeps]; try apply IH.
  destruct active; [reflexivity|apply IH].
Qed.

Lemma keeps_neutral (P : Call -> Prop) (unit : nat) (active : bool) (calls : list Call) :
  Forall P calls ->
  (forall c, P c -> match c with
                    | glActiveTexture _ | glBindTexture _ => False
                    | _ => True
                    end) ->
  keeps unit active calls = Some active.
Proof.
  intros HF Hf. induction HF as [|c rest Hc _ IH]; [reflexivity|].
  pose proof (Hf c Hc) as Hk. destruct c; cbn [keeps]; try exact IH; contradiction.
Qed.

Lemma map_fst_zip {A B : Type} (l : list A) (k : list B) :
  length l = length k -> map fst (zip l k) = l.
Proof.
  revert k. induction l as [|x l IH]; intros [|y k] Hlen; try discriminate; [reflexivity|].
  cbn. f_equal. apply IH. now injection Hlen.
Qed.

Lemma map_replicate_const {A B : Type} (f : A -> B) (n : nat) (x : A) :
  map f (replicate n x) = replicate n (f x).
Proof. induction n as [|n IH]; cbn; [reflexivity|now rewrite IH]. Qed.

Lemma texture_binds_app (active : option nat) (a b : list Call) :
  texture_binds active (a ++ b)
  = texture_binds active a ++ texture_binds (active_after active a) b.
Proof.
  revert active. induction a as [|c a IH]; intros active; [reflexivity|].
  destruct c; cbn [app texture_binds]; rewrite IH; reflexivity.
Qed.

(** Calls that are neither [glActiveTexture] nor [glBindTexture] bind
    nothing. *)
Lemma texture_binds_neutral (P : Call -> Prop) (active : option nat) (calls : list Call) :
  Forall P calls ->
  (forall c, P c -> match c with
                    | glActiveTexture _ | glBindTexture _ => False
                    | _ => True
                    end) ->
  texture_binds active calls = [].
Proof.
  intros HF Hf. induction HF as [|c rest Hc _ IH]; [reflexivity|].
  pose proof (Hf c Hc) as Hk. destruct c; cbn [texture_binds]; try exact IH; contradiction.
Qed.

Lemma texture_binds_release_textures (n : nat) (active : option nat) :
  texture_binds active (release_textures n) = map (fun unit => (Some unit, 0%N)) (reverse (seq 0 n)).
Proof.
  revert active. induction n as [|n IH]; intros active; [reflexivity|].
  rewrite seq_S, reverse_app. cbn [release_textures app texture_binds reverse plus map].
  now rewrite IH.
Qed.

Lemma framebuffer_calls_app (a b : list Call) :
  framebuffer_calls (a ++ b) = framebuffer_calls a ++ framebuffer_calls b.
Proof. apply filter_app. Qed.

Lemma framebuffer_calls_none (P : Call -> Prop) (calls : list Call) :
  Forall P calls -> (forall c, P c -> is_framebuffer_call c = false) ->
  framebuffer_calls calls = [].
Proof.
  intros HF Hf. induction HF as [|c rest Hc _ IH]; [reflexivity|].
  unfold framebuffer_calls in *. rewrite filter_cons_False; [exact IH|].
  rewrite (Hf c Hc). discriminate.
Qed.

Section Phases.

Variable X : Externals.
Variables (node : Node) (range : TimeRange) (input_params : gmap Ptr NodeValueTable).
Variables (params : VideoParams) (p : OpenGLProxy).

Lemma fetch_shader_prelude :
  Forall (fun c => is_prelude_call c = true) (fetch_shader X node input_params p).2.
Proof.
  unfold fetch_shader. destruct (shader_cache_ p !! _); cbn; repeat constructor.
Qed.

Lemma create_dst_refs_prelude :
  Forall (fun c => is_prelude_call c = true) (create_dst_refs node params p).2.
Proof.
  unfold create_dst_refs. cbn. destruct (_ && _); cbn; repeat constructor.
Qed.

Lemma standard_args_prelude (shader : OpenGLShader) :
  Forall (fun c => is_prelude_call c = true) (standard_args node range shader params).
Proof.
  unfold standard_args. destruct (as_transition node); cbn; repeat constructor.
Qed.

Lemma release_textures_release (n : nat) :
  Forall (fun c => is_release_call c = true) (release_textures n).
Proof. induction n as [|n IH]; cbn; repeat constructor. exact IH. Qed.

Variable shader : OpenGLShader.

Local Abbreviation binds := (binds_texture X node input_params shader).
Local Abbreviation bind1 := (bind_parameter X node input_params shader).
Local Abbreviation bindN := (bind_parameters X node input_params shader).

(** The calls for a texture input, as a list. *)
Lemma bind_parameter_texture_calls (param : NodeParam) (count iter : nat) :
  binds param = true ->
  exists rest : list Call,
    (bind1 param count iter).1.1
    = [glActiveTexture count; glBindTexture (input_texture_name node input_params param);
       Shader_setUniformValue (shader_obj shader)
                              (AtLocation (uniformLocation X shader (param_id param)))
                              (UnitValue count)] ++ rest
    /\ Forall (fun c => match c with
                        | Shader_setUniformValue _ (AtLocation _) (BoolValue _)
                        | Shader_setUniformValue _ (AtLocation _) (Float2Value _ _)
                        | PrepareToDraw => True
                        | _ => False
                        end) rest
    /\ (input_texture_name node input_params param = 0%N ->
        Forall (fun c => match c with
                         | Shader_setUniformValue _ (AtLocation _) (BoolValue false)
                         | PrepareToDraw => True
                         | _ => False
                         end) rest).
Proof.
  unfold binds_texture, bind_parameter, input_texture_name.
  destruct (param_type param); [|discriminate].
  destruct (bool_decide (uniformLocation X shader (param_id param) > -1)); [|discriminate].
  cbn [andb].
  destruct (if bool_decide (nv_type (InputValueFromTable node param input_params) ≠ kNone)
            then nv_type (InputValueFromTable node param input_params)
            else data_type param); try discriminate; intros _; cbn [fst snd];
    (eexists; split; [reflexivity|]; unfold when;
     destruct (toReferencePtr _) as [t|]; cbn;
     [ destruct (texture t) eqn:Ht; cbn;
       repeat destruct (bool_decide _); cbn;
       (split; [repeat constructor | intros; try discriminate; repeat constructor])
     | destruct (bool_decide _); cbn;
       (split; [repeat constructor | intros; repeat constructor]) ]).
Qed.

Lemma bind_parameter_other_calls (param : NodeParam) (count iter : nat) :
  binds param = false ->
  Forall (fun c => match c with
                   | Shader_setUniformValue _ (AtLocation _) (FromVariant _ _)
                   | Shader_setUniformValue _ (AtLocation _) (ColorComponents _)
                   | Shader_setUniformValue _ (AtLocation _) (IntValue _)
                   | Shader_setUniformValueArray _ _ _ => True
                   | _ => False
                   end) (bind1 param count iter).1.1.
Proof.
  unfold binds_texture, bind_parameter.
  destruct (param_type param); [|intros _; constructor].
  destruct (bool_decide (uniformLocation X shader (param_id param) > -1));
    [|intros _; constructor].
  cbn [andb].
  destruct (if bool_decide (nv_type (InputValueFromTable node param input_params) ≠ kNone)
            then nv_type (InputValueFromTable node param input_params)
            else data_type param); try discriminate; intros _; cbn [fst snd];
    try (repeat constructor).
  destruct (IsArray param); cbn [fst snd]; [|repeat constructor].
  unfold when. destruct (bool_decide _); cbn; repeat constructor.
Qed.

Lemma Forall_binding_of_texture (calls : list Call) :
  Forall (fun c => match c with
                   | Shader_setUniformValue _ (AtLocation _) (BoolValue _)
                   | Shader_setUniformValue _ (AtLocation _) (Float2Value _ _)
                   | PrepareToDraw => True
                   | _ => False
                   end) calls ->
  Forall (fun c => is_binding_call c = true) calls
  /\ sampler_units calls = [] /\ (forall g, gl_run g calls = g)
  /\ (forall unit active, keeps unit active calls = Some active).
Proof.
  intros HF. induction HF as [|c rest Hc _ (IH1 & IH2 & IH3 & IH4)]; [repeat split; constructor|].
  destruct c; try contradiction; [|repeat split; try constructor; auto].
  destruct at_; try contradiction.
  destruct v; try contradiction; (repeat split; [constructor; auto|..]; auto).
Qed.

Lemma Forall_binding_of_other (calls : list Call) :
  Forall (fun c => match c with
                   | Shader_setUniformValue _ (AtLocation _) (FromVariant _ _)
                   | Shader_setUniformValue _ (AtLocation _) (ColorComponents _)
                   | Shader_setUniformValue _ (AtLocation _) (IntValue _)
                   | Shader_setUniformValueArray _ _ _ => True
                   | _ => False
                   end) calls ->
  Forall (fun c => is_binding_call c = true) calls
  /\ sampler_units calls = [] /\ (forall g, gl_run g calls = g)
  /\ (forall unit active, keeps unit active calls = Some active)
  /\ enabled_flags calls = [] /\ resolutions calls = [].
Proof.
  intros HF.
  induction HF as [|c rest Hc _ (IH1 & IH2 & IH3 & IH4 & IH5 & IH6)];
    [repeat split; constructor|].
  destruct c; try contradiction.
  - destruct at_; try contradiction.
    destruct v; try contradiction; (repeat split; [constructor; auto|..]; auto).
  - repeat split; [constructor; auto|..]; auto.
Qed.

(** Every call of the binding loop is one the switch can make. *)
Lemma bind_parameters_binding (plist : list NodeParam) (count iter : nat) :
  Forall (fun c => is_binding_call c = true) (bindN plist count iter).1.1.
Proof.
  revert count iter. induction plist as [|param rest IH]; intros count iter; [constructor|].
  rewrite bind_parameters_cons. cbn zeta. cbn [fst snd].
  apply Forall_app. split; [|apply IH].
  destruct (binds param) eqn:Hb.
  - destruct (bind_parameter_texture_calls param count iter Hb) as (more & -> & Hm & _).
    apply Forall_app. split; [repeat constructor|].
    now apply Forall_binding_of_texture.
  - now apply Forall_binding_of_other, bind_parameter_other_calls.
Qed.

(** The sampler of the k-th texture input is given unit [count + k]; after
    the loop that unit holds the texture of the input's value; the units
    outside the ones handed out hold what they held. *)
Lemma bind_parameters_units (plist : list NodeParam) (count iter : nat) :
  let inputs := filter (fun param => binds param = true) plist in
  let calls := (bindN plist count iter).1.1 in
  sampler_units calls
  = zip (map (fun param => uniformLocation X shader (param_id param)) inputs)
        (seq count (length inputs))
  /\ (forall (g : GLState) (k : nat) (param : NodeParam),
        inputs !! k = Some param ->
        bound_texture (gl_run g calls) (count + k)
        = input_texture_name node input_params param)
  /\ (forall (g : GLState) (unit : nat),
        (unit < count \/ count + length inputs <= unit)%nat ->
        bound_texture (gl_run g calls) unit = bound_texture g unit)
  /\ (forall (unit : nat) (active : bool),
        (count + length inputs <= unit)%nat ->
        is_Some (keeps unit active calls)).
Proof.
  cbn zeta. revert count iter.
  induction plist as [|param rest IH]; intros count iter.
  - cbn. repeat split; auto. intros g k param Hk. rewrite lookup_nil in Hk. discriminate.
  - rewrite bind_parameters_cons. cbn zeta. cbn [fst snd]. rewrite filter_cons.
    destruct (decide (binds param = true)) as [Hb|Hb].
    + destruct (bind_parameter_texture X node input_params shader param count iter Hb) as (Hn & Hi & _).
      destruct (bind_parameter_texture_calls param count iter Hb) as (more & Hc & Hm & _).
      destruct (Forall_binding_of_texture more Hm) as (_ & M2 & M3 & M4).
      rewrite Hn, Hi, Hc.
      destruct (IH (S count) (if is_iterative_input node param then count else iter))
        as (IH1 & IH2 & IH3 & IH4).
      set (tail := (bindN rest (S count) _).1.1) in *.
      assert (forall g, gl_run g (([glActiveTexture count;
                  glBindTexture (input_texture_name node input_params param);
                  Shader_setUniformValue (shader_obj shader)
                    (AtLocation (uniformLocation X shader (param_id param)))
                    (UnitValue count)] ++ more) ++ tail)
                = gl_run (MkGL count
                            (<[count := input_texture_name node input_params param]>
                               (texture_binding_2d g))
                            (current_program g)) tail) as Hrun.
      { intros g. rewrite !gl_run_app, M3. reflexivity. }
      split; [|split; [|split]].
      * unfold sampler_units in *. rewrite !omap_app, IH1, M2. reflexivity.
      * intros g k q Hk. rewrite Hrun. destruct k as [|k].
        -- injection Hk as <-. rewrite Nat.add_0_r, IH3 by lia.
           unfold bound_texture. cbn. now rewrite lookup_insert_eq.
        -- replace (count + S k)%nat with (S count + k)%nat by lia.
           now apply IH2.
      * intros g unit Hu. cbn [length] in Hu. rewrite Hrun, IH3 by lia.
        unfold bound_texture. cbn. rewrite lookup_insert_ne by lia. reflexivity.
      * intros unit active Hu. cbn [length] in Hu.
        rewrite (keeps_app unit active _ tail), (keeps_app unit active _ more).
        cbn [keeps]. rewrite bool_decide_eq_false_2 by lia. cbn. rewrite M4. cbn.
        apply IH4. lia.
    + apply not_true_is_false in Hb.
      destruct (bind_parameter_other X node input_params shader param count iter Hb) as (Hn & Hi & _).
      destruct (Forall_binding_of_other _ (bind_parameter_other_calls param count iter Hb))
        as (_ & M2 & M3 & M4 & _).
      rewrite Hn, Hi.
      destruct (IH count iter) as (IH1 & IH2 & IH3 & IH4).
      split; [|split; [|split]].
      * unfold sampler_units in *. rewrite !omap_app, IH1.
        unfold sampler_units in M2. now rewrite M2.
      * intros g k q Hk. rewrite gl_run_app, M3. now apply IH2.
      * intros g unit Hu. rewrite gl_run_app, M3. now apply IH3.
      * intros unit active Hu. rewrite keeps_app, M4. cbn. now apply IH4.
Qed.

(** The binds of the binding loop: the texture of the k-th texture input on
    unit [count + k], whatever unit was active before. *)
Lemma bind_parameters_binds (plist : list NodeParam) (count iter : nat)
    (active : option nat) :
  let inputs := filter (fun param => binds param = true) plist in
  texture_binds active (bindN plist count iter).1.1
  = zip (map Some (seq count (length inputs)))
        (map (input_texture_name node input_params) inputs).
Proof.
  cbn zeta. revert count iter active.
  induction plist as [|param rest IH]; intros count iter active; [reflexivity|].
  rewrite bind_parameters_cons. cbn zeta. cbn [fst snd]. rewrite filter_cons.
  rewrite texture_binds_app.
  destruct (decide (binds param = true)) as [Hb|Hb].
  - destruct (bind_parameter_texture X node input_params shader param count iter Hb)
      as (Hn & Hi & _).
    destruct (bind_parameter_texture_calls param count iter Hb) as (more & Hc & Hm & _).
    rewrite Hn, Hi, Hc, IH. cbn [app texture_binds length seq map zip zip_with].
    rewrite (texture_binds_neutral _ _ more Hm); [reflexivity|].
    intros [] Hcall; try exact I; contradiction.
  - apply not_true_is_false in Hb.
    destruct (bind_parameter_other X node input_params shader param count iter Hb)
      as (Hn & Hi & _).
    rewrite Hn, Hi, IH.
    rewrite (texture_binds_neutral _ _ _ (bind_parameter_other_calls param count iter Hb));
      [reflexivity|].
    intros [] Hcall; try exact I; contradiction.
Qed.

(** Where no input's value refers to a texture, an enabled flag is only
    ever set to false and no resolution is set. *)
Lemma bind_parameters_null (plist : list NodeParam) (count iter : nat) :
  (forall param, input_texture_name node input_params param = 0%N) ->
  Forall (fun b => b = false) (enabled_flags (bindN plist count iter).1.1)
  /\ resolutions (bindN plist count iter).1.1 = [].
Proof.
  intros Hnull. revert count iter.
  induction plist as [|param rest IH]; intros count iter; [split; constructor|].
  rewrite bind_parameters_cons. cbn zeta. cbn [fst snd].
  destruct (IH (bind1 param count iter).1.2 (bind1 param count iter).2) as (IH1 & IH2).
  unfold enabled_flags, resolutions in *. rewrite !omap_app, IH2.
  destruct (binds param) eqn:Hb.
  - destruct (bind_parameter_texture_calls param count iter Hb) as (more & -> & _ & Hm).
    specialize (Hm (Hnull param)).
    assert (Forall (fun b => b = false)
                   (omap (fun c => match c with
                                   | Shader_setUniformValue _ (AtLocation _) (BoolValue b) =>
                                       Some b
                                   | _ => None
                                   end) more)
            /\ omap (fun c => match c with
                              | Shader_setUniformValue _ (AtLocation _) (Float2Value x y) =>
                                  Some (x, y)
                              | _ => None
                              end) more = []) as (E1 & E2).
    { induction Hm as [|c more' Hc _ (I1 & I2)]; [split; constructor|].
      destruct c; try contradiction; [|split; assumption].
      destruct at_; try contradiction. destruct v; try contradiction.
      destruct b; try contradiction. cbn. split; [constructor; auto|assumption]. }
    rewrite !omap_app, E2. cbn. split; [|reflexivity].
    apply Forall_app. split; assumption.
  - destruct (Forall_binding_of_other _ (bind_parameter_other_calls param count iter Hb))
      as (_ & _ & _ & _ & M5 & M6).
    unfold enabled_flags, resolutions in M5, M6. rewrite M5, M6. cbn. split; auto.
Qed.

End Phases.

Section DrawMore.

Variables (shader : OpenGLShader) (dst_refs : list OpenGLTexture) (first : OpenGLTexture).
Variable iterative_input : nat.

Local Abbreviation step := (draw_iteration shader dst_refs first iterative_input).

Lemma draw_iteration_read (i : Z) :
  iteration_numbers (step i).1 = [i]
  /\ sampler_units (step i).1 = []
  /\ fb_run FbDetached (step i).1 = Some FbDetached
  /\ activated_units (step i).1 = (if bool_decide (i > 0) then [iterative_input] else [])
  /\ (forall unit active, unit <> iterative_input -> is_Some (keeps unit active (step i).1)).
Proof.
  unfold draw_iteration, when. cbn [fst].
  destruct (bool_decide (i > 0)); cbn; repeat split; eauto.
  intros unit active Hu. rewrite bool_decide_eq_false_2 by congruence. eauto.
Qed.

Lemma draw_iterations_read (todo : nat) (iteration : Z) (output_tex : ReferencePtr) :
  let calls := (draw_iterations todo shader dst_refs first iterative_input iteration
                                output_tex).1 in
  iteration_numbers calls = map (fun i : nat => iteration + Z.of_nat i) (seq 0 todo)
  /\ sampler_units calls = []
  /\ fb_run FbDetached calls = Some FbDetached
  /\ (forall unit active, unit <> iterative_input -> is_Some (keeps unit active calls)).
Proof.
  cbn zeta. revert iteration output_tex.
  induction todo as [|todo IH]; intros iteration output_tex.
  - cbn. repeat split; eauto.
  - rewrite draw_iterations_S. cbn [fst].
    destruct (draw_iteration_read iteration) as (R1 & R2 & R3 & _ & R5).
    destruct (IH (iteration + 1) (Some (step iteration).2)) as (I1 & I2 & I3 & I4).
    split; [|split; [|split]].
    + unfold iteration_numbers in *. rewrite omap_app, R1, I1. cbn [seq map app].
      rewrite Z.add_0_r. f_equal. rewrite <- seq_shift, map_map.
      apply map_ext. intros i. lia.
    + unfold sampler_units in *. now rewrite omap_app, R2, I2.
    + now rewrite fb_run_app, R3.
    + intros unit active Hu. rewrite keeps_app.
      destruct (R5 unit active Hu) as [b ->]. cbn. now apply I4.
Qed.

(** The loop binds on the iterative unit alone, once per iteration after
    the first. *)
Lemma draw_iterations_binds (todo : nat) (iteration : Z) (output_tex : ReferencePtr)
    (active : option nat) :
  0 <= iteration ->
  map fst (texture_binds active
             (draw_iterations todo shader dst_refs first iterative_input iteration
                              output_tex).1)
  = replicate (if bool_decide (iteration > 0) then todo else pred todo) (Some iterative_input).
Proof.
  revert iteration output_tex active.
  induction todo as [|todo IH]; intros iteration output_tex active Hi.
  - destruct (bool_decide _); reflexivity.
  - rewrite draw_iterations_S. cbn [fst]. rewrite texture_binds_app, map_app.
    rewrite IH by lia. rewrite (bool_decide_eq_true_2 (iteration + 1 > 0)) by lia.
    unfold draw_iteration, when. cbn [fst].
    destruct (bool_decide (iteration > 0)); cbn; reflexivity.
Qed.

(** The loop goes over the framebuffer once per iteration, and its output
    is the texture it attached last. *)
Lemma draw_iterations_framebuffer (todo : nat) (iteration : Z) (output_tex : ReferencePtr) :
  let w := draw_iterations todo shader dst_refs first iterative_input iteration output_tex in
  length (attached_textures w.1) = todo
  /\ framebuffer_calls w.1 = flat_map (draw_pass (shader_obj shader)) (attached_textures w.1)
  /\ w.2 = match last (attached_textures w.1) with
           | Some d => Some d
           | None => output_tex
           end.
Proof.
  cbn zeta. revert iteration output_tex.
  induction todo as [|todo IH]; intros iteration output_tex; [repeat split|].
  rewrite draw_iterations_S. cbn [fst snd].
  destruct (IH (iteration + 1) (Some (step iteration).2)) as (I1 & I2 & I3).
  assert (attached_textures (step iteration).1 = [(step iteration).2]
          /\ framebuffer_calls (step iteration).1
             = draw_pass (shader_obj shader) (step iteration).2) as (S1 & S2).
  { unfold draw_iteration, when. cbn [fst snd].
    destruct (bool_decide (iteration > 0)); split; reflexivity. }
  unfold attached_textures in *. rewrite omap_app, S1, framebuffer_calls_app, S2, I2, I3.
  cbn [app length flat_map]. rewrite I1. split; [reflexivity|]. split; [reflexivity|].
  rewrite last_cons. destruct (last _); reflexivity.
Qed.

End DrawMore.

Section RenderCallMore.

Variable X : Externals.
Variables (node : Node) (range : TimeRange) (input_params : gmap Ptr NodeValueTable).
Variables (output_params : NodeValueTable) (params : VideoParams) (p : OpenGLProxy).

Local Abbreviation r := (run_node X node range input_params params p).
Local Abbreviation K := (Z.to_nat (ShaderIterations node)).
Local Abbreviation inputs := (texture_inputs X node input_params (run_shader r)).

Lemma gl_run_prelude (calls : list Call) (g : GLState) :
  Forall (fun c => is_prelude_call c = true) calls -> gl_run g calls = g.
Proof.
  intros HF. revert g. induction HF as [|c rest Hc _ IH]; intros g; [reflexivity|].
  change (gl_run g (c :: rest)) with (gl_run (gl_call g c) rest).
  rewrite IH. destruct c; try discriminate; reflexivity.
Qed.

(** Once the inputs are bound, unit k holds the texture of the k-th texture
    input. *)
Lemma run_bound_after_inputs (g : GLState) (k : nat) (param : NodeParam) :
  inputs !! k = Some param ->
  bound_texture (gl_run g (calls_until_bound r)) k
  = input_texture_name node input_params param.
Proof.
  unfold calls_until_bound. rewrite run_node_phases.
  cbn [calls_fetch calls_dst calls_inputs run_shader].
  set (sh := (fetch_shader X node input_params p).1.1).
  destruct (bind_parameters_units X node input_params sh (parameters node) 0 0)
    as (_ & B2 & _).
  intros Hk.
  rewrite !gl_run_app, (gl_run_prelude _ _ (fetch_shader_prelude X node input_params p)),
    (gl_run_prelude _ _ (create_dst_refs_prelude node params
                           (fetch_shader X node input_params p).1.2)).
  exact (B2 _ k param Hk).
Qed.

(** X13.  The textures the inputs refer to are bound to units 0, 1, ... in the
    order the inputs are declared: the sampler uniform of the k-th texture
    input is given the number k, and no other sampler is set in the whole
    call; and once the inputs are bound, unit k holds the texture of that
    input's value, texture 0 when the value refers to none. *)
Theorem texture_inputs_take_units_in_declaration_order :
  sampler_units (run_calls r)
  = zip (map (fun param => uniformLocation X (run_shader r) (param_id param)) inputs)
        (seq 0 (length inputs))
  /\ forall (g : GLState) (k : nat) (param : NodeParam),
       inputs !! k = Some param ->
       bound_texture (gl_run g (calls_until_bound r)) k
       = input_texture_name node input_params param.
Proof.
  split; [|apply run_bound_after_inputs].
  unfold run_calls. rewrite run_node_phases.
  cbn [calls_fetch calls_dst calls_inputs calls_args calls_draw calls_release run_shader].
  set (sh := (fetch_shader X node input_params p).1.1).
  destruct (bind_parameters_units X node input_params sh (parameters node) 0 0)
    as (B1 & _).
  pose proof (fetch_shader_prelude X node input_params p) as Pf.
  pose proof (create_dst_refs_prelude node params (fetch_shader X node input_params p).1.2)
    as Pd.
  pose proof (standard_args_prelude node range params sh) as Ps.
  destruct (draw_iterations_read sh
              (create_dst_refs node params (fetch_shader X node input_params p).1.2).1.1.2
              (create_dst_refs node params (fetch_shader X node input_params p).1.2).1.1.1
              (bind_parameters X node input_params sh (parameters node) 0 0).2 K 0 None)
    as (_ & W2 & _).
  unfold sampler_units in *. rewrite !omap_app, B1, W2.
  rewrite (omap_None_Forall _ _ _ Pf), (omap_None_Forall _ _ _ Pd),
    (omap_None_Forall _ _ _ Ps)
    by (intros [] Hc; try discriminate; try reflexivity;
        destruct at_; try discriminate; try reflexivity;
        destruct v; try discriminate; reflexivity).
  rewrite (omap_None_Forall _ _ _ (release_textures_release _))
    by (intros [] Hc; try discriminate; reflexivity).
  cbn. now rewrite !app_nil_r.
Qed.

(** X14.  When no input's value refers to a texture, every
    unit handed out is bound to texture 0, every [_enabled] flag that is set
    is set to false, and no [_resolution] is set. *)
Theorem inputs_without_textures_bind_texture_0 :
  (forall param, input_texture_name node input_params param = 0%N) ->
  Forall (fun b => b = false) (enabled_flags (calls_inputs r))
  /\ resolutions (calls_inputs r) = []
  /\ forall (g : GLState) (k : nat),
       (k < run_input_texture_count r)%nat ->
       bound_texture (gl_run g (calls_until_bound r)) k = 0%N.
Proof.
  intros Hnull. split; [|split].
  - rewrite run_node_phases. cbn [calls_inputs].
    now apply (bind_parameters_null X node input_params).
  - rewrite run_node_phases. cbn [calls_inputs].
    now apply (bind_parameters_null X node input_params).
  - intros g k Hk.
    destruct (run_feedback_unit X node range input_params params p) as (Hn & _).
    rewrite Hn in Hk. apply lookup_lt_is_Some in Hk. destruct Hk as [param Hp].
    rewrite (run_bound_after_inputs g k param Hp). apply Hnull.
Qed.

(** X15.  The uniform [ove_iteration] is set once per iteration, to 0, 1, ...,
    K-1 in this order, and nowhere else in the call. *)
Theorem iteration_uniform_counts_up :
  iteration_numbers (RunNodeAccelerated X node range input_params output_params params p).2
  = map Z.of_nat (seq 0 K).
Proof.
  unfold RunNodeAccelerated, run_calls. cbn [snd]. rewrite run_node_phases.
  cbn [calls_fetch calls_dst calls_inputs calls_args calls_draw calls_release].
  set (sh := (fetch_shader X node input_params p).1.1).
  pose proof (fetch_shader_prelude X node input_params p) as Pf.
  pose proof (create_dst_refs_prelude node params (fetch_shader X node input_params p).1.2)
    as Pd.
  pose proof (standard_args_prelude node range params sh) as Ps.
  pose proof (bind_parameters_binding X node input_params sh (parameters node) 0 0) as Pb.
  destruct (draw_iterations_read sh
              (create_dst_refs node params (fetch_shader X node input_params p).1.2).1.1.2
              (create_dst_refs node params (fetch_shader X node input_params p).1.2).1.1.1
              (bind_parameters X node input_params sh (parameters node) 0 0).2 K 0 None)
    as (W1 & _).
  unfold iteration_numbers in *. rewrite !omap_app, W1.
  rewrite (omap_None_Forall _ _ _ Pf), (omap_None_Forall _ _ _ Pd),
    (omap_None_Forall _ _ _ Ps), (omap_None_Forall _ _ _ Pb)
    by (intros [] Hc; try discriminate; try reflexivity;
        destruct at_; try discriminate; try reflexivity;
        destruct v; try discriminate; reflexivity).
  rewrite (omap_None_Forall _ _ _ (release_textures_release _))
    by (intros [] Hc; try discriminate; reflexivity).
  cbn. rewrite app_nil_r. apply map_ext. intros i. lia.
Qed.

(** X16.  A render call keeps to the framebuffer protocol and leaves the
    framebuffer detached.  Its calls on the framebuffer are exactly one pass
    per iteration: the destination is attached, the framebuffer bound, the
    node's program drawn, the framebuffer released and the destination
    detached.  There are K passes, and no other call of the render call
    goes to the framebuffer. *)
Theorem render_call_keeps_the_framebuffer_protocol :
  let calls := (RunNodeAccelerated X node range input_params output_params params p).2 in
  fb_run FbDetached calls = Some FbDetached
  /\ length (attached_textures calls) = K
  /\ framebuffer_calls calls
     = flat_map (draw_pass (shader_obj (run_shader r))) (attached_textures calls).
Proof.
  cbn zeta. unfold RunNodeAccelerated. cbn [snd].
  destruct (run_calls_read X node range input_params params p) as (_ & Q2 & _).
  rewrite Q2. unfold run_calls. rewrite run_node_phases.
  cbn [calls_fetch calls_dst calls_inputs calls_args calls_draw calls_release run_shader].
  set (sh := (fetch_shader X node input_params p).1.1).
  pose proof (fetch_shader_prelude X node input_params p) as Pf.
  pose proof (create_dst_refs_prelude node params (fetch_shader X node input_params p).1.2)
    as Pd.
  pose proof (standard_args_prelude node range params sh) as Ps.
  pose proof (bind_parameters_binding X node input_params sh (parameters node) 0 0) as Pb.
  destruct (draw_iterations_read sh
              (create_dst_refs node params (fetch_shader X node input_params p).1.2).1.1.2
              (create_dst_refs node params (fetch_shader X node input_params p).1.2).1.1.1
              (bind_parameters X node input_params sh (parameters node) 0 0).2 K 0 None)
    as (_ & _ & W3 & _).
  destruct (draw_iterations_framebuffer sh
              (create_dst_refs node params (fetch_shader X node input_params p).1.2).1.1.2
              (create_dst_refs node params (fetch_shader X node input_params p).1.2).1.1.1
              (bind_parameters X node input_params sh (parameters node) 0 0).2 K 0 None)
    as (F1 & F2 & _).
  assert (forall calls s, Forall (fun c => is_prelude_call c = true) calls ->
                          fb_run s calls = Some s) as Hpre.
  { intros calls s HF. apply (fb_run_neutral _ _ _ HF).
    intros [] s' Hc; try discriminate; reflexivity. }
  assert (forall calls s, Forall (fun c => is_binding_call c = true) calls ->
                          fb_run s calls = Some s) as Hbind.
  { intros calls s HF. apply (fb_run_neutral _ _ _ HF).
    intros [] s' Hc; try discriminate; reflexivity. }
  assert (forall calls s, Forall (fun c => is_release_call c = true) calls ->
                          fb_run s calls = Some s) as Hrel.
  { intros calls s HF. apply (fb_run_neutral _ _ _ HF).
    intros [] s' Hc; try discriminate; reflexivity. }
  assert (forall calls, Forall (fun c => is_prelude_call c = true) calls ->
                        framebuffer_calls calls = []) as Npre.
  { intros calls HF. apply (framebuffer_calls_none _ _ HF).
    intros [] Hc; try discriminate; reflexivity. }
  assert (forall calls, Forall (fun c => is_binding_call c = true) calls ->
                        framebuffer_calls calls = []) as Nbind.
  { intros calls HF. apply (framebuffer_calls_none _ _ HF).
    intros [] Hc; try discriminate; reflexivity. }
  assert (forall calls, Forall (fun c => is_release_call c = true) calls ->
                        framebuffer_calls calls = []) as Nrel.
  { intros calls HF. apply (framebuffer_calls_none _ _ HF).
    intros [] Hc; try discriminate; reflexivity. }
  split; [|split; [exact F1|]].
  - rewrite fb_run_app, (Hpre _ _ Pf). cbn [mbind option_bind].
    rewrite fb_run_app, (Hpre _ _ Pd). cbn [mbind option_bind].
    rewrite fb_run_app, fb_run_app. cbn [fb_run fb_call mbind option_bind].
    rewrite (Hbind _ _ Pb). cbn [mbind option_bind].
    rewrite fb_run_app, (Hpre _ _ Ps). cbn [mbind option_bind].
    rewrite fb_run_app, W3. cbn [mbind option_bind].
    rewrite fb_run_app, (Hrel _ _ (release_textures_release _)). reflexivity.
  - rewrite !framebuffer_calls_app, (Npre _ Pf), (Npre _ Pd), (Nbind _ Pb), (Npre _ Ps), F2,
      (Nrel _ (release_textures_release _)).
    change (framebuffer_calls [Shader_bind (shader_obj sh)]) with (@nil Call).
    cbn [app]. now rewrite app_nil_r.
Qed.

End RenderCallMore.

Section RenderCallFrame.

Variable X : Externals.
Variables (node : Node) (range : TimeRange) (input_params : gmap Ptr NodeValueTable).
Variables (output_params : NodeValueTable) (params : VideoParams) (p : OpenGLProxy).

Local Abbreviation r := (run_node X node range input_params params p).
Local Abbreviation K := (Z.to_nat (ShaderIterations node)).

(** The unit the loop rebinds is one of the units handed out, or unit 0. *)
Lemma run_iterative_input_range :
  (run_iterative_input r < run_input_texture_count r)%nat \/ run_iterative_input r = 0%nat.
Proof.
  destruct (run_feedback_unit X node range input_params params p) as (Hn & Hi & _).
  rewrite Hi, Hn. unfold feedback_unit.
  destruct (ShaderIterativeInput node) as [fb|]; [|now right].
  destruct (unit_of fb _ 0) as [u|] eqn:Hu; [|now right].
  left. cbn. destruct (unit_of_lookup _ _ _ _ Hu) as (k & param & -> & Hk & _).
  apply lookup_lt_Some in Hk. lia.
Qed.

(** X17.  The binds a render call makes itself.  Every [glBindTexture] of the
    call comes after a [glActiveTexture] of the call, and the units they
    land on are, in this order: 0, ..., n-1 for the [n] texture inputs; the
    unit the loop rebinds, once for every iteration after the first; and
    n-1, ..., 0 for the release.  The unit the loop rebinds is one of the
    units of the inputs or unit 0, so the call itself binds nothing on any
    other unit.  What the texture cache, the framebuffer and the draw
    helper bind in their own code is not part of this. *)
Theorem render_call_binds_only_its_units :
  let calls := (RunNodeAccelerated X node range input_params output_params params p).2 in
  let n := run_input_texture_count r in
  map fst (texture_binds None calls)
  = map Some (seq 0 n ++ replicate (pred K) (run_iterative_input r) ++ reverse (seq 0 n))
  /\ ((run_iterative_input r < n)%nat \/ run_iterative_input r = 0%nat)
  /\ Forall (fun bind => exists unit : nat,
                bind.1 = Some unit /\ ((unit < n)%nat \/ unit = 0%nat))
            (texture_binds None calls).
Proof.
  cbn zeta.
  assert (map fst (texture_binds None
            (RunNodeAccelerated X node range input_params output_params params p).2)
          = map Some (seq 0 (run_input_texture_count r)
                      ++ replicate (pred K) (run_iterative_input r)
                      ++ reverse (seq 0 (run_input_texture_count r)))) as Hunits.
  { unfold RunNodeAccelerated, run_calls. cbn [snd]. rewrite run_node_phases.
    cbn [calls_fetch calls_dst calls_inputs calls_args calls_draw calls_release
         run_input_texture_count run_iterative_input].
    set (sh := (fetch_shader X node input_params p).1.1).
    pose proof (fetch_shader_prelude X node input_params p) as Pf.
    pose proof (create_dst_refs_prelude node params (fetch_shader X node input_params p).1.2)
      as Pd.
    pose proof (standard_args_prelude node range params sh) as Ps.
    destruct (bind_parameters_spec X node input_params sh (parameters node) 0 0)
      as (Bn & _).
    assert (forall calls a, Forall (fun c => is_prelude_call c = true) calls ->
                            texture_binds a calls = []) as Hpre.
    { intros calls a HF. apply (texture_binds_neutral _ _ _ HF).
      intros [] Hc; try discriminate; exact I. }
    rewrite texture_binds_app, (Hpre _ _ Pf).
    rewrite texture_binds_app, (Hpre _ _ Pd).
    rewrite texture_binds_app, (texture_binds_app _ [Shader_bind _]).
    cbn [texture_binds app].
    rewrite (bind_parameters_binds X node input_params sh).
    rewrite texture_binds_app, (Hpre _ _ Ps).
    rewrite texture_binds_app, texture_binds_app, texture_binds_release_textures.
    cbn [texture_binds app]. rewrite app_nil_r, !map_app.
    rewrite (draw_iterations_binds sh _ _ _ K 0 None) by lia.
    rewrite (bool_decide_eq_false_2 (0 > 0)) by lia.
    rewrite Bn. cbn [plus].
    rewrite map_fst_zip by (rewrite !length_map, length_seq; reflexivity).
    rewrite map_map, map_replicate_const. reflexivity. }
  split; [exact Hunits|]. split; [apply run_iterative_input_range|].
  apply Forall_forall. intros bind Hin.
  assert (bind.1 ∈ map fst (texture_binds None
            (RunNodeAccelerated X node range input_params output_params params p).2)) as Hu
    by (apply list_elem_of_fmap; eauto).
  rewrite Hunits in Hu. apply list_elem_of_fmap in Hu. destruct Hu as (unit & -> & Hunit).
  exists unit. split; [reflexivity|].
  rewrite !elem_of_app in Hunit. destruct Hunit as [Hunit|[Hunit|Hunit]].
  - apply elem_of_seq in Hunit. left. lia.
  - apply elem_of_replicate in Hunit. destruct Hunit as [-> _].
    apply run_iterative_input_range.
  - rewrite elem_of_reverse in Hunit. apply elem_of_seq in Hunit. left. lia.
Qed.

(** X18.  A node that asks for no iteration: one destination is still asked for,
    nothing is attached or drawn, and the value pushed to the output table
    is a null texture reference. *)
Theorem render_call_without_iterations :
  ShaderIterations node <= 0 ->
  let result := RunNodeAccelerated X node range input_params output_params params p in
  length (requested_textures result.2) = 1%nat
  /\ attached_textures result.2 = []
  /\ draws result.2 = []
  /\ result.1.2 = Push kTexture (QTextureRef None) output_params.
Proof.
  intros HK. cbn zeta. unfold RunNodeAccelerated. cbn [fst snd].
  destruct (run_calls_read X node range input_params params p) as (Q1 & Q2 & Q3 & _).
  rewrite Q1, Q2, Q3. rewrite run_node_phases. cbn [calls_dst calls_draw run_output_tex].
  replace K with 0%nat by lia. cbn [draw_iterations fst snd].
  destruct (create_dst_refs_one node params (fetch_shader X node input_params p).1.2)
    as (_ & _ & ->); [left; lia|].
  repeat split.
Qed.

(** X19.  A node with exactly one iteration gets one destination even when it
    declares an iterative input; the single iteration rebinds nothing, and
    its destination is the output. *)
Theorem render_call_with_one_iteration :
  ShaderIterations node = 1 ->
  let result := RunNodeAccelerated X node range input_params output_params params p in
  exists d0 : OpenGLTexture,
    requested_textures result.2 = [d0]
    /\ attached_textures result.2 = [d0]
    /\ draws result.2 = [shader_obj (run_shader r)]
    /\ activated_units (calls_draw r) = []
    /\ result.1.2 = Push kTexture (QTextureRef (Some d0)) output_params.
Proof.
  intros HK. cbn zeta. unfold RunNodeAccelerated. cbn [fst snd].
  destruct (run_calls_read X node range input_params params p) as (Q1 & Q2 & Q3 & _).
  rewrite Q1, Q2, Q3. rewrite run_node_phases.
  cbn [calls_dst calls_draw run_output_tex run_shader].
  replace K with 1%nat by lia.
  destruct (create_dst_refs_one node params (fetch_shader X node input_params p).1.2)
    as (D1 & _ & D3); [left; lia|].
  rewrite D1, D3. cbn [fst snd].
  set (d0 := MkTexture _ params).
  destruct (draw_one (fetch_shader X node input_params p).1.1 d0
              (bind_parameters X node input_params (fetch_shader X node input_params p).1.1
                               (parameters node) 0 0).2 1) as (W1 & W2).
  rewrite W1, W2. exists d0. repeat split.
Qed.

(** X20.  When the program has no uniform for any of the node's parameters, as
    for a program that did not link, binding the inputs makes no call but
    the bind of the program and uses no texture unit; the iterations are
    drawn all the same. *)
Theorem program_without_uniforms_binds_nothing :
  Forall (fun param => uniformLocation X (run_shader r) (param_id param) <= -1)
         (parameters node) ->
  calls_inputs r = [Shader_bind (shader_obj (run_shader r))]
  /\ run_input_texture_count r = 0%nat
  /\ draws (run_calls r) = replicate K (shader_obj (run_shader r)).
Proof.
  intros Hloc.
  destruct (run_calls_read X node range input_params params p) as (_ & _ & Q3 & _).
  rewrite Q3. revert Hloc. rewrite run_node_phases.
  cbn [run_shader calls_inputs run_input_texture_count calls_draw].
  set (sh := (fetch_shader X node input_params p).1.1). intros Hloc.
  assert (forall count iter,
            bind_parameters X node input_params sh (parameters node) count iter
            = ([], count, iter)) as Hb.
  { induction Hloc as [|param rest Hp _ IH]; intros count iter; [reflexivity|].
    rewrite bind_parameters_cons. cbn zeta.
    assert (bind_parameter X node input_params sh param count iter = ([], count, iter))
      as ->.
    { unfold bind_parameter. destruct (param_type param); [|reflexivity].
      rewrite bool_decide_eq_false_2 by lia. reflexivity. }
    cbn [fst snd]. now rewrite IH. }
  rewrite Hb. cbn [fst snd app]. split; [reflexivity|]. split; [reflexivity|].
  apply draw_iterations_draws.
Qed.

(** Only the fetch of the program links anything. *)
Lemma run_calls_linked :
  linked_programs (run_calls r) = linked_programs (calls_fetch r).
Proof.
  unfold run_calls. rewrite run_node_phases.
    cbn [calls_fetch calls_dst calls_inputs calls_args calls_draw calls_release].
    set (sh := (fetch_shader X node input_params p).1.1).
    pose proof (create_dst_refs_prelude node params (fetch_shader X node input_params p).1.2)
      as Pd.
    destruct (bind_parameters_spec X node input_params sh (parameters node) 0 0)
      as (_ & _ & _ & _ & _ & _ & B4).
    destruct (standard_args_read node range params sh) as ((_ & _ & _ & S4) & _).
    destruct (release_textures_read
                (bind_parameters X node input_params sh (parameters node) 0 0).1.2)
      as (_ & _ & _ & _ & R4).
    assert (linked_programs (create_dst_refs node params
                               (fetch_shader X node input_params p).1.2).2 = []) as D4.
    { unfold create_dst_refs. cbn. destruct (_ && _); reflexivity. }
    assert (forall n dst first it i out,
              linked_programs (draw_iterations n sh dst first it i out).1 = []) as W4.
    { induction n as [|n IH]; intros; [reflexivity|].
      rewrite draw_iterations_S. cbn [fst]. unfold linked_programs in *.
      rewrite omap_app, IH. unfold draw_iteration, when. cbn [fst]. rewrite !omap_app.
      destruct (bool_decide _); reflexivity. }
    unfold linked_programs in *.
    rewrite !omap_app, B4, S4, R4, D4, W4. cbn. now rewrite !app_nil_r.
Qed.

(** X21.  What a render call does to the proxy: it links at most one program,
    none when the cache has one under the node's shader id; the shader
    cache changes under the node's id at most; and context, function table,
    framebuffer, copy program and colour processors are as before. *)
Theorem render_call_frame_conditions :
  let result := RunNodeAccelerated X node range input_params output_params params p in
  linked_programs result.2
  = match shader_cache_ p !! ShaderID node input_params with
    | Some _ => []
    | None => [shader_obj (run_shader r)]
    end
  /\ (is_Some (shader_cache_ p !! ShaderID node input_params) ->
      shader_cache_ result.1.1 = shader_cache_ p)
  /\ (forall k : string, k <> Node_id node ->
        shader_cache_ result.1.1 !! k = shader_cache_ p !! k)
  /\ ctx_ result.1.1 = ctx_ p
  /\ functions_ result.1.1 = functions_ p
  /\ buffer_ result.1.1 = buffer_ p
  /\ copy_pipeline_ result.1.1 = copy_pipeline_ p
  /\ color_cache_ result.1.1 = color_cache_ p.
Proof.
  cbn zeta. unfold RunNodeAccelerated. cbn [fst snd].
  rewrite run_calls_linked.
  rewrite run_node_phases. cbn [calls_fetch run_proxy run_shader].
  assert (forall q, shader_cache_ (create_dst_refs node params q).1.2 = shader_cache_ q
                    /\ ctx_ (create_dst_refs node params q).1.2 = ctx_ q
                    /\ functions_ (create_dst_refs node params q).1.2 = functions_ q
                    /\ buffer_ (create_dst_refs node params q).1.2 = buffer_ q
                    /\ copy_pipeline_ (create_dst_refs node params q).1.2 = copy_pipeline_ q
                    /\ color_cache_ (create_dst_refs node params q).1.2 = color_cache_ q)
    as Hq.
  { intros q. unfold create_dst_refs. cbn. destruct (_ && _); repeat split. }
  destruct (Hq (fetch_shader X node input_params p).1.2) as (-> & -> & -> & -> & -> & ->).
  unfold fetch_shader.
  destruct (shader_cache_ p !! ShaderID node input_params) as [sh|] eqn:Hc; cbn;
    repeat split; auto.
  - intros [? ?]. discriminate.
  - intros k Hk. now apply lookup_insert_ne.
Qed.

End RenderCallFrame.

Section RenderCallCompose.

Variable X : Externals.
Variables (node : Node) (range : TimeRange) (input_params : gmap Ptr NodeValueTable).
Variables (output_params : NodeValueTable) (params : VideoParams) (p : OpenGLProxy).

Local Abbreviation r := (run_node X node range input_params params p).
Local Abbreviation K := (Z.to_nat (ShaderIterations node)).

(** After a run, the program it drew with is in the cache: under the shader
    id when it was found there, under the node's id when it was compiled. *)
Lemma run_shader_cached :
  shader_cache_ (run_proxy r)
    !! match shader_cache_ p !! ShaderID node input_params with
       | Some _ => ShaderID node input_params
       | None => Node_id node
       end
  = Some (run_shader r)
  /\ draws (run_calls r) = replicate K (shader_obj (run_shader r)).
Proof.
  destruct (run_calls_read X node range input_params params p) as (_ & _ & Q3 & _).
  rewrite Q3, run_node_phases. cbn [run_proxy run_shader calls_draw].
  split; [|apply draw_iterations_draws].
  assert (forall q, shader_cache_ (create_dst_refs node params q).1.2 = shader_cache_ q)
    as ->.
  { intros q. unfold create_dst_refs. cbn. destruct (_ && _); reflexivity. }
  unfold fetch_shader.
  destruct (shader_cache_ p !! ShaderID node input_params) as [sh|] eqn:Hc; cbn.
  - exact Hc.
  - apply lookup_insert_eq.
Qed.

End RenderCallCompose.

Section RenderCallTwice.

Variable X : Externals.
Variables (node : Node) (input_params : gmap Ptr NodeValueTable) (p : OpenGLProxy).
Variables (range range' : TimeRange) (output_params output_params' : NodeValueTable).
Variables (params params' : VideoParams).

Local Abbreviation K := (Z.to_nat (ShaderIterations node)).
Local Abbreviation first :=
  (RunNodeAccelerated X node range input_params output_params params p).

(** X22.  For a node whose shader id is its id, a second render call with the
    same node and inputs, whatever its time, target and output table, links
    nothing, draws with the program object the first call drew with, and
    leaves the shader cache as the first call left it. *)
Theorem program_reused_when_shader_id_is_id :
  ShaderID node input_params = Node_id node ->
  let second :=
    RunNodeAccelerated X node range' input_params output_params' params' first.1.1 in
  let program := shader_obj (run_shader (run_node X node range input_params params p)) in
  draws first.2 = replicate K program
  /\ linked_programs second.2 = []
  /\ draws second.2 = replicate K program
  /\ shader_cache_ second.1.1 = shader_cache_ first.1.1.
Proof.
  intros Hkey. cbn zeta. unfold RunNodeAccelerated. cbn [fst snd].
  destruct (run_shader_cached X node range input_params params p) as (Hc & Hd).
  assert (shader_cache_ (run_proxy (run_node X node range input_params params p))
            !! ShaderID node input_params
          = Some (run_shader (run_node X node range input_params params p))) as Hhit.
  { destruct (shader_cache_ p !! ShaderID node input_params); [exact Hc|].
    now rewrite Hkey. }
  set (q := run_proxy (run_node X node range input_params params p)) in *.
  pose proof (fetch_shader_hit X node input_params q _ Hhit) as Hf.
  destruct (run_shader_cached X node range' input_params params' q) as (_ & Hd').
  split; [exact Hd|]. split; [|split].
  - rewrite run_calls_linked, run_node_phases. cbn [calls_fetch]. now rewrite Hf.
  - rewrite Hd', run_node_phases. cbn [run_shader]. now rewrite Hf.
  - rewrite run_node_phases. cbn [run_proxy]. rewrite Hf. cbn [fst snd].
    unfold create_dst_refs. cbn. destruct (_ && _); reflexivity.
Qed.

End RenderCallTwice.

Section RenderThenDownload.

Variable X : Externals.
Variables (node : Node) (range : TimeRange) (input_params : gmap Ptr NodeValueTable).
Variables (output_params : NodeValueTable) (params : VideoParams) (p : OpenGLProxy).

Local Abbreviation K := (Z.to_nat (ShaderIterations node)).
Local Abbreviation result :=
  (RunNodeAccelerated X node range input_params output_params params p).

(** X23.  With at least one iteration, the texture pushed to the output table is
    the one the last iteration drew into: it is the texture attached to the
    framebuffer last, and it is one of the destinations this call asked the
    texture cache for.  A download of the pushed value into a frame of the
    texture's pixel size attaches that same texture and reads it back as it
    is: no texture is asked for and nothing is blitted. *)
Theorem render_output_is_the_last_destination :
  ShaderIterations node >= 1 ->
  exists d : OpenGLTexture,
    result.1.2 = Push kTexture (QTextureRef (Some d)) output_params
    /\ d ∈ requested_textures result.2
    /\ last (attached_textures result.2) = Some d
    /\ forall (frame : Frame) (matrix : list Q) (q : OpenGLProxy),
         frame_width frame = tex_width d ->
         frame_height frame = tex_height d ->
         TextureToBuffer X (QTextureRef (Some d)) frame matrix q
         = (with_data frame (read_pixels X d frame), q,
            [glViewport (frame_width frame) (frame_height frame)] ++ read_back_calls d frame).
Proof.
  intros HK. unfold RunNodeAccelerated. cbn [fst snd].
  destruct (run_calls_read X node range input_params params p) as (Q1 & Q2 & _).
  rewrite Q1, Q2, run_node_phases. cbn [calls_dst calls_draw run_output_tex].
  set (sh := (fetch_shader X node input_params p).1.1).
  set (q0 := (fetch_shader X node input_params p).1.2).
  set (it := (bind_parameters X node input_params sh (parameters node) 0 0).2).
  assert (forall (d : OpenGLTexture) (frame : Frame) (matrix : list Q) (q : OpenGLProxy),
            frame_width frame = tex_width d ->
            frame_height frame = tex_height d ->
            TextureToBuffer X (QTextureRef (Some d)) frame matrix q
            = (with_data frame (read_pixels X d frame), q,
               [glViewport (frame_width frame) (frame_height frame)]
               ++ read_back_calls d frame)) as Hdown.
  { intros d frame matrix q Hw Hh. unfold TextureToBuffer. cbn [toReferencePtr].
    rewrite !bool_decide_eq_false_2 by (intros Hne; now apply Hne). reflexivity. }
  destruct (draw_iterations_framebuffer sh (create_dst_refs node params q0).1.1.2
              (create_dst_refs node params q0).1.1.1 it K 0 None) as (L1 & _ & L3).
  cbn zeta in L1, L3.
  set (drawn := draw_iterations K sh (create_dst_refs node params q0).1.1.2
                                (create_dst_refs node params q0).1.1.1 it 0 None) in *.
  assert (exists d, last (attached_textures drawn.1) = Some d /\ drawn.2 = Some d)
    as (d & Hlast & Hout).
  { destruct (last (attached_textures drawn.1)) as [d|] eqn:Hl; [eauto|].
    apply last_None in Hl. rewrite Hl in L1. cbn in L1. lia. }
  exists d. rewrite Hout, Hlast.
  split; [reflexivity|]. split; [|split; [reflexivity|apply Hdown]].
  subst drawn. revert Hout. clear L1 L3 Hlast.
  destruct K as [|n] eqn:HKn; [lia|].
  destruct (decide (ShaderIterations node > 1 /\ is_Some (ShaderIterativeInput node)))
    as [[H1 H2]|Hno].
  - destruct (create_dst_refs_two node params q0 H1 H2) as (D1 & _ & D3).
    rewrite D1, D3. cbn [fst snd].
    destruct (draw_two sh (MkTexture (N.of_nat (S (allocated_ q0))) params)
                (MkTexture (N.of_nat (S (S (allocated_ q0)))) params) it (S n)) as (_ & ->).
    rewrite ping_pong_alternates. intros [= <-].
    destruct (Z.even (Z.of_nat n)); cbn; repeat constructor.
  - destruct (create_dst_refs_one node params q0) as (D1 & _ & D3).
    { destruct (decide (ShaderIterations node > 1)) as [H1|H1]; [|left; lia].
      right. destruct (ShaderIterativeInput node) eqn:Hfb; [|reflexivity].
      exfalso. apply Hno. split; [assumption|eauto]. }
    rewrite D1, D3. cbn [fst snd].
    destruct (draw_one sh (MkTexture (N.of_nat (S (allocated_ q0))) params) it (S n))
      as (_ & ->).
    intros [= <-]. cbn. repeat constructor.
Qed.

End RenderThenDownload.

(** * The further properties at concrete inputs *)

Section ConcreteMore.

Import Demo More.

Lemma initialisation_witness :
  exists (p2 : OpenGLProxy) (calls : list SetupCall),
    FinishInit X_ok true (Init true OpenGLProxy_ctor.1).1.2 = Some (p2, calls)
    /\ ready p2
    /\ (Close p2).2 = [Framebuffer_Destroy; Context_delete 0].
Proof.
  destruct (initialisation_then_Close X_ok OpenGLProxy_ctor.1)
    as (_ & p2 & calls & Hfinish & Hready & _ & _ & _ & _ & _ & Hclose & _).
  exists p2, calls. split; [exact Hfinish|]. split; [exact Hready | exact Hclose].
Defined.

Lemma colour_processor_witness :
  let first := FrameToValue X_ok (frame_with 4 4 PIX_FMT_RGBA8 1) stream0 params4 kOnline
                            proxy0 in
  created_processors first.2 = [("srgb", "linear")]
  /\ created_processors
       (FrameToValue X_ok (frame_with 8 8 PIX_FMT_RGB8 2) stream0 params4 kOffline
                     first.1.2).2 = [].
Proof.
  destruct (colour_processor_is_created_once
              X_ok (frame_with 4 4 PIX_FMT_RGBA8 1) stream0 params4 kOnline proxy0)
    as (Hfirst & _ & _ & Hlater).
  split; [rewrite Hfirst; reflexivity|].
  apply Hlater. reflexivity.
Defined.


Lemma render_call_frame_witness :
  let result := RunNodeAccelerated X_ok blur_node range0 ∅ [] params4 used_proxy in
  linked_programs result.2 = []
  /\ shader_cache_ result.1.1 = shader_cache_ used_proxy.
Proof.
  destruct (render_call_frame_conditions X_ok blur_node range0 ∅ [] params4 used_proxy)
    as (Hlinked & Hhit & _).
  split; [rewrite Hlinked; reflexivity|].
  apply Hhit. exists (MkShader 0 "blur.frag" "default.vert" true). reflexivity.
Defined.

Lemma failed_initialisation_witness :
  (Init false OpenGLProxy_ctor.1).1.1 = false
  /\ FinishInit X_ok false (Init true OpenGLProxy_ctor.1).1.2
     = Some ((Init true OpenGLProxy_ctor.1).1.2, [Context_makeCurrent 0 false]).
Proof.
  destruct (failed_initialisation X_ok OpenGLProxy_ctor.1 eq_refl)
    as ((Hfalse & _) & (Hfinish & _)).
  split; [exact Hfalse | exact Hfinish].
Defined.

Lemma Init_drops_the_context_witness :
  deleted_contexts
    ((Init true proxy_with_context).2
     ++ (OpenGLProxy_dtor (Init true proxy_with_context).1.2).2) = [4%nat].
Proof.
  destruct (Init_drops_the_context_it_replaces true proxy_with_context 3 eq_refl)
    as (_ & Hdeleted & _); [discriminate|].
  exact Hdeleted.
Defined.


Lemma disabled_upload_witness :
  FrameToValue X_off (frame_with 4 4 PIX_FMT_RGBA8 2) stream0 params4 kOnline coloured_proxy
  = PreCachedFrameToValue (frame_with 4 4 PIX_FMT_RGBA8 2) coloured_proxy.
Proof.
  apply (disabled_upload_is_the_precached_upload
           X_off (frame_with 4 4 PIX_FMT_RGBA8 2) stream0 params4 kOnline coloured_proxy).
  - reflexivity.
  - exists (MkColorProcessor "srgb" "linear" false). reflexivity.
Defined.

Lemma texture_units_witness :
  let r := run_node X_flags connected_blur_node range0 ∅ params4 proxy0 in
  sampler_units (run_calls r) = [(0, 0%nat); (1, 1%nat)]
  /\ bound_texture (gl_run gl_with_unit_5 (calls_until_bound r)) 0 = 9%N
  /\ bound_texture (gl_run gl_with_unit_5 (calls_until_bound r)) 1 = 0%N.
Proof.
  destruct (texture_inputs_take_units_in_declaration_order
              X_flags connected_blur_node range0 ∅ params4 proxy0) as (Hs & Hb).
  split; [rewrite Hs; reflexivity|]. split.
  - rewrite (Hb gl_with_unit_5 0%nat (input 1%positive "a" kTexture)); reflexivity.
  - rewrite (Hb gl_with_unit_5 1%nat (input 2%positive "fb" kTexture)); reflexivity.
Defined.

Lemma inputs_without_textures_witness :
  let r := run_node X_flags blur_node range0 ∅ params4 proxy0 in
  enabled_flags (calls_inputs r) = [false; false]
  /\ bound_texture (gl_run gl_with_unit_5 (calls_until_bound r)) 1 = 0%N.
Proof.
  destruct (inputs_without_textures_bind_texture_0 X_flags blur_node range0 ∅ params4 proxy0)
    as (_ & _ & Hbound); [reflexivity|].
  split; [reflexivity|]. apply Hbound. vm_compute. lia.
Defined.

Lemma without_iterations_witness :
  (RunNodeAccelerated X_ok idle_node range0 ∅ [] params4 proxy0).1.2
  = [MkNodeValue kTexture (QTextureRef None)].
Proof.
  destruct (render_call_without_iterations X_ok idle_node range0 ∅ [] params4 proxy0)
    as (_ & _ & _ & Hout); [discriminate|].
  exact Hout.
Defined.

Lemma one_iteration_witness :
  exists d0 : OpenGLTexture,
    requested_textures (RunNodeAccelerated X_ok single_pass_node range0 ∅ [] params4 proxy0).2
    = [d0]
    /\ activated_units (calls_draw (run_node X_ok single_pass_node range0 ∅ params4 proxy0))
       = [].
Proof.
  destruct (render_call_with_one_iteration X_ok single_pass_node range0 ∅ [] params4 proxy0)
    as (d0 & Hreq & _ & _ & Hact & _); [reflexivity|].
  exists d0. split; [exact Hreq | exact Hact].
Defined.

Lemma program_without_uniforms_witness :
  calls_inputs (run_node X_fail blur_node range0 ∅ params4 proxy0) = [Shader_bind 0]
  /\ draws (run_calls (run_node X_fail blur_node range0 ∅ params4 proxy0)) = [0; 0; 0]%nat.
Proof.
  destruct (program_without_uniforms_binds_nothing X_fail blur_node range0 ∅ params4 proxy0)
    as (Hin & _ & Hdraws).
  - repeat constructor; discriminate.
  - split; [exact Hin | exact Hdraws].
Defined.

Lemma program_reused_witness :
  let first := RunNodeAccelerated X_ok blur_node range0 ∅ [] params4 proxy0 in
  linked_programs first.2 = [0%nat]
  /\ linked_programs
       (RunNodeAccelerated X_ok blur_node (MkTimeRange 1 2) ∅ first.1.2
                           (MkVideoParams 8 8 PIX_FMT_RGBA8 1) first.1.1).2 = [].
Proof.
  split; [reflexivity|].
  destruct (program_reused_when_shader_id_is_id
              X_ok blur_node ∅ proxy0 range0 (MkTimeRange 1 2) []
              (RunNodeAccelerated X_ok blur_node range0 ∅ [] params4 proxy0).1.2
              params4 (MkVideoParams 8 8 PIX_FMT_RGBA8 1) eq_refl)
    as (_ & Hlinked & _).
  exact Hlinked.
Defined.

Lemma render_output_witness :
  exists d : OpenGLTexture,
    (RunNodeAccelerated X_ok blur_node range0 ∅ [] params4 proxy0).1.2
    = [MkNodeValue kTexture (QTextureRef (Some d))]
    /\ last (attached_textures (RunNodeAccelerated X_ok blur_node range0 ∅ [] params4 proxy0).2)
       = Some d.
Proof.
  destruct (render_output_is_the_last_destination X_ok blur_node range0 ∅ [] params4 proxy0)
    as (d & Hout & _ & Hlast & _); [discriminate|].
  exists d. split; [exact Hout | exact Hlast].
Defined.

End ConcreteMore.
